(** * vsbil-excel-clean: a shallow embedding of the backend's gating,
      workbook and payment logic, with the properties its specification
      states about them.

    The embedded code is [server/app.js] (the Express application),
    [server/policies.js] (the policy middleware) and
    [server/routes/payments.js] (the payment router).  Asynchronous calls
    are modelled by explicit state passing over a [world] (object storage,
    audit table, profile and payment tables); the outcome of every call to
    an external service is an input of the model, and so is what the
    libraries around the handlers do: the body parsers of Express, the
    naming of a new sheet and the reading of an xlsx file by the
    spreadsheet library, the digest, the JSON parser and the lower-casing
    of strings.

    Further modules embed the premium routes (download and exports), the
    CSV document, the upload key, the NDJSON audit helper, the event stream, the admin, payment verification,
    support and legal routes of [server/app.js], the routers
    [server/routes/roles.js] and [server/routes/excel.js], and the sheet
    list helpers of the client ([pages/Dashboard.jsx], [api/client.js]). *)

From Stdlib Require Import ZArith Ascii String DecimalString DecimalNat.
From stdpp Require Import base option list strings gmap sets.

Local Open Scope string_scope.
Local Open Scope list_scope.
Local Open Scope nat_scope.

(** ** JavaScript values *)

(** The values a cell holds: booleans, numbers and strings.  Numbers are
    the integers that JavaScript numbers represent exactly, up to 2^53 in
    magnitude, which [String] prints in decimal digits. *)
Inductive scalar : Type :=
  | SBool (b : bool)
  | SNum (z : Z)
  | SStr (s : string).

(** The values of a grid entry or a cell read: null, undefined, or a
    scalar. *)
Inductive jsval : Type :=
  | VNull
  | VUndefined
  | VScalar (x : scalar).

Abbreviation VBool b := (VScalar (SBool b)).
Abbreviation VNum z := (VScalar (SNum z)).
Abbreviation VStr s := (VScalar (SStr s)).

#[global] Instance scalar_eq_dec : EqDecision scalar.
Proof. solve_decision. Defined.

#[global] Instance jsval_eq_dec : EqDecision jsval.
Proof. solve_decision. Defined.

(** [v === null || v === undefined] *)
Definition nullish (v : jsval) : bool :=
  match v with
  | VNull | VUndefined => true
  | VScalar _ => false
  end.

(** JavaScript's [String(v)]. *)
Definition String_ (v : jsval) : string :=
  match v with
  | VNull => "null"
  | VUndefined => "undefined"
  | VScalar (SBool true) => "true"
  | VScalar (SBool false) => "false"
  | VScalar (SNum z) => NilZero.string_of_int (Z.to_int z)
  | VScalar (SStr s) => s
  end.

(** Characters the code names. *)
Definition dquote : ascii := ascii_of_nat 34.
Definition comma : ascii := ascii_of_nat 44.
Definition LF : ascii := ascii_of_nat 10.
Definition CR : ascii := ascii_of_nat 13.

(** ** CSV export *)

Module Csv.

(** [s.includes(c)] for a one-character needle. *)
Fixpoint includes (s : string) (c : ascii) : bool :=
  match s with
  | EmptyString => false
  | String a r => Ascii.eqb a c || includes r c
  end.

(** [s.replace] of every double quote by two of them. *)
Fixpoint replace_quotes (s : string) : string :=
  match s with
  | EmptyString => EmptyString
  | String a r =>
      if Ascii.eqb a dquote
      then String dquote (String dquote (replace_quotes r))
      else String a (replace_quotes r)
  end.

(** The test of [escapeCSV]'s [if]. *)
Definition needs_quotes (s : string) : bool :=
  includes s dquote || includes s comma || includes s LF || includes s CR.

(** [escapeCSV] of GET /excel/export/csv. *)
Definition escapeCSV (v : jsval) : string :=
  if nullish v then EmptyString
  else
    let s := String_ v in
    if needs_quotes s
    then String dquote (replace_quotes s +:+ String dquote EmptyString)
    else s.

(** A field reader that follows RFC 4180:
    field = escaped / non-escaped;
    escaped = DQUOTE *(TEXTDATA / COMMA / CR / LF / 2DQUOTE) DQUOTE;
    non-escaped = *TEXTDATA.
    It reads one field from the front of the input and returns it with the
    unread rest, or [None] where the input is not a field of the grammar. *)
Definition is_delim (c : ascii) : bool :=
  Ascii.eqb c comma || Ascii.eqb c LF || Ascii.eqb c CR.

(** The rest of the input after a field: empty, or at a separator. *)
Definition at_field_end (rest : string) : bool :=
  match rest with
  | EmptyString => true
  | String c _ => is_delim c
  end.

Fixpoint rfc4180_escaped (s : string) : option (string * string) :=
  match s with
  | EmptyString => None
  | String a r =>
      if Ascii.eqb a dquote then
        match r with
        | String b r' =>
            if Ascii.eqb b dquote
            then '(f, rest) ← rfc4180_escaped r'; Some (String dquote f, rest)
            else if is_delim b then Some (EmptyString, r) else None
        | EmptyString => Some (EmptyString, EmptyString)
        end
      else '(f, rest) ← rfc4180_escaped r; Some (String a f, rest)
  end.

Fixpoint rfc4180_plain (s : string) : option (string * string) :=
  match s with
  | EmptyString => Some (EmptyString, EmptyString)
  | String a r =>
      if is_delim a then Some (EmptyString, s)
      else if Ascii.eqb a dquote then None
      else '(f, rest) ← rfc4180_plain r; Some (String a f, rest)
  end.

Definition rfc4180_field (s : string) : option (string * string) :=
  match s with
  | String a r => if Ascii.eqb a dquote then rfc4180_escaped r else rfc4180_plain s
  | EmptyString => Some (EmptyString, EmptyString)
  end.

(** The character [c] occurs in [s]. *)
Definition occurs (c : ascii) (s : string) : Prop := In c (list_ascii_of_string s).

(** The string holds a comma, a double quote or a line break: a line feed
    or a carriage return, both of which [escapeCSV] tests. *)
Definition special (s : string) : Prop :=
  occurs comma s ∨ occurs dquote s ∨ occurs LF s ∨ occurs CR s.

(** [s] between double quotes, its own double quotes doubled. *)
Definition quoted (s : string) : string :=
  String dquote (replace_quotes s +:+ String dquote EmptyString).

(** A value with a comma, a double quote and a line feed, as the
    specification's scenario has it, followed by the next field. *)
Definition csv_sample : jsval :=
  VStr (String "a" (String comma (String dquote (String LF "b")))).

End Csv.

(** ** Identity and plan resolution *)

Module Identity.

(** The part of [CONFIG] the resolvers and gates read. *)
Record config : Type := Config {
  EXCEL_FILE_KEY : string;
  USER_FILES_PREFIX : string;
  OWNER_EMAIL : string
}.

(** [req.user], as the auth provider returns it. *)
Record user : Type := User {
  id : string;
  email : option string
}.

(** A row of [profiles], restricted to the selected columns; a column that
    is null is [None]. *)
Record profile_row : Type := ProfileRow {
  plan : option string;
  role : option string;
  user_file_key : option string;
  row_email : option string;
  status : option string
}.

(** What [await req.supabase.from('profiles')...single()] does: it resolves
    to [{ data, error }] or it throws. *)
Inductive lookup : Type :=
  | Resolved (data : option profile_row) (error : bool)
  | Threw.

(** The lookup failed or returned no row. *)
Definition lookup_failed (l : lookup) : Prop :=
  match l with
  | Resolved data error => error = true ∨ data = None
  | Threw => True
  end.

(** The request fields the resolvers write. *)
Record context : Type := Context {
  userPlan : string;
  userRole : string;
  userEmail : string;
  userStatus : option string;
  fileKey : string
}.

(** JavaScript's [a || b] on a nullable string: null, undefined and the
    empty string are falsy. *)
Definition or_else (a : option string) (b : string) : string :=
  match a with
  | Some (String c r) => String c r
  | _ => b
  end.

(** The template string
    [`${CONFIG.USER_FILES_PREFIX}/${req.user.id}/uploaded.xlsx`]. *)
Definition user_file_path (cfg : config) (uid : string) : string :=
  USER_FILES_PREFIX cfg +:+ "/" +:+ uid +:+ "/uploaded.xlsx".

(** [attachUserContext] of server/policies.js.  [req_user] is [req.user],
    [has_client] says whether [req.supabase] is set.  The middleware does
    not write [req.userEmail] nor [req.userStatus]. *)
Definition attachUserContext (cfg : config) (req_user : option user)
    (has_client : bool) (l : lookup) : context :=
  match req_user, has_client with
  | Some u, true =>
      match l with
      | Resolved (Some data) false =>
          Context (or_else (plan data) "free") (or_else (role data) "user")
                  EmptyString None
                  (or_else (user_file_key data) (user_file_path cfg (id u)))
      | Resolved _ _ => Context "free" "user" EmptyString None (EXCEL_FILE_KEY cfg)
      | Threw => Context "free" "user" EmptyString None (EXCEL_FILE_KEY cfg)
      end
  | _, _ => Context "anon" "anon" EmptyString None (EXCEL_FILE_KEY cfg)
  end.

(** [data?.f], for [data] that may be null. *)
Definition opt_field (data : option profile_row)
    (f : profile_row → option string) : option string :=
  data ≫= f.

(** [attachUserPlanAndFile] of server/app.js. *)
Definition attachUserPlanAndFile (cfg : config) (req_user : option user)
    (has_client : bool) (l : lookup) : context :=
  match req_user, has_client with
  | Some u, true =>
      match l with
      | Resolved data true =>
          Context "free" "user" (or_else (email u) EmptyString) None
                  (EXCEL_FILE_KEY cfg)
      | Resolved data false =>
          Context (or_else (opt_field data plan) "free")
                  (or_else (opt_field data role) "user")
                  (or_else (opt_field data row_email) (or_else (email u) EmptyString))
                  (Some (or_else (opt_field data status) "active"))
                  (or_else (opt_field data user_file_key) (user_file_path cfg (id u)))
      | Threw =>
          Context "free" "user" (or_else (email u) EmptyString) None
                  (EXCEL_FILE_KEY cfg)
      end
  | _, _ => Context "anon" "guest" EmptyString None (EXCEL_FILE_KEY cfg)
  end.

(** [requireAuth] of server/app.js: the bearer token of the Authorization
    header, then [auth.getUser(token)], whose outcome is [getUser]. *)
Definition bearer_token (authHeader : string) : option string :=
  if String.prefix "Bearer " authHeader
  then Some (String.substring 7 (String.length authHeader - 7) authHeader)
  else None.

Definition requireAuth (authHeader : string) (getUser : string → option user)
    : nat + user :=
  match bearer_token authHeader with
  | Some (String c t) =>
      match getUser (String c t) with
      | Some u => inr u
      | None => inl 401
      end
  | _ => inl 401
  end.

(** The specification's claim about a failed lookup, for a resolver. *)
Definition fails_to_user_path
    (resolve : config → option user → bool → lookup → context) : Prop :=
  ∀ cfg u l, lookup_failed l →
    userRole (resolve cfg (Some u) true l) = "user"
    ∧ userPlan (resolve cfg (Some u) true l) = "free"
    ∧ fileKey (resolve cfg (Some u) true l) = user_file_path cfg (id u).

(** The key [attachUserPlanAndFile] leaves after a failed lookup. *)
Definition fallback_key (cfg : config) (u : user) (l : lookup) : string :=
  match l with
  | Resolved None false => user_file_path cfg (id u)
  | _ => EXCEL_FILE_KEY cfg
  end.

(** The configuration defaults of server/app.js, and a user. *)
Definition sample_config : config := Config "master.xlsx" "users" "owner@example.com".
Definition sample_user : user := User "u1" (Some "u1@example.com").

End Identity.

(** ** The audit table and the free-plan gates *)

Module Gate.

Import Identity.

(** A row of [excel_audit].  [created_at] is in seconds of UTC time. *)
Record audit_entry : Type := AuditEntry {
  a_user_id : string;
  a_email : string;
  a_action : string;
  a_sheet_name : option string;
  a_created_at : Z
}.

(** [new Date().toISOString().split('T')[0]]: the start of the current UTC
    day, as the instant the date string denotes. *)
Definition utc_day_start (now : Z) : Z := (now / 86400 * 86400)%Z.

(** The count query of the gates:
    [.eq('user_id', id).in('action', actions).gte('created_at', today)]
    with [{ count: 'exact', head: true }]. *)
Definition matches (uid : string) (actions : list string) (today : Z)
    (e : audit_entry) : bool :=
  bool_decide (a_user_id e = uid)
  && bool_decide (a_action e ∈ actions)
  && bool_decide (today ≤ a_created_at e)%Z.

Definition count_today (table : list audit_entry) (uid : string)
    (actions : list string) (now : Z) : nat :=
  length (filter (λ e, matches uid actions (utc_day_start now) e = true) table).

(** The action list each gated route counts. *)
Inductive route : Type := AddSheet | DeleteSheet | GetCell | SaveAll.

Definition quota_actions (r : route) : list string :=
  match r with
  | AddSheet => ["add_sheet"]
  | DeleteSheet => ["save_all"; "delete_sheet"; "edit_sheet"; "add_sheet"]
  | GetCell => ["get_cell"; "save_all"; "delete_sheet"; "add_sheet"]
  | SaveAll => ["save_all"]
  end.

Definition quota_message (r : route) : string :=
  match r with
  | AddSheet => "Free plan limit: max 3 new sheets per day"
  | DeleteSheet => "Free plan limit: max 3 edits/saves per day"
  | GetCell => "Free plan limit: max 3 queries/saves per day"
  | SaveAll => "Free plan limit: max 3 saves per day"
  end.

(** [if (req.userPlan === 'free') { ... if (count >= 3) return 403 }].
    [count] is null when the query fails, and [null >= 3] is false.
    The result is the denial, if any. *)
Definition quota_gate (r : route) (ctx : context) (count : option nat)
    : option (nat * string) :=
  if bool_decide (userPlan ctx = "free") then
    match count with
    | Some n => if bool_decide (3 ≤ n)%nat then Some (403, quota_message r) else None
    | None => None
    end
  else None.

(** The gate of route [r] for user [uid] at time [now] over the audit
    table; [query_ok] is whether the count query succeeds. *)
Definition free_plan_gate (r : route) (ctx : context) (uid : string)
    (table : list audit_entry) (now : Z) (query_ok : bool)
    : option (nat * string) :=
  quota_gate r ctx
    (if query_ok then Some (count_today table uid (quota_actions r) now) else None).

(** The plan gates of the premium routes. *)
Inductive premium_route : Type := Download | ExportCsv | ExportPdf | AuditList.

Definition premium_message (r : premium_route) : string :=
  match r with
  | Download => "Downloads are available only on premium plans"
  | ExportCsv => "CSV export is available only on premium plans"
  | ExportPdf => "PDF export is available only on premium plans"
  | AuditList => "Audit logs are not available on the free plan"
  end.

(** The plan test of each premium handler, by which a handler denies a
    request.  GET /excel/download tests plan, role and owner email; the
    three others test the plan only.  It is the first statement of the
    download and of the audit list; the two exports test the sheet
    parameter before it (see [Premium]). *)
Definition plan_gate (cfg : config) (r : premium_route) (ctx : context)
    : option (nat * string) :=
  match r with
  | Download =>
      if bool_decide (userPlan ctx = "free")
         && bool_decide (userRole ctx ≠ "superadmin")
         && bool_decide (userEmail ctx ≠ OWNER_EMAIL cfg)
      then Some (403, premium_message r) else None
  | ExportCsv | ExportPdf | AuditList =>
      if bool_decide (userPlan ctx = "free")
      then Some (403, premium_message r) else None
  end.

(** The exemption the specification describes. *)
Definition privileged (cfg : config) (ctx : context) : Prop :=
  userRole ctx = "superadmin" ∨ userEmail ctx = OWNER_EMAIL cfg.

(** The single action set the specification describes, and the gate it
    would give every route. *)
Definition shared_actions : list string :=
  ["add_sheet"; "delete_sheet"; "save_all"; "get_cell"].

Definition claimed_gate (r : route) (ctx : context) (uid : string)
    (table : list audit_entry) (now : Z) : option (nat * string) :=
  quota_gate r ctx (Some (count_today table uid shared_actions now)).

(** A free-plan user who has queried three cells today. *)
Definition sample_now : Z := 1762041600 + 3600.

Definition free_context : context :=
  Context "free" "user" "u1@example.com" (Some "active") "users/u1/uploaded.xlsx".

Definition three_queries : list audit_entry :=
  [ AuditEntry "u1" "u1@example.com" "get_cell" (Some "Sheet1") (1762041600 + 60);
    AuditEntry "u1" "u1@example.com" "get_cell" (Some "Sheet1") (1762041600 + 120);
    AuditEntry "u1" "u1@example.com" "get_cell" (Some "Sheet1") (1762041600 + 180) ].

(** The specification's claim about the plan gate of a premium route. *)
Definition exempts_privileged (cfg : config) (r : premium_route) : Prop :=
  ∀ ctx, userPlan ctx = "free" →
    (plan_gate cfg r ctx = None ↔ privileged cfg ctx).

(** A superadmin, and the owner, on the free plan. *)
Definition free_superadmin : context :=
  Context "free" "superadmin" "root@example.com" (Some "active") "users/u2/uploaded.xlsx".

Definition free_owner : context :=
  Context "free" "user" "owner@example.com" (Some "active") "users/u3/uploaded.xlsx".

End Gate.

(** ** The spreadsheet library, as the handlers use it *)

Module Excel.

(** A worksheet of the spreadsheet library.  [cells] holds the cells whose
    value is not null, by (row, column), both counted from 1.  [rowCount]
    is the number of the last row object ([getRow] creates the row it is
    asked for) and [columnsLen] the length of [ws.columns] ([getCell]
    creates the columns up to the one it is asked for), 0 when
    [ws.columns] is null.  [lastCellRow] is the number of the last row
    that holds a cell object, 0 when no row holds one: [getCell] creates
    the cell it is asked for, and a cell whose value is set to null stays
    in its row. *)
Record worksheet : Type := Worksheet {
  name : string;
  cells : gmap (nat * nat) scalar;
  rowCount : nat;
  columnsLen : nat;
  lastCellRow : nat
}.

(** [cell.value ?? null] *)
Definition cell_value (ws : worksheet) (r c : nat) : jsval :=
  match cells ws !! (r, c) with
  | Some x => VScalar x
  | None => VNull
  end.

(** [ws.getRow(r)] *)
Definition getRow (r : nat) (ws : worksheet) : worksheet :=
  Worksheet (name ws) (cells ws) (Nat.max (rowCount ws) r) (columnsLen ws)
    (lastCellRow ws).

(** [excelRow.getCell(c)] on the row [r] *)
Definition getCell (r c : nat) (ws : worksheet) : worksheet :=
  Worksheet (name ws) (cells ws) (rowCount ws) (Nat.max (columnsLen ws) c)
    (Nat.max (lastCellRow ws) r).

(** [cell.value = v]; a null or undefined value leaves a cell of type
    Null, which holds no value. *)
Definition set_value (r c : nat) (v : jsval) (ws : worksheet) : worksheet :=
  Worksheet (name ws)
    (match v with
     | VScalar x => <[(r, c) := x]> (cells ws)
     | VNull | VUndefined => delete (r, c) (cells ws)
     end)
    (rowCount ws) (columnsLen ws) (lastCellRow ws).

(** The rows, and the columns, that hold a value. *)
Definition rows_used (ws : worksheet) : gset nat :=
  set_map (D := gset nat) fst (dom (cells ws)).

Definition cols_used (ws : worksheet) : gset nat :=
  set_map (D := gset nat) snd (dom (cells ws)).

(** [ws.actualRowCount]: the count of the rows that have values.
    [ws.actualColumnCount]: the count of the columns that have values. *)
Definition actualRowCount (ws : worksheet) : nat := size (rows_used ws).
Definition actualColumnCount (ws : worksheet) : nat := size (cols_used ws).

(** JavaScript's [a || b] on numbers. *)
Definition or_nat (a b : nat) : nat := if Nat.eqb a 0 then b else a.

(** The empty sheet [workbook.addWorksheet(name)] creates. *)
Definition new_sheet (n : string) : worksheet := Worksheet n ∅ 0 0 0.

(** A workbook: its worksheets in order. *)
Definition workbook : Type := list worksheet.

Definition getWorksheet (wb : workbook) (n : string) : option worksheet :=
  List.find (λ ws, bool_decide (name ws = n)) wb.

Definition removeWorksheet (wb : workbook) (n : string) : workbook :=
  List.filter (λ ws, negb (bool_decide (name ws = n))) wb.

(** Replace the sheet of that name by [ws]. *)
Definition putWorksheet (wb : workbook) (ws : worksheet) : workbook :=
  List.map (λ x, if bool_decide (name x = name ws) then ws else x) wb.

Definition sheet_names (wb : workbook) : list string := List.map name wb.

(** The greatest number of a set, 0 for the empty set. *)
Definition last_of (X : gset nat) : nat := set_fold Nat.max 0 X.

(** Writing a workbook as an xlsx file and loading the file again
    ([workbook.xlsx.writeBuffer], [workbook.xlsx.load]).  The file holds a
    row element for each row that holds a cell object, the rows of cleared
    cells among them, and a cell element for each cell whose value is not
    null; the loaded sheet has the row objects of the file, the cells with
    a value, and the columns up to the last of these cells.  The file
    format does not keep every sheet name and every text as it is (line
    breaks are normalised, control characters are dropped): [xlsx_name]
    and [xlsx_text] stand for the name and the text that are read back.
    Booleans and numbers are read back as they were written. *)
Definition xlsx_scalar (xlsx_text : string → string) (x : scalar) : scalar :=
  match x with
  | SStr s => SStr (xlsx_text s)
  | SBool _ | SNum _ => x
  end.

Definition reload_sheet (xlsx_name xlsx_text : string → string) (ws : worksheet)
    : worksheet :=
  Worksheet (xlsx_name (name ws)) (xlsx_scalar xlsx_text <$> cells ws)
    (Nat.max (lastCellRow ws) (last_of (rows_used ws)))
    (last_of (cols_used ws))
    (last_of (rows_used ws)).

Definition reload (xlsx_name xlsx_text : string → string) (wb : workbook)
    : workbook :=
  List.map (reload_sheet xlsx_name xlsx_text) wb.

(** A cell value as it is read back from the file. *)
Definition xlsx_value (xlsx_text : string → string) (v : jsval) : jsval :=
  match v with
  | VScalar x => VScalar (xlsx_scalar xlsx_text x)
  | VNull | VUndefined => v
  end.

(** A reading that keeps names and texts as they are, as the file format
    does for the short names and texts of letters and digits that the
    sample workbooks hold. *)
Definition kept (s : string) : string := s.

(** *** POST /excel/save-all on one sheet *)

(** The request's [data]: an array whose elements are arrays or not, or
    something that is no array. *)
Inductive row_data : Type :=
  | RArray (r : list jsval)
  | RValue (v : jsval).

Inductive grid_data : Type :=
  | DArray (rows : list row_data)
  | DOther.

(** [Array.isArray(data) ? data.map(r => Array.isArray(r) ? r : [r]) : [[]]] *)
Definition normalize (data : grid_data) : list (list jsval) :=
  match data with
  | DArray rows =>
      List.map (λ r, match r with RArray l => l | RValue v => [v] end) rows
  | DOther => [[]]
  end.

(** [grid.reduce((m, r) => Math.max(m, r.length), 0)] *)
Definition maxColIn (grid : list (list jsval)) : nat :=
  foldl (λ m r, Nat.max m (length r)) 0 grid.

(** [row[c] ?? null] *)
Definition entry (row : list jsval) (c : nat) : jsval :=
  match row !! c with
  | Some v => if nullish v then VNull else v
  | None => VNull
  end.

(** The body of the inner loop of the in-bounds pass. *)
Definition write_cell (r c : nat) (newVal : jsval) (ws : worksheet) : worksheet :=
  let ws := getCell r c ws in
  let oldVal := cell_value ws r c in
  if bool_decide (oldVal ≠ newVal) then set_value r c newVal ws else ws.

(** The body of both clearing loops:
    [if (cell.value != null) cell.value = null]. *)
Definition clear_cell (r c : nat) (ws : worksheet) : worksheet :=
  let ws := getCell r c ws in
  if negb (nullish (cell_value ws r c)) then set_value r c VNull ws else ws.

(** [for (let i = lo; i <= hi; i++) body(i)] *)
Definition for_range (lo hi : nat) (body : nat → worksheet → worksheet)
    (ws : worksheet) : worksheet :=
  foldl (λ w i, body i w) ws (seq lo (S hi - lo)).

(** Apply edits to provided bounds. *)
Definition apply_edits (grid : list (list jsval)) (ws : worksheet) : worksheet :=
  let maxRowIn := length grid in
  let maxColIn := maxColIn grid in
  foldl (λ w r,
      let row := default [] (grid !! r) in
      foldl (λ w c, write_cell (r + 1) (c + 1) (entry row c) w)
        (getRow (r + 1) w) (seq 0 maxColIn))
    ws (seq 0 maxRowIn).

(** Clear rows beyond the new maxRowIn, then clear cols beyond the new
    maxColIn for existing rows. *)
Definition clear_trailing (maxRowIn maxColIn : nat) (ws : worksheet) : worksheet :=
  let existingMaxRow := or_nat (actualRowCount ws) (rowCount ws) in
  let existingMaxCol := or_nat (actualColumnCount ws) (columnsLen ws) in
  let ws :=
    for_range (maxRowIn + 1) existingMaxRow
      (λ r w, for_range 1 existingMaxCol (clear_cell r) (getRow r w)) ws in
  for_range 1 (Nat.max existingMaxRow maxRowIn)
    (λ r w, for_range (maxColIn + 1) existingMaxCol (clear_cell r) (getRow r w)) ws.

(** The sheet mutation of POST /excel/save-all. *)
Definition save_grid (grid : list (list jsval)) (ws : worksheet) : worksheet :=
  clear_trailing (length grid) (maxColIn grid) (apply_edits grid ws).

(** *** GET /excel/preview on one sheet *)

Record preview_result : Type := PreviewResult {
  preview : list (list jsval);
  rows : nat;
  cols : nat
}.

Definition preview_sheet (ws : worksheet) : preview_result :=
  let maxRow := or_nat (or_nat (actualRowCount ws) (rowCount ws)) 0 in
  let maxCol := or_nat (actualColumnCount ws) (columnsLen ws) in
  let safeRowCount := Nat.max maxRow 1 in
  let safeColCount := Nat.max maxCol 1 in
  PreviewResult
    (List.map (λ r, List.map (λ c, cell_value ws r c) (seq 1 safeColCount))
       (seq 1 safeRowCount))
    maxRow maxCol.

(** The grid [save_grid] was given, padded to its rectangle. *)
Definition padded (grid : list (list jsval)) : list (list jsval) :=
  List.map (λ row, List.map (entry row) (seq 0 (maxColIn grid))) grid.

(** The cell (r, c), counted from 1, lies in the rectangle of [R] rows and
    [C] columns. *)
Definition in_bounds (R C r c : nat) : Prop := 1 ≤ r ≤ R ∧ 1 ≤ c ≤ C.

#[export] Instance in_bounds_dec R C r c : Decision (in_bounds R C r c).
Proof. unfold in_bounds. apply _. Defined.

(** What a cell holds after [cell.value = v]. *)
Definition to_cell (v : jsval) : option scalar :=
  match v with
  | VScalar x => Some x
  | VNull | VUndefined => None
  end.

(** The grid's entry for the cell (r, c), counted from 1. *)
Definition grid_at (grid : list (list jsval)) (r c : nat) : jsval :=
  entry (default [] (grid !! (r - 1))) (c - 1).

(** The rows that hold a value are the rows 1..[R'], and the columns that
    hold a value are the columns 1..[C']: no empty row or column lies
    between used ones. *)
Definition used_extent (ws : worksheet) (R' C' : nat) : Prop :=
  rows_used ws = set_seq 1 R' ∧ cols_used ws = set_seq 1 C'.

(** Every row of the grid, and every column, holds a value. *)
Definition full_rows (grid : list (list jsval)) : Prop :=
  ∀ i row, grid !! i = Some row → ∃ j, nullish (entry row j) = false.

Definition full_cols (grid : list (list jsval)) : Prop :=
  ∀ j, j < maxColIn grid →
    ∃ i row, grid !! i = Some row ∧ nullish (entry row j) = false.

(** The specification's claim about shrinking: every cell that held a
    value and lies outside the new bounds reads null after the save, and
    the preview that follows has the grid's dimensions. *)
Definition shrink_clears (xlsx_name xlsx_text : string → string)
    (grid : list (list jsval)) (ws : worksheet) : Prop :=
  let read_back := reload_sheet xlsx_name xlsx_text (save_grid grid ws) in
  (∀ r c, is_Some (cells ws !! (r, c)) →
     ¬ in_bounds (length grid) (maxColIn grid) r c →
     cell_value (save_grid grid ws) r c = VNull)
  ∧ length (preview (preview_sheet read_back)) = length grid
  ∧ ∀ row, row ∈ preview (preview_sheet read_back) → length row = maxColIn grid.

(** A sheet with values in A1 and A3 and none in row 2, and a sheet of
    two rows and two columns. *)
Definition sparse_sheet : worksheet :=
  Worksheet "S" (<[(1, 1) := SStr "a"]> (<[(3, 1) := SStr "c"]> ∅)) 3 1 3.

Definition square_sheet : worksheet :=
  Worksheet "S"
    (<[(1, 1) := SNum 1]> (<[(1, 2) := SNum 2]>
       (<[(2, 1) := SNum 3]> (<[(2, 2) := SNum 4]> ∅)))) 2 2 2.

End Excel.

(** ** The sheet list that is served *)

Module Sheets.

(** [sheets.indexOf(x)], [None] for -1. *)
Fixpoint indexOf (sheets : list string) (x : string) : option nat :=
  match sheets with
  | [] => None
  | y :: r => if bool_decide (y = x) then Some 0 else S <$> indexOf r x
  end.

(** Pin latest at top, preserve original order for the rest
    (GET /excel/sheets):
    [if (sheets.length > 0 && latestSheet) { const latestIndex =
    sheets.indexOf(latestSheet); if (latestIndex !== -1) {
    sheets.splice(latestIndex, 1); sheets.unshift(latestSheet) } }]. *)
Definition pin_latest (sheets : list string) (latestSheet : option string)
    : list string :=
  match sheets, latestSheet with
  | _ :: _, Some (String a r) =>
      match indexOf sheets (String a r) with
      | Some latestIndex => String a r :: delete latestIndex sheets
      | None => sheets
      end
  | _, _ => sheets
  end.

(** [[...new Set([...sheets, ...masterSheets])]]: the first occurrence of
    each name, in order. *)
Fixpoint uniq_from (seen : list string) (l : list string) : list string :=
  match l with
  | [] => []
  | x :: r =>
      if bool_decide (x ∈ seen) then uniq_from seen r
      else x :: uniq_from (x :: seen) r
  end.

Definition merge_sheets (sheets masterSheets : list string) : list string :=
  uniq_from [] (sheets ++ masterSheets).

(** [[rest[i], rest[j]] = [rest[j], rest[i]]] *)
Definition swap (rest : list string) (i j : nat) : list string :=
  match rest !! i, rest !! j with
  | Some a, Some b => <[i := b]> (<[j := a]> rest)
  | _, _ => rest
  end.

(** The shuffle of POST /excel/add-sheet:
    [for (let i = rest.length - 1; i > 0; i--) { const j =
    Math.floor(Math.random() * (i + 1)); swap rest[i], rest[j] }].
    [random i] stands for the draw made at index [i]; it is reduced to
    the range 0..i the expression has. *)
Definition shuffle (random : nat → nat) (rest : list string) : list string :=
  foldl (λ l i, swap l i (random i mod (i + 1))) rest
    (rev (seq 1 (length rest - 1))).

(** Reorder sheets: new sheet at top, rest shuffled. *)
Definition reorder_added (random : nat → nat) (sheetNames : list string)
    (new : string) : list string :=
  new :: shuffle random (List.filter (λ s, negb (bool_decide (s = new))) sheetNames).

(** The latest-sheet query of GET /excel/sheets:
    [.eq('user_id', id).in('action', ['save_all', 'add_sheet',
    'delete_sheet']).order('created_at', { ascending: false }).limit(1)].
    Of several rows with the greatest timestamp, the model returns the one
    that comes first in the table. *)
Definition latest_actions : list string := ["save_all"; "add_sheet"; "delete_sheet"].

Definition latest_entry (table : list Gate.audit_entry) (uid : string)
    : option Gate.audit_entry :=
  foldl (λ best e,
      if bool_decide (Gate.a_user_id e = uid)
         && bool_decide (Gate.a_action e ∈ latest_actions)
      then match best with
           | Some b =>
               if bool_decide (Gate.a_created_at b < Gate.a_created_at e)%Z
               then Some e else best
           | None => Some e
           end
      else best)
    None table.

(** [latestSheet]: [auditRows[0].sheet_name || null] when the query
    succeeded with a row, null otherwise. *)
Definition latestSheet (table : list Gate.audit_entry) (uid : string)
    (query_ok : bool) : option string :=
  if query_ok then latest_entry table uid ≫= Gate.a_sheet_name else None.





End Sheets.

(** ** The workbook routes of server/app.js *)

Module Server.

Import Identity Gate Excel.

(** An object of the bucket: the bytes of a workbook, or bytes that
    [workbook.xlsx.load] rejects. *)
Inductive blob : Type :=
  | Xlsx (wb : workbook)
  | Corrupt.

(** A broadcast on the event stream: event name and sheet. *)
Definition sse_event : Type := (string * string)%type.

Record world : Type := World {
  storage : gmap string blob;
  excel_audit : list audit_entry;
  events : list sse_event
}.

(** What the services around a request do: the clock, the storage calls
    that return an error, the queries that fail, the spreadsheet library's
    naming of a new sheet and its reading of an xlsx file, the draws of
    [Math.random], the cell addresses the library decodes.
    [worksheet_name names n] is the name [workbook.addWorksheet(n)] gives
    the sheet it adds to a workbook whose sheets bear [names], [None] when
    the call throws: the library refuses some names, among them one that
    another sheet bears, and cuts a name longer than 31 characters down
    to 31.  [xlsx_name] and [xlsx_text] are the sheet name and the cell
    text read back from a written file (see [Excel.reload_sheet]). *)
Record env : Type := Env {
  now : Z;
  download_fails : string → bool;
  upload_error : option string;
  count_ok : bool;
  latest_ok : bool;
  insert_ok : bool;
  worksheet_name : list string → string → option string;
  xlsx_name : string → string;
  xlsx_text : string → string;
  random : nat → nat;
  decodeAddress : string → option (nat * nat)
}.

Inductive body : Type :=
  | BError (msg : string)
  | BAddSheet (sheet : string) (sheets : list string)
  | BDeleteSheet (deleted : string) (sheets : list string)
  | BCell (sheet cell : string) (value : jsval) (source : string)
  | BSheets (sheets : list string)
  | BSuccess
  | BPreview (sheet : string) (p : preview_result).

Record response : Type := Response {
  status : nat;
  payload : body
}.

Definition error (st : nat) (msg : string) : response := Response st (BError msg).

(** The catch clause of every handler; the exception's message, which the
    handler appends, is left out. *)
Definition unexpected : response := error 500 "Unexpected server error".

(** The message of GET /excel/get and GET /excel/preview for a sheet that
    is not in the workbook: the name between double quotes. *)
Definition sheet_not_found (n : string) : string :=
  "Sheet " +:+ String dquote (n +:+ String dquote " not found").

(** [getBufferFromStorage]: [{ buffer }] or [{ error }]. *)
Definition getBufferFromStorage (e : env) (w : world) (key : string)
    : option blob :=
  if download_fails e key then None else storage w !! key.

(** [updateBufferToStorage]: the error, if any, and the bucket after. *)
Definition updateBufferToStorage (e : env) (w : world) (key : string)
    (buffer : blob) : option string * world :=
  match upload_error e with
  | Some msg => (Some msg, w)
  | None => (None, World (<[key := buffer]> (storage w)) (excel_audit w) (events w))
  end.

(** [loadWorkbook]: [None] when it throws. *)
Definition loadWorkbook (buffer : blob) : option workbook :=
  match buffer with
  | Xlsx wb => Some wb
  | Corrupt => None
  end.

(** [workbook.xlsx.writeBuffer()]: the bytes are represented by the
    workbook that loading them gives. *)
Definition writeBuffer (e : env) (wb : workbook) : blob :=
  Xlsx (reload (xlsx_name e) (xlsx_text e) wb).

(** [const ws = workbook.addWorksheet(name)], which throws on a name the
    library refuses, followed by what the handler does to the sheet object
    [ws] it got, [edit]: the new sheet is the last of the workbook and
    bears the name the library gives it. *)
Definition try_addWorksheet (e : env) (wb : workbook) (n : string)
    (edit : worksheet → worksheet) : option workbook :=
  n' ← worksheet_name e (sheet_names wb) n;
  Some (wb ++ [edit (new_sheet n')]).

(** [await req.supabase.from('excel_audit').insert(...)]; the handlers do
    not look at its result. *)
Definition insert_audit (e : env) (u : user) (ctx : context)
    (action : string) (sheet : string) (w : world) : world :=
  if insert_ok e
  then World (storage w)
         (excel_audit w ++ [AuditEntry (id u) (userEmail ctx) action (Some sheet) (now e)])
         (events w)
  else w.

Definition broadcastSSE (event sheet : string) (w : world) : world :=
  World (storage w) (excel_audit w) (events w ++ [(event, sheet)]).

(** [req.userRole === 'superadmin' ? CONFIG.EXCEL_FILE_KEY : req.fileKey] *)
Definition target_key (cfg : config) (ctx : context) : string :=
  if bool_decide (userRole ctx = "superadmin") then EXCEL_FILE_KEY cfg else fileKey ctx.

Definition nonempty (s : string) : bool :=
  match s with
  | EmptyString => false
  | String _ _ => true
  end.

(** [ws.getCell('A1').value = text] *)
Definition seed (text : string) (ws : worksheet) : worksheet :=
  set_value 1 1 (VStr text) (getCell 1 1 (getRow 1 ws)).

(** [const ws = workbook.addWorksheet(name);
    ws.getCell('A1').value = 'New sheet created'] for a sheet the library
    names [n]. *)
Definition seeded_sheet (n : string) : worksheet :=
  seed "New sheet created" (new_sheet n).

(** POST /excel/add-sheet *)
Definition add_sheet (cfg : config) (e : env) (u : user) (ctx : context)
    (sheet : option string) (overwrite : bool) (w : world) : response * world :=
  match sheet with
  | Some (String a0 r0) =>
    let n := String a0 r0 in
    match free_plan_gate AddSheet ctx (id u) (excel_audit w) (now e) (count_ok e) with
    | Some (st, msg) => (error st msg, w)
    | None =>
      let key := target_key cfg ctx in
      if negb (nonempty key) then (error 404 "Workbook key not found", w) else
      let loaded :=
        match getBufferFromStorage e w key with
        | None => try_addWorksheet e [] "Sheet1" (λ ws, ws)
        | Some buffer => loadWorkbook buffer
        end in
      match loaded with
      | None => (unexpected, w)
      | Some workbook =>
        let existing := getWorksheet workbook n in
        if bool_decide (is_Some existing) && negb overwrite
        then (error 400 "Sheet already exists", w) else
        let workbook :=
          if bool_decide (is_Some existing) then removeWorksheet workbook n
          else workbook in
        match try_addWorksheet e workbook n (seed "New sheet created") with
        | None => (unexpected, w)
        | Some workbook =>
          let outBuffer := writeBuffer e workbook in
          match updateBufferToStorage e w key outBuffer with
          | (Some msg, w) => (error 500 msg, w)
          | (None, w) =>
            match loadWorkbook outBuffer with
            | None => (unexpected, w)
            | Some reloaded =>
              let sheetNames := sheet_names reloaded in
              let w := insert_audit e u ctx "add_sheet" n w in
              let w := broadcastSSE "excel:add_sheet" n w in
              (Response 200 (BAddSheet n (Sheets.reorder_added (random e) sheetNames n)), w)
            end
          end
        end
      end
    end
  | _ => (error 400 "Sheet name is required", w)
  end.

(** POST /excel/delete-sheet *)
Definition delete_sheet (cfg : config) (e : env) (u : user) (ctx : context)
    (sheet : option string) (w : world) : response * world :=
  match sheet with
  | Some (String a0 r0) =>
    let n := String a0 r0 in
    match free_plan_gate DeleteSheet ctx (id u) (excel_audit w) (now e) (count_ok e) with
    | Some (st, msg) => (error st msg, w)
    | None =>
      let key := target_key cfg ctx in
      if negb (nonempty key) then (error 404 "Workbook key not found", w) else
      match getBufferFromStorage e w key with
      | None => (error 404 "Workbook not found", w)
      | Some buffer =>
        match loadWorkbook buffer with
        | None => (unexpected, w)
        | Some workbook =>
          match getWorksheet workbook n with
          | None => (error 400 "Sheet not found", w)
          | Some _ =>
            let workbook := removeWorksheet workbook n in
            let outBuffer := writeBuffer e workbook in
            match updateBufferToStorage e w key outBuffer with
            | (Some msg, w) => (error 500 msg, w)
            | (None, w) =>
              match loadWorkbook outBuffer with
              | None => (unexpected, w)
              | Some reloaded =>
                let remainingSheets := sheet_names reloaded in
                let w := insert_audit e u ctx "delete_sheet" n w in
                let w := broadcastSSE "excel:delete_sheet" n w in
                (Response 200 (BDeleteSheet n remainingSheets), w)
              end
            end
          end
        end
      end
    end
  | _ => (error 400 "Sheet name required", w)
  end.

(** GET /excel/get *)
Definition get_cell (cfg : config) (e : env) (u : user) (ctx : context)
    (sheet cell : option string) (scope : option string) (w : world)
    : response * world :=
  match sheet, cell with
  | Some (String a0 r0), Some (String a1 r1) =>
    let n := String a0 r0 in
    let addr := String a1 r1 in
    match free_plan_gate GetCell ctx (id u) (excel_audit w) (now e) (count_ok e) with
    | Some (st, msg) => (error st msg, w)
    | None =>
      let key :=
        if bool_decide (userRole ctx = "superadmin") && bool_decide (scope = Some "master")
        then EXCEL_FILE_KEY cfg else fileKey ctx in
      if negb (nonempty key) then (error 404 "Workbook key not found", w) else
      match getBufferFromStorage e w key with
      | None => (error 404 "Workbook not found", w)
      | Some buffer =>
        match loadWorkbook buffer with
        | None => (unexpected, w)
        | Some workbook =>
          match getWorksheet workbook n with
          | None => (error 400 (sheet_not_found n), w)
          | Some ws =>
            match decodeAddress e addr with
            | None => (unexpected, w)
            | Some (r, c) =>
              let value := cell_value ws r c in
              let w := insert_audit e u ctx "get_cell" n w in
              (Response 200 (BCell n addr value key), w)
            end
          end
        end
      end
    end
  | _, _ => (error 400 "Sheet and cell are required", w)
  end.

(** GET /excel/preview *)
Definition preview_route (cfg : config) (e : env) (u : user) (ctx : context)
    (sheet : option string) (w : world) : response * world :=
  match sheet with
  | Some (String a0 r0) =>
    let n := String a0 r0 in
    let key := fileKey ctx in
    if negb (nonempty key) then (error 404 "Workbook key not found", w) else
    match getBufferFromStorage e w key with
    | None => (error 404 "Workbook not found", w)
    | Some buffer =>
      match loadWorkbook buffer with
      | None => (unexpected, w)
      | Some workbook =>
        match getWorksheet workbook n with
        | None => (error 400 (sheet_not_found n), w)
        | Some ws => (Response 200 (BPreview n (preview_sheet ws)), w)
        end
      end
    end
  | _ => (error 400 "Sheet is required", w)
  end.

(** GET /excel/sheets *)
Definition list_sheets (cfg : config) (e : env) (u : user) (ctx : context)
    (w : world) : response * world :=
  let key := fileKey ctx in
  if negb (nonempty key) then (error 404 "Workbook not found", w) else
  match getBufferFromStorage e w key with
  | None => (error 404 "Workbook not found", w)
  | Some buffer =>
    match loadWorkbook buffer with
    | None => (unexpected, w)
    | Some workbook =>
      let sheets := sheet_names workbook in
      let merged :=
        if bool_decide (userRole ctx = "superadmin") && nonempty (EXCEL_FILE_KEY cfg)
        then
          match getBufferFromStorage e w (EXCEL_FILE_KEY cfg) with
          | Some masterBuffer =>
              masterWorkbook ← loadWorkbook masterBuffer;
              Some (Sheets.merge_sheets sheets (sheet_names masterWorkbook))
          | None => Some sheets
          end
        else Some sheets in
      match merged with
      | None => (unexpected, w)
      | Some sheets =>
        let latestSheet := Sheets.latestSheet (excel_audit w) (id u) (latest_ok e) in
        (Response 200 (BSheets (Sheets.pin_latest sheets latestSheet)), w)
      end
    end
  end.

(** POST /excel/save-all.  [data] is [None] when the request's [data] is
    falsy.  [saved] is the workbook after the handler has opened the sheet
    [ws], an existing one or a new one, and has written the grid to that
    sheet object; the library's calls that can throw are the ones that
    open it. *)
Definition maxRowsSaveAll : nat := 5000.

Definition save_all (cfg : config) (e : env) (u : user) (ctx : context)
    (sheet : option string) (data : option grid_data) (w : world)
    : response * world :=
  match sheet, data with
  | Some (String a0 r0), Some data =>
    let n := String a0 r0 in
    match free_plan_gate SaveAll ctx (id u) (excel_audit w) (now e) (count_ok e) with
    | Some (st, msg) => (error st msg, w)
    | None =>
      let rowsCount := match data with DArray l => length l | DOther => 0 end in
      if bool_decide (userPlan ctx = "free") && bool_decide (maxRowsSaveAll < rowsCount)
      then (error 403 "Free plan limit: max 5000 rows per save", w) else
      let key := fileKey ctx in
      if negb (nonempty key) then (error 404 "Workbook key not found", w) else
      let grid := normalize data in
      let saved :=
        match getBufferFromStorage e w key with
        | None => try_addWorksheet e [] n (save_grid grid)
        | Some buffer =>
            workbook ← loadWorkbook buffer;
            match getWorksheet workbook n with
            | Some ws => Some (putWorksheet workbook (save_grid grid ws))
            | None => try_addWorksheet e workbook n (save_grid grid)
            end
        end in
      match saved with
      | None => (unexpected, w)
      | Some workbook =>
        let outBuffer := writeBuffer e workbook in
        match updateBufferToStorage e w key outBuffer with
        | (Some msg, w) => (error 500 msg, w)
        | (None, w) =>
          let w := insert_audit e u ctx "save_all" n w in
          let w := broadcastSSE "excel:save_all" n w in
          (Response 200 BSuccess, w)
        end
      end
    end
  | _, _ => (error 400 "Sheet and data are required", w)
  end.

Inductive operation : Type :=
  | OpAddSheet (sheet : option string) (overwrite : bool)
  | OpDeleteSheet (sheet : option string)
  | OpSaveAll (sheet : option string) (data : option grid_data)
  | OpGetCell (sheet cell scope : option string)
  | OpPreview (sheet : option string).

Definition run (cfg : config) (e : env) (u : user) (ctx : context)
    (op : operation) (w : world) : response * world :=
  match op with
  | OpAddSheet sheet overwrite => add_sheet cfg e u ctx sheet overwrite w
  | OpDeleteSheet sheet => delete_sheet cfg e u ctx sheet w
  | OpSaveAll sheet data => save_all cfg e u ctx sheet data w
  | OpGetCell sheet cell scope => get_cell cfg e u ctx sheet cell scope w
  | OpPreview sheet => preview_route cfg e u ctx sheet w
  end.

(** The storage key an operation downloads. *)
Definition key_of (cfg : config) (ctx : context) (op : operation) : string :=
  match op with
  | OpAddSheet _ _ | OpDeleteSheet _ => target_key cfg ctx
  | OpGetCell _ _ scope =>
      if bool_decide (userRole ctx = "superadmin") && bool_decide (scope = Some "master")
      then EXCEL_FILE_KEY cfg else fileKey ctx
  | OpSaveAll _ _ | OpPreview _ => fileKey ctx
  end.

(** The request is well formed and passes the checks a handler makes
    before it downloads the workbook: the required fields, the free-plan
    gate, the row cap of save-all, the storage key. *)
Definition passes_checks (cfg : config) (e : env) (u : user) (ctx : context)
    (op : operation) (w : world) : Prop :=
  nonempty (key_of cfg ctx op) = true
  ∧ match op with
    | OpAddSheet (Some (String _ _)) _ =>
        free_plan_gate AddSheet ctx (id u) (excel_audit w) (now e) (count_ok e) = None
    | OpDeleteSheet (Some (String _ _)) =>
        free_plan_gate DeleteSheet ctx (id u) (excel_audit w) (now e) (count_ok e) = None
    | OpGetCell (Some (String _ _)) (Some (String _ _)) _ =>
        free_plan_gate GetCell ctx (id u) (excel_audit w) (now e) (count_ok e) = None
    | OpSaveAll (Some (String _ _)) (Some data) =>
        free_plan_gate SaveAll ctx (id u) (excel_audit w) (now e) (count_ok e) = None
        ∧ ¬ (userPlan ctx = "free"
             ∧ maxRowsSaveAll < match data with DArray l => length l | DOther => 0 end)
    | OpPreview (Some (String _ _)) => True
    | _ => False
    end.

(** The specification's claim about a failed download, for an operation. *)
Definition not_found_on_failed_download (op : operation) : Prop :=
  ∀ cfg e u ctx w,
    passes_checks cfg e u ctx op w →
    getBufferFromStorage e w (key_of cfg ctx op) = None →
    status (fst (run cfg e u ctx op w)) = 404 ∧ snd (run cfg e u ctx op w) = w.

(** The specification's claim about a name that exists, for a request
    without overwrite: when the stored workbook holds a sheet of the
    requested name, the request is answered with an error and nothing is
    written. *)
Definition conflict_on_existing_name (cfg : config) (e : env) (u : user)
    (ctx : context) (n : string) (w : world) : Prop :=
  (∃ wb, storage w !! target_key cfg ctx = Some (Xlsx wb)
         ∧ is_Some (getWorksheet wb n)) →
  400 ≤ status (fst (add_sheet cfg e u ctx (Some n) false w))
  ∧ snd (add_sheet cfg e u ctx (Some n) false w) = w.

(** A paid user whose workbook holds the sheet Data, with a storage
    service whose downloads fail, and with one that works. *)
Definition paid_context : context :=
  Context "paid" "user" "u1@example.com" (Some "active") "users/u1/uploaded.xlsx".

Definition data_workbook : workbook :=
  [Worksheet "Data" (<[(1, 1) := SNum 7]> ∅) 1 1 1].

Definition sample_world : world :=
  World (<["users/u1/uploaded.xlsx" := Xlsx data_workbook]> ∅) [] [].

(** The free-plan user of [Gate.free_context], with three cell queries
    today. *)
Definition free_world : world :=
  World (<["users/u1/uploaded.xlsx" := Xlsx data_workbook]> ∅) three_queries [].

Definition square_world : world :=
  World (<["users/u1/uploaded.xlsx" := Xlsx [square_sheet]]> ∅) [] [].

(** The library keeps a short name of letters as it is. *)
Definition failing_env : env :=
  Env 1762045200 (λ _, true) None true true true (λ _ n, Some n) kept kept
      (λ _, 0) (λ _, Some (1, 1)).

Definition working_env : env :=
  Env 1762045200 (λ _, false) None true true true (λ _ n, Some n) kept kept
      (λ _, 0) (λ _, Some (1, 1)).

(** A library that cuts a name down to its first 31 characters, and a
    name of 32 characters. *)
Definition cutting_env : env :=
  Env 1762045200 (λ _, false) None true true true
      (λ _ n, Some (String.substring 0 31 n)) kept kept (λ _, 0) (λ _, Some (1, 1)).

Definition long_name : string := "Quarterly-report-2025-2026-draft".

End Server.

(** ** The payment webhook *)

Module Payments.

(** A parsed JSON document. *)
#[warnings="-register-all"]
Inductive json : Type :=
  | JNull
  | JBool (b : bool)
  | JNum (z : Z)
  | JStr (s : string)
  | JArr (items : list json)
  | JObj (fields : list (string * json)).

(** A JavaScript value read out of the document: [None] is undefined. *)
Definition value : Type := option json.

Fixpoint lookup_field (fields : list (string * json)) (p : string) : value :=
  match fields with
  | [] => None
  | (k, v) :: r => if bool_decide (k = p) then Some v else lookup_field r p
  end.

(** [x.p]: a TypeError ([None]) on null and undefined, the member on an
    object, undefined on the other values for the members read here. *)
Definition get (x : value) (p : string) : option value :=
  match x with
  | None | Some JNull => None
  | Some (JObj fields) => Some (lookup_field fields p)
  | Some _ => Some None
  end.

(** [x?.p] *)
Definition get_opt (x : value) (p : string) : option value :=
  match x with
  | None | Some JNull => Some None
  | _ => get x p
  end.

(** [x === s] for a string [s]. *)
Definition is_string (x : value) (s : string) : bool :=
  match x with
  | Some (JStr t) => bool_decide (t = s)
  | _ => false
  end.

(** [x === process.env.V], where the variable is a string or undefined. *)
Definition strict_eq (x : value) (v : option string) : bool :=
  match x, v with
  | None, None => true
  | Some (JStr t), Some s => bool_decide (t = s)
  | _, _ => false
  end.

(** The tables the webhook writes. *)
Record profile : Type := Profile {
  pf_email : string;
  pf_plan : string;
  premium_expires_at : option Z
}.

Record payment : Type := Payment {
  pay_email : string;
  pay_amount : value;
  pay_reference : value;
  pay_status : string;
  pay_mode : string;
  pay_created_at : Z
}.

Record db : Type := Db {
  profiles : list profile;
  payments : list payment;
  broadcasts : list string
}.

(** What a call to the database does: it applies and resolves, resolves
    with an error, or throws. *)
Inductive db_outcome : Type := Applied | Failed | Throws.

Record env : Type := Env {
  now : Z;
  plus_month : Z → Z;
  plus_year : Z → Z;
  PAYSTACK_SECRET_KEY : string;
  PAYSTACK_MONTHLY_PLAN : option string;
  update_outcome : db_outcome;
  insert_outcome : db_outcome
}.

(** [req.body] as the handler finds it.  The application installs
    [express.json()] for every route (server/app.js, line 54), the routes
    of the payment router included, which index.js mounts on the same
    application.  A body sent with the content type application/json is
    parsed there, and the [express.raw] of the route passes a request on
    whose body is parsed already: the handler finds the parsed object.  A
    body sent with another content type is read by [express.raw] into a
    Buffer of its bytes. *)
Inductive body : Type :=
  | Buffer (bytes : string)
  | Parsed (o : json).

(** The request: [req.body] and the [x-paystack-signature] header. *)
Record request : Type := Request {
  req_body : body;
  signature : option string
}.

(** [.update({ plan: 'paid', premium_expires_at }).eq('email', e)] *)
Definition update_plan (e : string) (expiresAt : Z) (ps : list profile)
    : list profile :=
  List.map (λ p,
      if bool_decide (pf_email p = e)
      then Profile (pf_email p) "paid" (Some expiresAt) else p) ps.

Section Handler.

(** [crypto.createHmac('sha512', secret).update(body).digest('hex')] on
    the bytes of a Buffer, [JSON.parse], which is [None] when it throws,
    and [String.prototype.toLowerCase]. *)
Variable hmac_sha512_hex : string → string → string.
Variable JSON_parse : string → option json.
Variable toLowerCase : string → string.

(** The body is a Buffer whose digest under the secret is the signature
    header: [hash !== signature] is false exactly on these requests. *)
Definition signature_valid (e : env) (req : request) : Prop :=
  match req_body req with
  | Buffer bytes =>
      signature req = Some (hmac_sha512_hex (PAYSTACK_SECRET_KEY e) bytes)
  | Parsed _ => False
  end.

(** The inner try block of the charge.success branch; [app] says whether
    the handler is the one of server/app.js, which broadcasts. *)
Definition charge_mode (e : env) (planCode : value) : string :=
  if strict_eq planCode (PAYSTACK_MONTHLY_PLAN e) then "monthly" else "one-time".

Definition after_insert (app : bool) (d : db) : db :=
  if app then Db (profiles d) (payments d) (broadcasts d ++ ["payments:success"])
  else d.

Definition insert_payment (app : bool) (e : env) (em : string)
    (amount reference planCode : value) (d : db) : db :=
  match insert_outcome e with
  | Throws => d
  | Failed => after_insert app d
  | Applied =>
      after_insert app
        (Db (profiles d)
            (payments d
               ++ [Payment em amount reference "success" (charge_mode e planCode) (now e)])
            (broadcasts d))
  end.

Definition record_charge (app : bool) (e : env) (email : value)
    (amount reference planCode : value) (expiresAt : Z) (d : db) : db :=
  match email with
  | Some (JStr em) =>
      match update_outcome e with
      | Throws => d
      | Failed => insert_payment app e em amount reference planCode d
      | Applied =>
          insert_payment app e em amount reference planCode
            (Db (update_plan (toLowerCase em) expiresAt (profiles d))
                (payments d) (broadcasts d))
      end
  | _ => d
  end.

(** The reads at the head of the charge.success branch:
    [const { email } = event.data.customer], [event.data.amount],
    [event.data.reference], [event.data.plan?.plan_code]; [None] when one
    of them throws. *)
Definition charge_fields (event : json) : option (value * value * value * value) :=
  data ← get (Some event) "data";
  customer ← get data "customer";
  email ← get customer "email";
  amount ← get data "amount";
  reference ← get data "reference";
  plan ← get data "plan";
  planCode ← get_opt plan "plan_code";
  Some (email, amount, reference, planCode).

(** The handler after the signature test, on the bytes of the body
    ([req.body.toString()]): [None] when it throws. *)
Definition handle_event (app : bool) (e : env) (bytes : string) (d : db)
    : option nat * db :=
  match JSON_parse bytes with
  | None => (None, d)
  | Some event =>
      match get (Some event) "event" with
      | None => (None, d)
      | Some ty =>
          if is_string ty "charge.success" then
            match charge_fields event with
            | None => (None, d)
            | Some (email, amount, reference, planCode) =>
                let expiresAt :=
                  if strict_eq planCode (PAYSTACK_MONTHLY_PLAN e)
                  then plus_month e (now e) else plus_year e (now e) in
                (Some 200, record_charge app e email amount reference planCode expiresAt d)
            end
          else (Some 200, d)
      end
  end.

(** The handler: [None] when it throws.  [update(req.body)] throws a
    TypeError on a value that is neither a string nor a Buffer, before the
    signature is compared. *)
Definition webhook (app : bool) (e : env) (req : request) (d : db)
    : option nat * db :=
  match req_body req with
  | Parsed _ => (None, d)
  | Buffer bytes =>
      if bool_decide (signature req
                      = Some (hmac_sha512_hex (PAYSTACK_SECRET_KEY e) bytes))
      then handle_event app e bytes d
      else (Some 401, d)
  end.

(** POST /payments/webhook of server/app.js: the handler's catch clause
    answers 500. *)
Definition webhook_app (e : env) (req : request) (d : db) : option nat * db :=
  match webhook true e req d with
  | (None, d) => (Some 500, d)
  | r => r
  end.

(** POST /webhook of server/routes/payments.js: no catch clause, so no
    response is sent when the handler throws. *)
Definition webhook_router (e : env) (req : request) (d : db) : option nat * db :=
  webhook false e req d.

(** The event of a parsed body: its type and the customer email. *)
Definition event_type (event : json) : option value := get (Some event) "event".

Definition customer_email (event : json) : option value :=
  data ← get (Some event) "data";
  customer ← get data "customer";
  get customer "email".

End Handler.

(** Sample requests.  The digest, the parser and the lower-casing are
    stand-ins: the parser is defined on the two sample bodies only, and
    the lower-casing maps the letters A to Z, as [toLowerCase] does on the
    sample addresses. *)
Definition sample_hmac (secret body : string) : string := secret +:+ ":" +:+ body.

Definition lower_ascii (c : ascii) : ascii :=
  let n := nat_of_ascii c in
  if (65 <=? n) && (n <=? 90) then ascii_of_nat (n + 32) else c.

Fixpoint sample_lower (s : string) : string :=
  match s with
  | EmptyString => EmptyString
  | String c r => String (lower_ascii c) (sample_lower r)
  end.

Definition charge_event : json :=
  JObj [ ("event", JStr "charge.success");
         ("data", JObj [ ("amount", JNum 5000);
                         ("reference", JStr "ref_1");
                         ("customer", JObj [("email", JStr "Ada@Example.com")]) ]) ].

Definition transfer_event : json :=
  JObj [ ("event", JStr "transfer.success"); ("data", JObj []) ].

Definition sample_parse (body : string) : option json :=
  if bool_decide (body = "charge") then Some charge_event
  else if bool_decide (body = "transfer") then Some transfer_event
  else None.

Definition sample_env : env :=
  Env 1762041600 (λ t, t + 2678400)%Z (λ t, t + 31536000)%Z "sk_test" (Some "PLN_m")
      Applied Applied.

Definition sample_db : db :=
  Db [ Profile "ada@example.com" "free" None; Profile "bob@example.com" "free" None ]
     [] [].

Definition charge_request : request := Request (Buffer "charge") (Some "sk_test:charge").
Definition forged_request : request := Request (Buffer "charge") (Some "forged").
Definition transfer_request : request :=
  Request (Buffer "transfer") (Some "sk_test:transfer").

(** The same events as the gateway delivers them, with the content type
    application/json: the handler finds the parsed objects. *)
Definition charge_delivery : request := Request (Parsed charge_event) (Some "sk_test:charge").
Definition transfer_delivery : request :=
  Request (Parsed transfer_event) (Some "sk_test:transfer").

End Payments.

(** ** The CSV document of GET /excel/export/csv *)

Module CsvExport.

Import Csv Excel.

(** [rowVals.join(',')] *)
Fixpoint join (sep : string) (l : list string) : string :=
  match l with
  | [] => EmptyString
  | [a] => a
  | a :: r => a +:+ sep +:+ join sep r
  end.

(** One pass of the outer loop: [rowVals.join(',') + '\n'] is appended to
    [csv]. *)
Definition csv_line (vals : list jsval) : string :=
  join (String comma EmptyString) (List.map escapeCSV vals).

Definition csv_text (rows : list (list jsval)) : string :=
  foldl (λ csv vals, csv +:+ csv_line vals +:+ String LF EmptyString) EmptyString rows.

(** The cell values the two loops read: rows 1..[maxRow], columns
    1..[maxCol]. *)
Definition sheet_rows (ws : worksheet) : list (list jsval) :=
  let maxRow := or_nat (actualRowCount ws) (rowCount ws) in
  let maxCol := or_nat (actualColumnCount ws) (columnsLen ws) in
  List.map (λ r, List.map (λ c, cell_value ws r c) (seq 1 maxCol)) (seq 1 maxRow).

(** The body the route sends. *)
Definition export_csv (ws : worksheet) : string := csv_text (sheet_rows ws).

(** The text a reader of the document finds for a value: nothing for null
    and undefined, the string form for the others. *)
Definition field_text (v : jsval) : string :=
  if nullish v then EmptyString else String_ v.

(** A reader of a whole document that follows RFC 4180 with the line feed
    as the record separator: records of fields, the last record ended by a
    line feed or by the end of the input.  One unit of fuel is used for
    each field. *)
Fixpoint rfc4180_records (fuel : nat) (s : string) : option (list (list string)) :=
  match fuel with
  | 0 => None
  | S fuel =>
      match s with
      | EmptyString => Some []
      | String _ _ =>
          '(f, rest) ← rfc4180_field s;
          match rest with
          | EmptyString => Some [[f]]
          | String c rest' =>
              if Ascii.eqb c comma then
                rows ← rfc4180_records fuel rest';
                match rows with
                | r :: rs => Some ((f :: r) :: rs)
                | [] => Some [[f; EmptyString]]
                end
              else if Ascii.eqb c LF then
                rows ← rfc4180_records fuel rest';
                Some ([f] :: rows)
              else None
          end
      end
  end.

End CsvExport.

(** ** The premium routes: download and exports *)

Module Premium.

Import Identity Gate Excel Server.

(** What a premium route sends: an error, the bytes of the workbook, a CSV
    document, or the PDF document of a sheet, whose drawing is left out. *)
Inductive answer : Type :=
  | Refused (st : nat) (msg : string)
  | File (buffer : blob)
  | CsvDocument (csv : string)
  | PdfDocument (ws : worksheet).

(** GET /excel/download *)
Definition download (cfg : config) (e : env) (ctx : context) (w : world) : answer :=
  match plan_gate cfg Download ctx with
  | Some (st, msg) => Refused st msg
  | None =>
      let key := target_key cfg ctx in
      match getBufferFromStorage e w key with
      | None => Refused 404 "Workbook not found"
      | Some buffer => File buffer
      end
  end.

(** The two exports of one sheet share their head: the test of the sheet
    parameter, the plan test, the download and the lookup of the sheet.
    [send] is the document, [action] the action of the audit row. *)
Definition export (r : premium_route) (action : string) (send : worksheet → answer)
    (cfg : config) (e : env) (u : user) (ctx : context) (sheet : option string)
    (w : world) : answer * world :=
  match sheet with
  | Some (String a0 r0) =>
    let n := String a0 r0 in
    match plan_gate cfg r ctx with
    | Some (st, msg) => (Refused st msg, w)
    | None =>
      let key := fileKey ctx in
      match getBufferFromStorage e w key with
      | None => (Refused 404 "Workbook not found", w)
      | Some buffer =>
        match loadWorkbook buffer with
        | None => (Refused 500 "Unexpected server error", w)
        | Some workbook =>
          match getWorksheet workbook n with
          | None => (Refused 400 "Sheet not found", w)
          | Some ws => (send ws, insert_audit e u ctx action n w)
          end
        end
      end
    end
  | _ => (Refused 400 "Sheet is required", w)
  end.

(** GET /excel/export/csv *)
Definition export_csv : config → env → user → context → option string → world
    → answer * world :=
  export ExportCsv "export_csv" (λ ws, CsvDocument (CsvExport.export_csv ws)).

(** GET /excel/export/pdf *)
Definition export_pdf : config → env → user → context → option string → world
    → answer * world :=
  export ExportPdf "export_pdf_single" PdfDocument.

(** The specification's claim about the plan gate, for a route's answer
    to a free-plan caller: denied with 403 unless privileged. *)
Definition denied_unless_privileged (cfg : config) (ctx : context) (a : answer)
    : Prop :=
  (∃ msg, a = Refused 403 msg) ↔ ¬ privileged cfg ctx.

(** The master workbook, a paid user's and a free superadmin's. *)
Definition premium_world : world :=
  World (<["master.xlsx" := Xlsx data_workbook]>
           (<["users/u1/uploaded.xlsx" := Xlsx data_workbook]>
              (<["users/u2/uploaded.xlsx" := Xlsx data_workbook]> ∅))) [] [].

End Premium.

(** ** The storage key of POST /excel/upload and POST /excel/convert *)

Module Upload.

Import Identity.

Definition dot : ascii := ascii_of_nat 46.
Definition slash : ascii := ascii_of_nat 47.

(** The text before the last dot of [s] and the text after it; [None]
    when [s] has no dot. *)
Fixpoint split_last_dot (s : string) : option (string * string) :=
  match s with
  | EmptyString => None
  | String c r =>
      match split_last_dot r with
      | Some (b, e) => Some (String c b, e)
      | None => if Ascii.eqb c dot then Some (EmptyString, r) else None
      end
  end.

(** [s.split('.').pop()] *)
Definition last_segment (s : string) : string :=
  match split_last_dot s with
  | Some (_, e) => e
  | None => s
  end.

(** [s.replace(/\.[^/.]+$/, '')]: the last dot and what follows it are
    removed when at least one character follows and none of them is a
    slash. *)
Definition strip_extension (s : string) : string :=
  match split_last_dot s with
  | Some (b, String c e) =>
      if Csv.includes (String c e) slash then s else b
  | _ => s
  end.

(** The template [`${i}`] for a counter. *)
Definition decimal (i : nat) : string := NilZero.string_of_uint (Nat.to_uint i).

(** [`${base} ${i}.${extn}`] *)
Definition candidate (base : string) (i : nat) (extn : string) : string :=
  base +:+ " " +:+ decimal i +:+ String dot extn.

(** [while (names.has(candidate)) { i++; candidate = ... }], from counter
    [i], for at most [fuel] tests. *)
Fixpoint first_free (names : gset string) (base extn : string) (fuel i : nat)
    : option string :=
  match fuel with
  | 0 => None
  | S fuel =>
      if bool_decide (candidate base i extn ∈ names)
      then first_free names base extn fuel (S i)
      else Some (candidate base i extn)
  end.

(** Ensure unique filename in storage: the last segment of [key].
    [listing] is the set of the names the storage service lists, [None]
    when the listing fails or is no array. *)
Definition unique_name (listing : option (gset string)) (filename : string)
    (fuel : nat) : option string :=
  match listing with
  | Some names =>
      if bool_decide (filename ∈ names)
      then first_free names (strip_extension filename) (last_segment filename) fuel 1
      else Some filename
  | None => Some filename
  end.

(** [`${CONFIG.USER_FILES_PREFIX}/${req.user.id}/${name}`] *)
Definition storage_key (cfg : config) (uid name : string) : string :=
  USER_FILES_PREFIX cfg +:+ "/" +:+ uid +:+ "/" +:+ name.

(** The request fields the upload handler reads; a field no middleware
    has assigned is undefined, [None]. *)
Record request : Type := Request {
  user : option Identity.user;
  supabase : bool;
  context : option (string * string);
  userPlan : option string;
  userRole : option string;
  userEmail : option string;
  fileKey : option string
}.

(** The request as the framework hands it to the first middleware. *)
Definition incoming : request := Request None false None None None None None.

(** The middleware [requireAuth] on the request. *)
Definition requireAuth (authHeader : string) (getUser : string → option Identity.user)
    (req : request) : nat + request :=
  match Identity.requireAuth authHeader getUser with
  | inl st => inl st
  | inr u =>
      inr (Request (Some u) true (context req) (userPlan req) (userRole req)
             (userEmail req) (fileKey req))
  end.

(** [attachUserContext] as server/app.js defines it:
    [req.context = { ip: req.ip, ua: req.headers['user-agent'] || '' }]. *)
Definition attachUserContext (ip ua : string) (req : request) : request :=
  Request (user req) (supabase req) (Some (ip, ua)) (userPlan req) (userRole req)
    (userEmail req) (fileKey req).

(** [attachUserPlanAndFile] on the request. *)
Definition attachUserPlanAndFile (cfg : config) (l : lookup) (req : request)
    : request :=
  let ctx := Identity.attachUserPlanAndFile cfg (user req) (supabase req) l in
  Request (user req) (supabase req) (context req)
    (Some (Identity.userPlan ctx)) (Some (Identity.userRole ctx))
    (Some (Identity.userEmail ctx)) (Some (Identity.fileKey ctx)).

Section Head.

(** [String.prototype.toLowerCase] *)
Variable toLowerCase : string → string.

(** Plan enforcement of POST /excel/upload: the denial, if any. *)
Definition plan_enforcement (cfg : config) (req : request) (uid filename : string)
    : option (nat * string) :=
  let isFree := bool_decide (userPlan req = Some "free") in
  let alreadyHasFile :=
    match fileKey req with
    | Some (String c k) =>
        String.prefix (USER_FILES_PREFIX cfg +:+ "/" +:+ uid +:+ "/") (String c k)
    | _ => false
    end in
  let ext := last_segment (toLowerCase filename) in
  if bool_decide (ext ∈ ["csv"; "pdf"]) && isFree
  then Some (403, "CSV and PDF uploads require a premium plan")
  else if bool_decide (ext = "xlsx") && isFree && alreadyHasFile
  then Some (403, "Free plan allows only one Excel file upload")
  else None.

(** The head of POST /excel/upload: its middleware chain, the test for a
    file, and the plan enforcement.  The result is the response status
    that ends the request there, or the request that goes on to parsing
    and storage. *)
Definition upload_head (cfg : config) (authHeader : string)
    (getUser : string → option Identity.user) (ip ua : string)
    (file : option string) : nat + request :=
  match requireAuth authHeader getUser incoming with
  | inl st => inl st
  | inr req =>
      let req := attachUserContext ip ua req in
      match file with
      | None => inl 400
      | Some filename =>
          match plan_enforcement cfg req (from_option Identity.id EmptyString (user req)) filename with
          | Some (st, _) => inl st
          | None => inr req
          end
      end
  end.

End Head.

End Upload.

(** ** The audit helper: NDJSON logs in storage *)

Module AuditLog.

(** What a call to the storage service does: it works, it resolves with
    an error, or it throws. *)
Inductive call : Type := Works | Errors | Throws.

(** The logs bucket: the text of each object. *)
Abbreviation bucket := (gmap string string).

(** [`${CONFIG.LOGS_PREFIX}/${day}.ndjson`] *)
Definition objectKey (LOGS_PREFIX day : string) : string :=
  LOGS_PREFIX +:+ "/" +:+ day +:+ ".ndjson".

(** The download and the test of [existing.data]: the text [current]
    starts from, or [None] when the download throws.  A download that
    resolves with an error, as it does for an object that does not
    exist, has no data. *)
Definition read_current (dl : call) (key : string) (b : bucket) : option string :=
  match dl with
  | Works => Some (default EmptyString (b !! key))
  | Errors => Some EmptyString
  | Throws => None
  end.

(** [current + JSON.stringify(entry) + '\n'], for the text [line] of the
    entry. *)
Definition updated (current line : string) : string :=
  current +:+ line +:+ String LF EmptyString.

(** The upload with [upsert: true] and the result of the helper. *)
Definition write_updated (up : call) (key text : string) (b : bucket)
    : bool * bucket :=
  match up with
  | Works => (true, <[key := text]> b)
  | Errors | Throws => (false, b)
  end.

(** [writeAuditLog(entry)] *)
Definition writeAuditLog (dl up : call) (key line : string) (b : bucket)
    : bool * bucket :=
  match read_current dl key b with
  | Some current => write_updated up key (updated current line) b
  | None => (false, b)
  end.

(** Calls of the helper one after the other, with a storage service that
    works. *)
Definition write_all (key : string) (lines : list string) (b : bucket) : bucket :=
  foldl (λ b line, snd (writeAuditLog Works Works key line b)) b lines.

(** The lines of an NDJSON text: each one ended by a line feed; text
    after the last line feed is no line. *)
Fixpoint ndjson_lines (cur : string) (s : string) : list string :=
  match s with
  | EmptyString => []
  | String c r =>
      if Ascii.eqb c LF then cur :: ndjson_lines EmptyString r
      else ndjson_lines (cur +:+ String c EmptyString) r
  end.

(** The NDJSON text of a list of lines. *)
Definition ndjson_text (lines : list string) : string :=
  foldr (λ line text, line +:+ String LF text) EmptyString lines.

End AuditLog.

(** ** The event stream of GET /realtime/events *)

Module Sse.

Import Identity.

(** What is written to a client's stream: the greeting and the events.
    The pings of the interval timer are left out. *)
Inductive message : Type :=
  | Connected (id : string) (ts : Z)
  | Event (event payload : string).

(** [sseClients]: the stream of each registered client, as the messages
    written to it so far. *)
Abbreviation registry := (gmap string (list message)).

Definition MAX_SSE_CLIENTS : nat := 500.

(** [broadcastSSE(event, payload)] *)
Definition broadcastSSE (event payload : string) (clients : registry) : registry :=
  (λ stream, stream ++ [Event event payload]) <$> clients.

(** [`${req.user.id}:${Date.now()}`] *)
Definition clientId (uid : string) (now : Z) : string :=
  uid +:+ ":" +:+ NilZero.string_of_int (Z.to_int now).

(** The handler of GET /realtime/events: the status, 200 for a stream
    that is opened, and the registry after.  [now] is the reading of the
    clock for the client id and [ts] the one for the greeting. *)
Definition connect (cfg : config) (ctx : context) (uid : string) (now ts : Z)
    (clients : registry) : nat * registry :=
  if bool_decide (userEmail ctx ≠ OWNER_EMAIL cfg)
     && bool_decide (userRole ctx ≠ "superadmin")
  then (403, clients)
  else if bool_decide (MAX_SSE_CLIENTS ≤ size clients)
  then (503, clients)
  else
    let id := clientId uid now in
    (200, <[id := [Connected id ts]]> clients).

(** [req.on('close', ...)] of the client registered as [id]. *)
Definition close (id : string) (clients : registry) : registry :=
  delete id clients.

(** What happens to the registry, one event after the other. *)
Inductive op : Type :=
  | Connect (ctx : context) (uid : string) (now ts : Z)
  | Close (id : string)
  | Broadcast (event payload : string).

Definition step (cfg : config) (clients : registry) (o : op) : registry :=
  match o with
  | Connect ctx uid now ts => snd (connect cfg ctx uid now ts clients)
  | Close id => close id clients
  | Broadcast event payload => broadcastSSE event payload clients
  end.

Definition run (cfg : config) (ops : list op) (clients : registry) : registry :=
  foldl (step cfg) clients ops.

(** The events broadcast during [ops], in order. *)
Definition broadcasts (ops : list op) : list message :=
  omap (λ o, match o with
             | Broadcast event payload => Some (Event event payload)
             | _ => None
             end) ops.

(** No operation of [ops] closes the client [id] or registers a client
    under [id] again. *)
Definition undisturbed (id : string) (ops : list op) : Prop :=
  ∀ o, o ∈ ops →
    match o with
    | Connect _ uid now _ => clientId uid now ≠ id
    | Close id' => id' ≠ id
    | Broadcast _ _ => True
    end.

End Sse.

(** ** The admin routes of server/app.js *)

Module Admin.

Import Identity.

(** A row of [profiles]: the columns the resolvers select, and the two
    the admin routes write besides them. *)
Record account : Type := Account {
  profile : profile_row;
  verified : bool;
  ban_reason : option string
}.

(** What a request leaves behind: the table by user id, the keys of the
    stored files, the entries handed to [writeAuditLog] as action, actor
    and target, and the names of the events handed to [broadcastSSE]. *)
Record world : Type := World {
  accounts : gmap string account;
  files : gset string;
  log : list (string * string * string);
  events : list string
}.

(** What the services do during one request: whether the first call on
    [profiles] fails, what the listing of the user's folder returns,
    whether the removal of the files fails, and whether the deletion of
    the row fails. *)
Record env : Type := Env {
  db_fails : bool;
  listing : option (list string);
  remove_fails : bool;
  delete_fails : bool
}.

(** The routes, with the body fields they read besides [user_id]. *)
Inductive route : Type :=
  | Promote
  | Denote (role : option (option string))
  | Ban (reason : option string)
  | Verify
  | SoftDelete
  | Permadelete.

(** The middleware [requireOwner]: its denial, if any. *)
Definition requireOwner (cfg : config) (ctx : context) (u : user) : option nat :=
  let email := or_else (Some (userEmail ctx)) (or_else (email u) EmptyString) in
  if negb (Server.nonempty (OWNER_EMAIL cfg)) || negb (Server.nonempty email)
  then Some 403
  else if bool_decide (email ≠ OWNER_EMAIL cfg) then Some 403
  else None.

(** The first statement of the routes for a superadmin or the owner. *)
Definition admin_gate (cfg : config) (ctx : context) : option nat :=
  if bool_decide (userRole ctx ≠ "superadmin")
     && bool_decide (userEmail ctx ≠ OWNER_EMAIL cfg)
  then Some 403 else None.

Definition gate (cfg : config) (ctx : context) (u : user) (r : route) : option nat :=
  match r with
  | Promote | Denote _ | Permadelete => requireOwner cfg ctx u
  | Ban _ | Verify | SoftDelete => admin_gate cfg ctx
  end.

Definition with_role (role : option string) (a : account) : account :=
  Account (ProfileRow (plan (profile a)) role (user_file_key (profile a))
             (row_email (profile a)) (status (profile a)))
    (verified a) (ban_reason a).

Definition with_status (st : string) (a : account) : account :=
  Account (ProfileRow (plan (profile a)) (role (profile a))
             (user_file_key (profile a)) (row_email (profile a)) (Some st))
    (verified a) (ban_reason a).

(** The object of [.update(...)] of each route that updates a row. *)
Definition change (r : route) (a : account) : account :=
  match r with
  | Promote => with_role (Some "superadmin") a
  | Denote None => with_role (Some "user") a
  | Denote (Some role) => with_role role a
  | Ban reason =>
      Account (profile (with_status "banned" a)) (verified a)
        (match reason with Some (String c s) => Some (String c s) | _ => None end)
  | Verify => Account (profile a) true (ban_reason a)
  | SoftDelete => with_status "deleted" a
  | Permadelete => a
  end.

Definition action (r : route) : string :=
  match r with
  | Promote => "promote_superadmin"
  | Denote _ => "denote_role"
  | Ban _ => "ban_user"
  | Verify => "verify_user"
  | SoftDelete => "soft_delete_user"
  | Permadelete => "permanent_delete_user"
  end.

Definition event (r : route) : string :=
  match r with
  | Promote => "admin:promote"
  | Denote _ => "admin:denote"
  | Ban _ => "admin:ban"
  | Verify => "admin:verify"
  | SoftDelete => "admin:soft_delete"
  | Permadelete => "admin:permadelete"
  end.

(** The tail of every route: audit entry, broadcast, answer. *)
Definition finish (ctx : context) (r : route) (target : string)
    (accounts : gmap string account) (files : gset string) (w : world)
    : nat * world :=
  (200, World accounts files
          (log w ++ [(action r, userEmail ctx, target)])
          (events w ++ [event r])).

(** The keys POST /admin/users/permadelete removes:
    [list.map((f) => `${prefix}/${f.name}`)]. *)
Definition listed_keys (cfg : config) (target : string) (names : list string)
    : gset string :=
  list_to_set
    (List.map (λ n, USER_FILES_PREFIX cfg +:+ "/" +:+ target +:+ "/" +:+ n) names).

(** One request to an admin route.  [user_id] is the field of the body,
    [None] when it is falsy.  The first call on [profiles], an update or
    a select that ends in [.eq('id', user_id).single()], resolves with an
    error when the call fails or no row has the id. *)
Definition request (cfg : config) (e : env) (ctx : context) (u : user)
    (r : route) (user_id : option string) (w : world) : nat * world :=
  match gate cfg ctx u r with
  | Some st => (st, w)
  | None =>
    match user_id with
    | Some (String c s) =>
      let target := String c s in
      if db_fails e then (500, w) else
      match accounts w !! target with
      | None => (500, w)
      | Some a =>
        match r with
        | Permadelete =>
            let files :=
              match listing e with
              | Some (n :: names) =>
                  if remove_fails e then files w
                  else files w ∖ listed_keys cfg target (n :: names)
              | _ => files w
              end in
            if delete_fails e then (500, World (accounts w) files (log w) (events w))
            else finish ctx r target (delete target (accounts w)) files w
        | _ => finish ctx r target (<[target := change r a]> (accounts w)) (files w) w
        end
      end
    | _ => (400, w)
    end
  end.

(** The profile lookup of the resolvers against the table:
    [.eq('id', req.user.id).single()]. *)
Definition lookup_account (accounts : gmap string account) (uid : string) : lookup :=
  match accounts !! uid with
  | Some a => Resolved (Some (profile a)) false
  | None => Resolved None true
  end.

(** The context [attachUserPlanAndFile] resolves for an authenticated
    user. *)
Definition resolve (cfg : config) (u : user) (accounts : gmap string account)
    : context :=
  attachUserPlanAndFile cfg (Some u) true (lookup_account accounts (id u)).

(** Requests one after the other, each with its own actor. *)
Record call : Type := Call {
  call_env : env;
  call_ctx : context;
  call_user : user;
  call_route : route;
  call_target : option string
}.

Definition run (cfg : config) (calls : list call) (w : world) : world :=
  foldl (λ w c,
      snd (request cfg (call_env c) (call_ctx c) (call_user c) (call_route c)
             (call_target c) w))
    w calls.

(** The role column, by user id. *)
Definition roles (w : world) : gmap string (option string) :=
  (λ a, role (profile a)) <$> accounts w.

End Admin.

(** ** POST /payments/verify *)

Module Verify.

Import Payments.

(** JavaScript's truthiness of a value read from a JSON document. *)
Definition truthy (x : value) : bool :=
  match x with
  | None | Some JNull => false
  | Some (JBool b) => b
  | Some (JNum z) => negb (z =? 0)%Z
  | Some (JStr s) => Server.nonempty s
  | Some (JArr _) | Some (JObj _) => true
  end.

(** What the call to the payment gateway does: [fetch] or
    [response.json()] throws, or the gateway answers with [response.ok],
    [response.status] and the parsed body. *)
Inductive gateway : Type :=
  | GatewayThrows
  | Answer (ok : bool) (status : nat) (data : json).

(** A row of [payments] as this route writes it. *)
Record entry : Type := Entry {
  e_email : string;
  e_amount : value;
  e_reference : value;
  e_status : value;
  e_mode : value;
  e_created_at : Z
}.

Record tables : Type := Tables {
  t_profiles : list profile;
  t_payments : list entry
}.

(** The body of the request: [reference], [email], [mode]. *)
Record body : Type := Body {
  reference : value;
  email : value;
  mode : value
}.

(** Decide expiry window: a month from now for the monthly mode, a year
    otherwise. *)
Definition expiry (e : env) (b : body) : Z :=
  if is_string (mode b) "monthly" then plus_month e (now e) else plus_year e (now e).

Section Handler.

(** [String.prototype.toLowerCase] *)
Variable toLowerCase : string → string.

(** The handler; the answer is the status, 302 for the redirect.
    [logged_at] is the reading of the clock for the payment row. *)
Definition verify (e : env) (g : gateway) (b : body) (logged_at : Z) (t : tables)
    : nat * tables :=
  if negb (truthy (reference b)) || negb (truthy (email b)) then (400, t) else
  match g with
  | GatewayThrows => (500, t)
  | Answer ok status data =>
      match get (Some data) "status" with
      | None => (500, t)
      | Some st =>
          if negb ok || negb (match st with Some (JBool true) => true | _ => false end)
          then (status, t) else
          match get (Some data) "data" with
          | None => (500, t)
          | Some tx =>
              match get tx "amount" with
              | None => (500, t)
              | Some amount =>
                  let expiresAt := expiry e b in
                  match email b with
                  | Some (JStr em) =>
                      match update_outcome e with
                      | Throws => (500, t)
                      | Failed => (500, t)
                      | Applied =>
                          let t :=
                            Tables (update_plan (toLowerCase em) expiresAt (t_profiles t))
                              (t_payments t) in
                          match get tx "status", insert_outcome e with
                          | Some txStatus, Applied =>
                              (302,
                               Tables (t_profiles t)
                                 (t_payments t
                                    ++ [Entry em amount (reference b) txStatus (mode b)
                                          logged_at]))
                          | _, _ => (500, t)
                          end
                      end
                  | _ => (500, t)
                  end
              end
          end
      end
  end.

End Handler.

(** The gateway's answer for a transaction of the given status. *)
Definition verified_answer (txStatus : string) (amount : Z) : gateway :=
  Answer true 200
    (JObj [ ("status", JBool true);
            ("data", JObj [("amount", JNum amount); ("status", JStr txStatus)]) ]).

(** The expiry the webhook counts for a plan code: a month from the
    delivery for the monthly plan, a year otherwise. *)
Definition charge_expiry (e : env) (planCode : value) : Z :=
  if strict_eq planCode (PAYSTACK_MONTHLY_PLAN e)
  then plus_month e (now e) else plus_year e (now e).

End Verify.

(** ** POST /excel/overwrite and GET /excel/latest *)

Module Routes.

Import Identity Gate Excel Server.

(** [const newWs = workbook.addWorksheet(name);
    newWs.getCell('A1').value = 'Overwritten sheet'] *)
Definition overwritten_sheet (n : string) : worksheet :=
  seed "Overwritten sheet" (new_sheet n).

(** POST /excel/overwrite.  The route has no plan gate and no test of the
    key; it does not broadcast. *)
Definition overwrite (cfg : config) (e : env) (u : user) (ctx : context)
    (name : option string) (w : world) : response * world :=
  match name with
  | Some (String a0 r0) =>
    let n := String a0 r0 in
    let key := fileKey ctx in
    match getBufferFromStorage e w key with
    | None => (error 404 "Workbook not found", w)
    | Some buffer =>
      match loadWorkbook buffer with
      | None => (unexpected, w)
      | Some workbook =>
        let workbook :=
          if bool_decide (is_Some (getWorksheet workbook n))
          then removeWorksheet workbook n else workbook in
        match try_addWorksheet e workbook n (seed "Overwritten sheet") with
        | None => (unexpected, w)
        | Some workbook =>
          let outBuffer := writeBuffer e workbook in
          match updateBufferToStorage e w key outBuffer with
          | (Some msg, w) => (error 500 msg, w)
          | (None, w) =>
            let w := insert_audit e u ctx "overwrite_sheet" n w in
            (Response 200 BSuccess, w)
          end
        end
      end
    end
  | _ => (error 400 "Sheet name required", w)
  end.

(** The answer of GET /excel/latest: [{ sheet, index }], or the status
    500 of the catch clause. *)
Inductive latest_response : Type :=
  | Latest (sheet : option string) (index : option nat)
  | LatestError.

(** [x || null] on a nullable string. *)
Definition or_null (x : option string) : option string :=
  match x with
  | Some (String a r) => Some (String a r)
  | _ => None
  end.

(** GET /excel/latest *)
Definition latest (cfg : config) (e : env) (u : user) (ctx : context) (w : world)
    : latest_response :=
  if negb (latest_ok e) then Latest None None else
  match Sheets.latest_entry (excel_audit w) (id u) with
  | None => Latest None None
  | Some row =>
    let latestSheet := or_null (a_sheet_name row) in
    let key := fileKey ctx in
    if negb (nonempty key) then Latest latestSheet None else
    match getBufferFromStorage e w key with
    | None => Latest latestSheet None
    | Some buffer =>
      match loadWorkbook buffer with
      | None => LatestError
      | Some workbook =>
        let sheets := sheet_names workbook in
        let merged :=
          if bool_decide (userRole ctx = "superadmin") && nonempty (EXCEL_FILE_KEY cfg)
          then
            match getBufferFromStorage e w (EXCEL_FILE_KEY cfg) with
            | Some masterBuffer =>
                masterWorkbook ← loadWorkbook masterBuffer;
                Some (Sheets.merge_sheets sheets (sheet_names masterWorkbook))
            | None => Some sheets
            end
          else Some sheets in
        match merged with
        | None => LatestError
        | Some sheets =>
          match sheets, latestSheet with
          | _ :: _, Some x =>
              match Sheets.indexOf sheets x with
              | Some _ => Latest latestSheet (Some 0)
              | None => Latest latestSheet None
              end
          | _, _ => Latest latestSheet None
          end
        end
      end
    end
  end.

End Routes.

(** ** The sheet list on the dashboard (pages/Dashboard.jsx) *)

Module Dashboard.

(** [dedupeNames(list)]: the loop over the list with its set [seen]. *)
Fixpoint dedupe_from (seen : gset string) (names : list string) : list string :=
  match names with
  | [] => []
  | n :: rest =>
      if bool_decide (n ∈ seen) then dedupe_from seen rest
      else n :: dedupe_from ({[n]} ∪ seen) rest
  end.

Definition dedupeNames (names : list string) : list string := dedupe_from ∅ names.

(** [pinLatestStable(allSheets, latest)] for an array of names; [latest]
    is a string or null. *)
Definition pinLatestStable (allSheets : list string) (latest : option string)
    : list string :=
  match allSheets, latest with
  | [], _ => []
  | _, Some (String a r) =>
      if bool_decide (String a r ∈ allSheets)
      then String a r :: List.filter (λ s, negb (bool_decide (s = String a r))) allSheets
      else allSheets
  | _, _ => allSheets
  end.

(** [base.slice().sort((a, b) => originalOrder.indexOf(a) -
    originalOrder.indexOf(b))]: the sort is stable, so its result is the
    one of an insertion sort by the index, -1 for a name that is not in
    [originalOrder]. *)
Definition order_index (originalOrder : list string) (a : string) : Z :=
  match Sheets.indexOf originalOrder a with
  | Some i => Z.of_nat i
  | None => (-1)%Z
  end.

Fixpoint insert_stable (key : string → Z) (a : string) (l : list string)
    : list string :=
  match l with
  | [] => [a]
  | b :: r => if (key b <? key a)%Z then b :: insert_stable key a r else a :: b :: r
  end.

Definition stabilize (originalOrder base : list string) : list string :=
  foldr (insert_stable (order_index originalOrder)) [] base.

(** The state [lastEditedSheet] after the first load: the name the
    browser has stored ([localStorage.getItem('latestSheet') || null]),
    replaced by the sheet GET /excel/latest names when it names one. *)
Definition lastEditedSheet (stored latest : option string) : option string :=
  match latest with
  | Some (String a r) => Some (String a r)
  | _ => Routes.or_null stored
  end.

(** The list the dashboard shows after its first load, without a search
    query: the names of GET /excel/sheets, deduplicated, which are also
    the original order, stabilized and pinned with [lastEditedSheet]. *)
Definition first_load (stored : option string) (served : list string)
    (latest : option string) : list string :=
  let names := dedupeNames served in
  pinLatestStable (stabilize names names) (lastEditedSheet stored latest).

End Dashboard.

(** ** Support sessions and legal pages *)

Module Support.

Import Identity.

(** A row of [support_sessions]; times are in milliseconds. *)
Record session : Type := Session {
  s_user_id : string;
  session_key : string;
  created_by : string;
  expires_at : Z;
  read_only : bool
}.

(** The table, the entries handed to [writeAuditLog] as actor, target and
    session key, and the names of the events handed to [broadcastSSE]. *)
Record world : Type := World {
  sessions : list session;
  log : list (string * string * string);
  events : list string
}.

(** [`support_${user_id}_${Date.now()}_${Math.random().toString(36).slice(2, 10)}`],
    with [suffix] for the text drawn from [Math.random]. *)
Definition new_key (user_id : string) (now : Z) (suffix : string) : string :=
  "support_" +:+ user_id +:+ "_" +:+ NilZero.string_of_int (Z.to_int now)
  +:+ "_" +:+ suffix.

Inductive assist_response : Type :=
  | AssistError (status : nat)
  | AssistOk (key : string) (expires : Z).

(** POST /admin/support/assist.  [ttl] is [CONFIG.SUPPORT_SESSION_TTL_MIN],
    [None] when the variable does not parse to a number: the date is then
    invalid and [toISOString] throws.  [stamp] is the reading of the clock
    for the key and [now] the one for the expiry. *)
Definition assist (cfg : config) (ttl : option Z) (ctx : context) (u : user)
    (user_id : option string) (stamp now : Z) (suffix : string)
    (insert_fails : bool) (w : world) : assist_response * world :=
  match Admin.admin_gate cfg ctx with
  | Some st => (AssistError st, w)
  | None =>
    match user_id with
    | Some (String c s) =>
      match ttl with
      | None => (AssistError 500, w)
      | Some minutes =>
        let key := new_key (String c s) stamp suffix in
        let expires := (now + minutes * 60 * 1000)%Z in
        if insert_fails then (AssistError 500, w)
        else (AssistOk key expires,
              World (sessions w ++ [Session (String c s) key (id u) expires true])
                (log w ++ [(userEmail ctx, String c s, key)])
                (events w ++ ["support:session_created"]))
      end
    | _ => (AssistError 400, w)
    end
  end.

Inductive validate_response : Type :=
  | ValidateError (status : nat)
  | Valid (user_id : string) (read_only : bool).

(** GET /support/session/validate, a route without middleware.
    [.eq('session_key', key).single()] resolves with an error unless
    exactly one row has the key. *)
Definition validate (key : option string) (now : Z) (query_fails : bool)
    (w : world) : validate_response :=
  match key with
  | Some (String c s) =>
    if query_fails then ValidateError 404 else
    match List.filter (λ r, bool_decide (session_key r = String c s)) (sessions w) with
    | [row] =>
        if bool_decide (expires_at row < now)%Z then ValidateError 410
        else Valid (s_user_id row) (read_only row)
    | _ => ValidateError 404
    end
  | _ => ValidateError 400
  end.

End Support.

Module Legal.

Import Identity.

(** A row of [legal_pages]. *)
Record page : Type := Page {
  page_id : nat;
  slug : string;
  content : string;
  updated_at : option Z
}.

(** The table and the names of the events handed to [broadcastSSE]. *)
Record world : Type := World {
  pages : list page;
  events : list string
}.

(** GET /legal/terms and GET /legal/privacy: [data?.content || ''] and
    [data?.updated_at || null] after [.eq('slug', slug).single()], which
    has no data unless exactly one row has the slug. *)
Definition get_page (s : string) (w : world) : string * option Z :=
  match List.filter (λ p, bool_decide (slug p = s)) (pages w) with
  | [p] => (content p, updated_at p)
  | _ => (EmptyString, None)
  end.

(** What the calls of the POST routes do, and the id the database gives
    a new row. *)
Record env : Type := Env {
  now : Z;
  select_fails : bool;
  update_fails : bool;
  insert_fails : bool;
  fresh_id : nat
}.

(** POST /legal/terms ([s] is terms) and POST /legal/privacy ([s] is
    privacy) behind their middleware.  Of several rows with the slug, the
    select with [limit(1)] returns the first of the table. *)
Definition post_page (cfg : config) (e : env) (ctx : context) (u : user) (s : string)
    (body_content : option string) (w : world) : nat * world :=
  match Admin.requireOwner cfg ctx u with
  | Some st => (st, w)
  | None =>
    match body_content with
    | Some (String c0 r0) =>
      if select_fails e then (500, w) else
      let answer ps :=
        (200, World ps (events w ++ ["legal:" +:+ s +:+ "_update"])) in
      match List.filter (λ p, bool_decide (slug p = s)) (pages w) with
      | existing :: _ =>
          if update_fails e then (500, w)
          else answer
                 (List.map (λ p, if bool_decide (page_id p = page_id existing)
                                 then Page (page_id p) (slug p) (String c0 r0)
                                        (Some (now e))
                                 else p) (pages w))
      | [] =>
          if insert_fails e then (500, w)
          else answer (pages w ++ [Page (fresh_id e) s (String c0 r0) None])
      end
    | _ => (400, w)
    end
  end.

(** No two rows have the same id, and no two the same slug. *)
Definition well_keyed (w : world) : Prop :=
  NoDup (List.map page_id (pages w)) ∧ NoDup (List.map slug (pages w)).

End Legal.

(** ** The routers: routes/roles.js and routes/excel.js *)

Module Client.

(** The Authorization header of src/api/client.js:
    [`Bearer ${getToken()}`]. *)
Definition authorization (token : string) : string := "Bearer " +:+ token.

End Client.

Module Roles.

(** [s.replace(pat, '')] for a string pattern: the first occurrence of
    [pat] is removed. *)
Fixpoint remove_first (pat s : string) : string :=
  match s with
  | EmptyString => EmptyString
  | String c r =>
      if String.prefix pat s
      then String.substring (String.length pat) (String.length s - String.length pat) s
      else String c (remove_first pat r)
  end.

(** [(req.headers.authorization || '').replace('Bearer ', '')] *)
Definition token_of (authHeader : option string) : string :=
  remove_first "Bearer " (default EmptyString authHeader).

(** A row of [profiles], restricted to [role, can_edit, email]. *)
Record row : Type := Row {
  role : option string;
  can_edit : option bool;
  email : option string
}.

(** The result of [getIdentity]. *)
Record identity : Type := Identity_ {
  ident_user : option Identity.user;
  ident_role : string;
  ident_can_edit : bool;
  ident_email : option string
}.

Definition anonymous : identity := Identity_ None "anonymous" false None.

(** [getIdentity(req)] of routes/roles.js.  [getUser] is
    [supabase.auth.getUser], [None] for an error or no user;
    [lookup_fails] says that the profile query resolves with an error. *)
Definition getIdentity (authHeader : option string)
    (getUser : string → option Identity.user) (lookup_fails : bool)
    (profiles : gmap string row) : identity :=
  match token_of authHeader with
  | EmptyString => anonymous
  | String c t =>
      match getUser (String c t) with
      | None => anonymous
      | Some user =>
          match (if lookup_fails then None else profiles !! Identity.id user) with
          | None => Identity_ (Some user) "user" false (Identity.email user)
          | Some profile =>
              Identity_ (Some user)
                (Identity.or_else (role profile) "user")
                (match can_edit profile with
                 | Some true => true
                 | _ => bool_decide (role profile = Some "admin")
                 end)
                (match email profile with
                 | Some (String a r) => Some (String a r)
                 | _ => Identity.email user
                 end)
          end
      end
  end.

(** The three middlewares: the denial, if any. *)
Definition requireAuth (ident : identity) : option nat :=
  match ident_user ident with None => Some 401 | Some _ => None end.

Definition requireAdmin (ident : identity) : option nat :=
  match ident_user ident with
  | None => Some 401
  | Some _ => if bool_decide (ident_role ident ≠ "admin") then Some 403 else None
  end.

Definition requireEditor (ident : identity) : option nat :=
  match ident_user ident with
  | None => Some 401
  | Some _ => if ident_can_edit ident then None else Some 403
  end.

(** PATCH /roles/grant/:id ([flag] true) and PATCH /roles/revoke/:id
    ([flag] false): [.update({ can_edit: flag }).eq('id', userId)]. *)
Definition set_can_edit (flag : bool) (ident : identity) (userId : string)
    (update_fails : bool) (profiles : gmap string row) : nat * gmap string row :=
  match requireAdmin ident with
  | Some st => (st, profiles)
  | None =>
      if update_fails then (500, profiles)
      else (200,
            match profiles !! userId with
            | Some p => <[userId := Row (role p) (Some flag) (email p)]> profiles
            | None => profiles
            end)
  end.

End Roles.

Module ExcelRouter.

Import Excel.

(** The user the auth service returns, with the two fields of
    [user_metadata] the router reads. *)
Record auth_user : Type := AuthUser {
  au_id : string;
  au_email : option string;
  md_role : option string;
  md_can_edit : bool
}.

(** [getIdentity(req)] of routes/excel.js: the user, the role and
    [can_edit]. *)
Definition getIdentity (authHeader : option string)
    (getUser : string → option auth_user) : option auth_user * string * bool :=
  match Roles.token_of authHeader with
  | EmptyString => (None, "anonymous", false)
  | String c t =>
      match getUser (String c t) with
      | None => (None, "anonymous", false)
      | Some user =>
          let role := if bool_decide (md_role user = Some "admin") then "admin" else "user" in
          (Some user, role, bool_decide (role = "admin") || md_can_edit user)
      end
  end.

(** What a cell holds: a value, or a formula with its result. *)
Inductive content : Type :=
  | Plain (x : scalar)
  | Formula (formula : string) (result : jsval).

Record sheet : Type := Sheet {
  sheet_name : string;
  sheet_cells : gmap (nat * nat) content
}.

(** An element of [changes]: [{ sheet, cell, value, formula }]; a field
    that is missing or falsy is [None].  The [style] field, which changes
    no value, is left out. *)
Record change : Type := Change {
  c_sheet : option string;
  c_cell : option string;
  c_value : jsval;
  c_formula : option string
}.

(** An entry of [diffSummary]. *)
Record diff : Type := Diff {
  d_sheet : string;
  d_cell : string;
  before : option content;
  after : option content
}.

(** The body of the loop over [changes]: [None] when it throws. *)
Definition apply_change (decodeAddress : string → option (nat * nat)) (c : change)
    (st : list sheet * list diff) : option (list sheet * list diff) :=
  match c_sheet c, c_cell c with
  | Some (String a0 r0), Some (String a1 r1) =>
      let sheetName := String a0 r0 in
      let cellAddr := String a1 r1 in
      s ← List.find (λ s, bool_decide (sheet_name s = sheetName)) (fst st);
      k ← decodeAddress cellAddr;
      let new :=
        match c_formula c with
        | Some (String f0 f) =>
            Some (Formula (String f0 f)
                    (if nullish (c_value c) then VNull else c_value c))
        | _ =>
            match c_value c with
            | VScalar x => Some (Plain x)
            | VNull | VUndefined => None
            end
        end in
      let cells' :=
        match new with
        | Some v => <[k := v]> (sheet_cells s)
        | None => delete k (sheet_cells s)
        end in
      Some (List.map (λ x, if bool_decide (sheet_name x = sheetName)
                           then Sheet (sheet_name x) cells' else x) (fst st),
            snd st ++ [Diff sheetName cellAddr (sheet_cells s !! k) new])
  | _, _ => None
  end.

Definition apply_changes (decodeAddress : string → option (nat * nat))
    (changes : list change) (wb : list sheet) : option (list sheet * list diff) :=
  foldl (λ st c, st ≫= apply_change decodeAddress c) (Some (wb, [])) changes.

(** The bucket, and the audit entries of the router as action and user. *)
Record world : Type := World {
  storage : gmap string (list sheet);
  log : list (string * string)
}.

Record env : Type := Env {
  download_fails : bool;
  upload_fails : bool;
  decodeAddress : string → option (nat * nat)
}.

Inductive response : Type :=
  | Failure (status : nat)
  | Applied (changes_applied : nat).

(** POST /update.  [changes] is [None] when the body's field is no
    array. *)
Definition update (FILE_KEY : string) (e : env) (authHeader : option string)
    (getUser : string → option auth_user) (changes : option (list change))
    (w : world) : response * world :=
  match getIdentity authHeader getUser with
  | (None, _, _) => (Failure 401, w)
  | (Some user, _, can_edit) =>
    if negb can_edit then (Failure 403, w) else
    match changes with
    | Some (c :: cs) =>
      if download_fails e then (Failure 500, w) else
      match storage w !! FILE_KEY with
      | None => (Failure 500, w)
      | Some workbook =>
        match apply_changes (decodeAddress e) (c :: cs) workbook with
        | None => (Failure 400, w)
        | Some (workbook, diffSummary) =>
            if upload_fails e then (Failure 500, w)
            else (Applied (length diffSummary),
                  World (<[FILE_KEY := workbook]> (storage w))
                    (log w ++ [("write", au_id user)]))
        end
      end
    | _ => (Failure 400, w)
    end
  end.

End ExcelRouter.

(** ** GET /audit/list *)

Module AuditList.

Import Identity Gate.

(** [parseInt(req.query.limit, 10) || 100] capped at 500, and
    [parseInt(req.query.offset, 10) || 0]; [None] is NaN. *)
Definition limit_of (q : option Z) : Z :=
  Z.min (match q with
         | Some z => if (z =? 0)%Z then 100 else z
         | None => 100
         end) 500.

Definition offset_of (q : option Z) : Z := default 0%Z q.

(** An element of [entries]. *)
Record entry : Type := Entry {
  ts : Z;
  actor : string;
  action : string;
  sheet : option string;
  email : option string
}.

(** The normalisation for the audit table of the client:
    [actor: row.email || row.user_id || 'â€”'], [email: row.email || null]. *)
Definition normalize (row : audit_entry) : entry :=
  Entry (a_created_at row)
    (match a_email row, a_user_id row with
     | String c s, _ => String c s
     | _, String c s => String c s
     | _, _ => "â€”"
     end)
    (a_action row) (a_sheet_name row)
    (match a_email row with String c s => Some (String c s) | _ => None end).

(** Rows by [created_at], the latest first. *)
Fixpoint insert_desc (row : audit_entry) (l : list audit_entry) : list audit_entry :=
  match l with
  | [] => [row]
  | x :: r =>
      if bool_decide (a_created_at x < a_created_at row)%Z
      then row :: x :: r else x :: insert_desc row r
  end.

Definition order_desc (l : list audit_entry) : list audit_entry :=
  foldr insert_desc [] l.

Section Route.

(** [.range(from, to)] of the database service on the ordered rows that
    pass the filter: the rows it returns, or [None] for an error. *)
Variable range : Z → Z → list audit_entry → option (list audit_entry).

(** The rows the query selects. *)
Definition selected (cfg : config) (ctx : context) (u : user)
    (limit offset : option Z) (table : list audit_entry)
    : option (list audit_entry) :=
  let limit := limit_of limit in
  let offset := offset_of offset in
  let own :=
    if bool_decide (userRole ctx ≠ "superadmin")
       && bool_decide (userEmail ctx ≠ OWNER_EMAIL cfg)
    then List.filter (λ row, bool_decide (a_user_id row = id u)) table
    else table in
  range offset (offset + limit - 1)%Z (order_desc own).

(** The handler: the status of an error, or the entries. *)
Definition audit_list (cfg : config) (ctx : context) (u : user)
    (limit offset : option Z) (table : list audit_entry) : nat + list entry :=
  match plan_gate cfg AuditList ctx with
  | Some (st, _) => inl st
  | None =>
      match selected cfg ctx u limit offset table with
      | None => inl 500
      | Some rows => inr (List.map normalize rows)
      end
  end.

End Route.

(** A service whose range is the rows from index [from] to index [to],
    and an error when [from] is negative. *)
Definition window (from to : Z) (rows : list audit_entry)
    : option (list audit_entry) :=
  if (from <? 0)%Z then None
  else Some (take (Z.to_nat (to - from + 1)) (drop (Z.to_nat from) rows)).

End AuditList.

(** * Properties *)

(** ** CSV export *)

Section CsvFacts.

Import Csv.

Lemma includes_occurs (s : string) (c : ascii) :
  includes s c = true ↔ occurs c s.
Proof.
  unfold occurs. induction s as [|a r IH]; simpl.
  - split; [discriminate | tauto].
  - rewrite orb_true_iff, IH, Ascii.eqb_eq. tauto.
Qed.

Lemma needs_quotes_special (s : string) :
  needs_quotes s = true ↔ special s.
Proof.
  unfold needs_quotes, special.
  rewrite !orb_true_iff, !includes_occurs. tauto.
Qed.

Lemma append_nil (t : string) : EmptyString +:+ t = t.
Proof. reflexivity. Qed.

Lemma append_cons (a : ascii) (r t : string) :
  String a r +:+ t = String a (r +:+ t).
Proof. reflexivity. Qed.

Ltac push_append := rewrite ?append_cons, ?append_nil; simpl.

Lemma append_String_assoc (s t u : string) :
  (s +:+ t) +:+ u = s +:+ (t +:+ u).
Proof.
  induction s as [|a r IH]; push_append; [reflexivity | f_equal; exact IH].
Qed.

Lemma is_delim_not_dquote (c : ascii) :
  is_delim c = true → Ascii.eqb c dquote = false.
Proof.
  intros H. destruct (Ascii.eqb_spec c dquote) as [-> |]; [| reflexivity].
  vm_compute in H. discriminate H.
Qed.

(** Reading back what lies between the quotes. *)
Lemma rfc4180_escaped_replace (s rest : string) :
  at_field_end rest = true →
  rfc4180_escaped (replace_quotes s +:+ String dquote rest) = Some (s, rest).
Proof.
  intros Hend. induction s as [|a r IH]; simpl; push_append.
  - destruct rest as [|b r']; [reflexivity |].
    simpl in Hend. rewrite (is_delim_not_dquote b Hend), Hend. reflexivity.
  - destruct (Ascii.eqb a dquote) eqn:Ha; push_append.
    + apply Ascii.eqb_eq in Ha. subst a. rewrite IH. reflexivity.
    + rewrite Ha, IH. reflexivity.
Qed.

(** Reading back a field written without quotes. *)
Lemma rfc4180_plain_unquoted (s rest : string) :
  needs_quotes s = false → at_field_end rest = true →
  rfc4180_plain (s +:+ rest) = Some (s, rest).
Proof.
  intros Hs Hend. induction s as [|a r IH]; push_append.
  - destruct rest as [|b r']; [reflexivity |].
    simpl in Hend. simpl. rewrite Hend. reflexivity.
  - unfold needs_quotes in Hs. simpl in Hs.
    rewrite !orb_false_iff in Hs.
    destruct Hs as [[[[Hq Hq'] [Hc Hc']] [Hl Hl']] [Hr Hr']].
    unfold is_delim at 1. rewrite Hc, Hl, Hr, Hq. simpl.
    rewrite IH; [reflexivity |].
    unfold needs_quotes. now rewrite Hq', Hc', Hl', Hr'.
Qed.

Lemma rfc4180_field_escapeCSV (v : jsval) (rest : string) :
  nullish v = false → at_field_end rest = true →
  rfc4180_field (escapeCSV v +:+ rest) = Some (String_ v, rest).
Proof.
  intros Hv Hend. unfold escapeCSV. rewrite Hv. simpl.
  destruct (needs_quotes (String_ v)) eqn:Hq.
  - push_append. rewrite append_String_assoc. push_append.
    apply rfc4180_escaped_replace, Hend.
  - destruct (String_ v +:+ rest) as [|a r] eqn:Happ.
    + destruct (String_ v); [| discriminate]. rewrite append_nil in Happ. now subst rest.
    + unfold rfc4180_field.
      destruct (Ascii.eqb a dquote) eqn:Ha.
      * apply Ascii.eqb_eq in Ha. subst a.
        destruct (String_ v) as [|b r'] eqn:Hs.
        -- rewrite append_nil in Happ. subst rest. discriminate.
        -- rewrite append_cons in Happ. injection Happ as -> _.
           unfold needs_quotes in Hq. simpl in Hq. discriminate.
      * rewrite <- Happ. apply rfc4180_plain_unquoted; assumption.
Qed.

(** C9.  [escapeCSV] maps null and undefined to the empty string; of any
    other value it writes the string form between double quotes, with the
    double quotes inside doubled, exactly when that string holds a comma,
    a double quote or a line break, and writes it as it is otherwise; and
    an RFC 4180 field reader, run on the written field followed by the
    rest of a record, reads back the string form and stops at that rest. *)
Theorem escapeCSV_rfc4180_roundtrip (v : jsval) :
  (nullish v = true → escapeCSV v = EmptyString)
  ∧ (nullish v = false →
       (special (String_ v) → escapeCSV v = quoted (String_ v))
       ∧ (¬ special (String_ v) → escapeCSV v = String_ v)
       ∧ ∀ rest, at_field_end rest = true →
           rfc4180_field (escapeCSV v +:+ rest) = Some (String_ v, rest)).
Proof.
  split.
  - intros Hv. unfold escapeCSV. now rewrite Hv.
  - intros Hv. split; [| split].
    + intros Hs. apply needs_quotes_special in Hs.
      unfold escapeCSV, quoted. now rewrite Hv, Hs.
    + intros Hs. unfold escapeCSV. rewrite Hv.
      destruct (needs_quotes (String_ v)) eqn:Hq; [| reflexivity].
      exfalso. now apply Hs, needs_quotes_special.
    + intros rest. now apply rfc4180_field_escapeCSV.
Qed.

Lemma escapeCSV_rfc4180_roundtrip_witness :
  nullish csv_sample = false
  ∧ special (String_ csv_sample)
  ∧ escapeCSV csv_sample = quoted (String_ csv_sample)
  ∧ rfc4180_field (escapeCSV csv_sample +:+ String comma "next")
    = Some (String_ csv_sample, String comma "next").
Proof.
  pose proof (escapeCSV_rfc4180_roundtrip csv_sample) as [_ H].
  destruct (H eq_refl) as (Hq & _ & Hr).
  assert (Hs : special (String_ csv_sample)).
  { left. unfold occurs. simpl. right. left. reflexivity. }
  split; [reflexivity |]. split; [exact Hs |].
  split; [exact (Hq Hs) | exact (Hr (String comma "next") eq_refl)].
Defined.

End CsvFacts.

(** ** Identity and plan resolution *)

Section IdentityFacts.

Import Identity.

(** Both resolvers hand the shared master key, not the per-user path, to
    a user whose profile lookup returns an error. *)
Lemma failed_lookup_gets_master_key :
  lookup_failed (Resolved None true)
  ∧ fileKey (attachUserPlanAndFile sample_config (Some sample_user) true (Resolved None true))
    = "master.xlsx"
  ∧ fileKey (attachUserContext sample_config (Some sample_user) true (Resolved None true))
    = "master.xlsx"
  ∧ user_file_path sample_config (id sample_user) = "users/u1/uploaded.xlsx"
  ∧ ¬ fails_to_user_path attachUserPlanAndFile
  ∧ ¬ fails_to_user_path attachUserContext.
Proof.
  split; [left; reflexivity |].
  split; [reflexivity |]. split; [reflexivity |]. split; [reflexivity |].
  split; intros H;
    destruct (H sample_config sample_user (Resolved None true)) as (_ & _ & Hk);
    try (left; reflexivity); vm_compute in Hk; discriminate Hk.
Qed.

(** C1, as the code has it.  After a lookup that fails or returns no row,
    both resolvers set role user and plan free.  [attachUserContext] sets
    the workbook key to the shared key [CONFIG.EXCEL_FILE_KEY];
    [attachUserPlanAndFile] sets it to the shared key when the lookup
    returns an error or throws, and to the per-user path
    [{users-prefix}/{user_id}/uploaded.xlsx] when the lookup returns no
    error and no row. *)
Theorem failed_lookup_resolves_to_free_user
    (cfg : config) (u : user) (l : lookup) :
  lookup_failed l →
  let a := attachUserPlanAndFile cfg (Some u) true l in
  let p := attachUserContext cfg (Some u) true l in
  userRole a = "user" ∧ userPlan a = "free"
  ∧ userRole p = "user" ∧ userPlan p = "free"
  ∧ fileKey p = EXCEL_FILE_KEY cfg
  ∧ fileKey a = fallback_key cfg u l.
Proof.
  destruct l as [[row|] [|] |]; simpl; intros H.
  - repeat split.
  - destruct H as [H | H]; discriminate H.
  - repeat split.
  - repeat split.
  - repeat split.
Qed.

Lemma failed_lookup_resolves_to_free_user_witness :
  lookup_failed Threw
  ∧ userRole (attachUserPlanAndFile sample_config (Some sample_user) true Threw) = "user"
  ∧ userPlan (attachUserPlanAndFile sample_config (Some sample_user) true Threw) = "free"
  ∧ fileKey (attachUserPlanAndFile sample_config (Some sample_user) true Threw)
    = fallback_key sample_config sample_user Threw.
Proof.
  assert (H : lookup_failed Threw) by exact I.
  destruct (failed_lookup_resolves_to_free_user sample_config sample_user Threw H)
    as (Hr & Hp & _ & _ & _ & Hk).
  exact (conj H (conj Hr (conj Hp Hk))).
Defined.

End IdentityFacts.

(** ** The free-plan gates *)

Section GateFacts.

Import Identity Gate.

(** When the gate of a route denies, and when it lets through. *)
Lemma free_plan_gate_iff
    (r : route) (ctx : context) (uid : string) (table : list audit_entry)
    (now : Z) :
  (free_plan_gate r ctx uid table now true = Some (403, quota_message r)
   ↔ userPlan ctx = "free" ∧ 3 ≤ count_today table uid (quota_actions r) now)
  ∧ (free_plan_gate r ctx uid table now true = None
     ↔ userPlan ctx ≠ "free" ∨ count_today table uid (quota_actions r) now < 3).
Proof.
  unfold free_plan_gate, quota_gate. split.
  - repeat case_bool_decide; split; intros Hx;
      try discriminate Hx; try (split; assumption); try reflexivity;
      destruct Hx; try contradiction; lia.
  - repeat case_bool_decide; split; intros Hx;
      try discriminate Hx; try reflexivity;
      try (right; lia); try (left; assumption);
      destruct Hx; try contradiction; lia.
Qed.

(** The rows the count query of a gate counts. *)
Lemma count_today_filter
    (table : list audit_entry) (uid : string) (actions : list string) (now : Z) :
  count_today table uid actions now
  = length (filter (λ e, a_user_id e = uid ∧ a_action e ∈ actions
                         ∧ (now / 86400 * 86400 ≤ a_created_at e)%Z) table).
Proof.
  unfold count_today. f_equal. apply list_filter_iff.
  intros e. unfold matches, utc_day_start.
  rewrite !andb_true_iff, !bool_decide_eq_true. tauto.
Qed.

(** The plan test, route by route. *)
Lemma plan_gate_cases (cfg : config) (r : premium_route) (ctx : context) :
  plan_gate cfg r ctx = None
  ∨ plan_gate cfg r ctx = Some (403, premium_message r).
Proof.
  unfold plan_gate. destruct r; repeat case_bool_decide; simpl; auto.
Qed.

Lemma plan_gate_download (cfg : config) (ctx : context) :
  plan_gate cfg Download ctx = Some (403, premium_message Download)
  ↔ userPlan ctx = "free" ∧ ¬ privileged cfg ctx.
Proof.
  unfold plan_gate, privileged.
  repeat case_bool_decide; simpl; split; intros Hx;
    try discriminate Hx; try reflexivity; tauto.
Qed.

Lemma plan_gate_plan_only (cfg : config) (r : premium_route) (ctx : context) :
  r ≠ Download →
  plan_gate cfg r ctx = Some (403, premium_message r) ↔ userPlan ctx = "free".
Proof.
  intros Hr. destruct r; try contradiction; unfold plan_gate;
    case_bool_decide; split; intros Hx;
    try discriminate Hx; try reflexivity; try assumption; contradiction.
Qed.

(** An export of a named sheet is refused with 403 exactly by the plan
    test, and then nothing is written. *)
Lemma export_refused
    (r : premium_route) (action : string) (send : Excel.worksheet → Premium.answer)
    (cfg : config) (e : Server.env) (u : user) (ctx : context) (n : string)
    (w : Server.world) :
  n ≠ EmptyString → (∀ ws msg, send ws ≠ Premium.Refused 403 msg) →
  (plan_gate cfg r ctx = Some (403, premium_message r) →
     Premium.export r action send cfg e u ctx (Some n) w
     = (Premium.Refused 403 (premium_message r), w))
  ∧ ((∃ msg, fst (Premium.export r action send cfg e u ctx (Some n) w)
             = Premium.Refused 403 msg) →
       plan_gate cfg r ctx = Some (403, premium_message r)).
Proof.
  intros Hn Hsend. destruct n as [|a0 r0]; [contradiction |].
  unfold Premium.export. split.
  - intros ->. reflexivity.
  - destruct (plan_gate_cases cfg r ctx) as [-> | ->]; [| done].
    intros [msg H]. exfalso.
    destruct (Server.getBufferFromStorage e w (fileKey ctx)) as [buffer|];
      [| discriminate H].
    destruct (Server.loadWorkbook buffer) as [workbook|]; [| discriminate H].
    destruct (Excel.getWorksheet workbook (String a0 r0)) as [ws|]; [| discriminate H].
    exact (Hsend _ _ H).
Qed.

(** A superadmin on the free plan who asks for the CSV export, the PDF
    export or the audit list of a workbook is answered 403, as is the
    owner: the exemption holds for the download only. *)
Lemma free_superadmin_denied_export :
  userPlan free_superadmin = "free"
  ∧ privileged sample_config free_superadmin
  ∧ privileged sample_config free_owner
  ∧ Premium.export_csv sample_config Server.working_env (User "u2" None) free_superadmin
      (Some "Data") Premium.premium_world
    = (Premium.Refused 403 "CSV export is available only on premium plans",
       Premium.premium_world)
  ∧ Premium.export_pdf sample_config Server.working_env (User "u2" None) free_superadmin
      (Some "Data") Premium.premium_world
    = (Premium.Refused 403 "PDF export is available only on premium plans",
       Premium.premium_world)
  ∧ AuditList.audit_list AuditList.window sample_config free_owner (User "u3" None)
      None None []
    = inl 403
  ∧ Premium.download sample_config Server.working_env free_superadmin
      Premium.premium_world
    = Premium.File (Server.Xlsx Server.data_workbook)
  ∧ ¬ Premium.denied_unless_privileged sample_config free_superadmin
        (fst (Premium.export_csv sample_config Server.working_env (User "u2" None)
                free_superadmin (Some "Data") Premium.premium_world))
  ∧ ¬ Premium.denied_unless_privileged sample_config free_superadmin
        (fst (Premium.export_pdf sample_config Server.working_env (User "u2" None)
                free_superadmin (Some "Data") Premium.premium_world))
  ∧ ¬ exempts_privileged sample_config ExportCsv
  ∧ ¬ exempts_privileged sample_config ExportPdf
  ∧ ¬ exempts_privileged sample_config AuditList.
Proof.
  assert (Hp : privileged sample_config free_superadmin) by (left; reflexivity).
  split; [reflexivity |]. split; [exact Hp |].
  split; [right; reflexivity |].
  do 4 (split; [reflexivity |]).
  split; [| split].
  - intros [H _]. apply H; [| exact Hp]. eexists. reflexivity.
  - intros [H _]. apply H; [| exact Hp]. eexists. reflexivity.
  - repeat split; intros H;
      destruct (H free_superadmin eq_refl) as [_ Hx];
      specialize (Hx Hp); vm_compute in Hx; discriminate Hx.
Qed.

(** C6, as the code has it.  GET /excel/download answers 403 exactly the
    callers who are on the free plan and are neither superadmin nor the
    owner; it serves the others from storage.  The CSV export and the PDF
    export answer 400 to a request that names no sheet, whatever the
    plan, and answer a request that names one with 403, writing nothing,
    exactly when the caller is on the free plan, whatever the role or the
    email; the audit list answers 403 exactly the callers on the free
    plan. *)
Theorem plan_gate_denies_free_plan
    (cfg : config) (e : Server.env) (u : user) (ctx : context) (w : Server.world)
    (range : Z → Z → list audit_entry → option (list audit_entry))
    (limit offset : option Z) (table : list audit_entry) :
  (Premium.download cfg e ctx w = Premium.Refused 403 (premium_message Download)
   ↔ userPlan ctx = "free" ∧ ¬ privileged cfg ctx)
  ∧ (userPlan ctx ≠ "free" ∨ privileged cfg ctx →
       Premium.download cfg e ctx w
       = match Server.getBufferFromStorage e w (Server.target_key cfg ctx) with
         | Some buffer => Premium.File buffer
         | None => Premium.Refused 404 "Workbook not found"
         end)
  ∧ (∀ sheet, sheet = None ∨ sheet = Some EmptyString →
       Premium.export_csv cfg e u ctx sheet w
       = (Premium.Refused 400 "Sheet is required", w)
       ∧ Premium.export_pdf cfg e u ctx sheet w
         = (Premium.Refused 400 "Sheet is required", w))
  ∧ (∀ n, n ≠ EmptyString →
       (userPlan ctx = "free" →
          Premium.export_csv cfg e u ctx (Some n) w
          = (Premium.Refused 403 (premium_message ExportCsv), w)
          ∧ Premium.export_pdf cfg e u ctx (Some n) w
            = (Premium.Refused 403 (premium_message ExportPdf), w))
       ∧ ((∃ msg, fst (Premium.export_csv cfg e u ctx (Some n) w)
                  = Premium.Refused 403 msg) → userPlan ctx = "free")
       ∧ ((∃ msg, fst (Premium.export_pdf cfg e u ctx (Some n) w)
                  = Premium.Refused 403 msg) → userPlan ctx = "free"))
  ∧ (AuditList.audit_list range cfg ctx u limit offset table = inl 403
     ↔ userPlan ctx = "free").
Proof.
  assert (Hcsv : ∀ ws msg, Premium.CsvDocument (CsvExport.export_csv ws)
                           ≠ Premium.Refused 403 msg) by discriminate.
  assert (Hpdf : ∀ ws msg, Premium.PdfDocument ws ≠ Premium.Refused 403 msg)
    by discriminate.
  assert (Hc : ExportCsv ≠ Download) by discriminate.
  assert (Hd : ExportPdf ≠ Download) by discriminate.
  assert (Ha : AuditList ≠ Download) by discriminate.
  split; [| split; [| split; [| split]]].
  - rewrite <- plan_gate_download. unfold Premium.download.
    destruct (plan_gate_cases cfg Download ctx) as [-> | ->]; [| done].
    split; [| discriminate].
    destruct (Server.getBufferFromStorage e w (Server.target_key cfg ctx));
      discriminate.
  - intros Hok. unfold Premium.download.
    destruct (plan_gate_cases cfg Download ctx) as [-> | Hdeny]; [done |].
    apply plan_gate_download in Hdeny. tauto.
  - intros sheet [-> | ->]; split; reflexivity.
  - intros n Hn.
    destruct (export_refused ExportCsv "export_csv"
                (λ ws, Premium.CsvDocument (CsvExport.export_csv ws))
                cfg e u ctx n w Hn Hcsv) as [Hc1 Hc2].
    destruct (export_refused ExportPdf "export_pdf_single" Premium.PdfDocument
                cfg e u ctx n w Hn Hpdf) as [Hp1 Hp2].
    split; [| split].
    + intros Hfree. split.
      * apply Hc1. now apply plan_gate_plan_only.
      * apply Hp1. now apply plan_gate_plan_only.
    + intros H. apply (plan_gate_plan_only cfg ExportCsv ctx Hc). now apply Hc2.
    + intros H. apply (plan_gate_plan_only cfg ExportPdf ctx Hd). now apply Hp2.
  - rewrite <- (plan_gate_plan_only cfg AuditList ctx Ha).
    unfold AuditList.audit_list.
    destruct (plan_gate_cases cfg AuditList ctx) as [-> | ->]; [| done].
    split; [| discriminate].
    destruct (AuditList.selected range cfg ctx u limit offset table); discriminate.
Qed.

Lemma plan_gate_denies_free_plan_witness :
  "Data" ≠ EmptyString
  ∧ userPlan free_superadmin = "free"
  ∧ Premium.export_csv sample_config Server.working_env (User "u2" None) free_superadmin
      (Some "Data") Premium.premium_world
    = (Premium.Refused 403 (premium_message ExportCsv), Premium.premium_world)
  ∧ Premium.download sample_config Server.working_env free_superadmin
      Premium.premium_world
    = Premium.File (Server.Xlsx Server.data_workbook).
Proof.
  assert (Hn : "Data" ≠ EmptyString) by discriminate.
  assert (Hp : userPlan free_superadmin ≠ "free"
               ∨ privileged sample_config free_superadmin) by (right; left; reflexivity).
  destruct (plan_gate_denies_free_plan sample_config Server.working_env (User "u2" None)
              free_superadmin Premium.premium_world AuditList.window None None [])
    as (_ & Hd & _ & Hx & _).
  destruct (Hx "Data" Hn) as [Hfree _].
  destruct (Hfree eq_refl) as [Hcsv _].
  exact (conj Hn (conj eq_refl (conj Hcsv (Hd Hp)))).
Defined.

End GateFacts.

(** ** The served sheet list *)

Section SheetsFacts.

Import Gate Sheets.

Lemma indexOf_split (l : list string) (x : string) (i : nat) :
  indexOf l x = Some i →
  ∃ l1 l2, l = l1 ++ (x :: l2) ∧ (x ∉ l1) ∧ delete i l = l1 ++ l2.
Proof.
  revert i. induction l as [|y r IH]; intros i; simpl; [discriminate |].
  case_bool_decide as Hy.
  - intros [= <-]. subst y. exists [], r. split; [reflexivity |].
    split; [apply not_elem_of_nil | reflexivity].
  - destruct (indexOf r x) as [k|] eqn:Hk; simpl; [| discriminate].
    intros [= <-]. destruct (IH k eq_refl) as (l1 & l2 & -> & Hn & Hd).
    exists (y :: l1), l2. split; [reflexivity |].
    split; [| simpl; now rewrite Hd].
    rewrite not_elem_of_cons. split; [congruence | assumption].
Qed.

Lemma indexOf_None (l : list string) (x : string) :
  indexOf l x = None ↔ x ∉ l.
Proof.
  induction l as [|y r IH]; simpl.
  - split; [intros _; apply not_elem_of_nil | reflexivity].
  - rewrite not_elem_of_cons. case_bool_decide as Hy.
    + split; [discriminate | intros [Hx _]; congruence].
    + destruct (indexOf r x) as [k|]; simpl.
      * split; [discriminate |]. intros [_ Hx]. now apply IH in Hx.
      * split; [| reflexivity]. intros _. split; [congruence | now apply IH].
Qed.





(** What pinning and reordering do to a list of sheet names. *)
End SheetsFacts.

(** ** The payment webhook *)

Section WebhookFacts.

Import Payments.

Variable hmac_sha512_hex : string → string → string.
Variable JSON_parse : string → option json.
Variable toLowerCase : string → string.

Lemma get_total (x : value) (p q : string) (v : value) :
  get x p = Some v → ∃ u, get x q = Some u.
Proof.
  destruct x as [[| | | | |fields]|]; simpl; intros H; try discriminate H; eauto.
Qed.

Lemma get_opt_total (x : value) (p : string) : ∃ u, get_opt x p = Some u.
Proof. destruct x as [[| | | | |fields]|]; simpl; eauto. Qed.

(** The fields the handler reads are there once the customer email is. *)
Lemma charge_fields_read (event : json) (email : value) :
  customer_email event = Some email →
  ∃ amount reference planCode,
    charge_fields event = Some (email, amount, reference, planCode).
Proof.
  unfold customer_email, charge_fields. intros H.
  destruct (get (Some event) "data") as [data|] eqn:Hd; simpl in *; [| discriminate].
  destruct (get data "customer") as [customer|] eqn:Hc; simpl in *; [| discriminate].
  rewrite H. simpl.
  destruct (get_total data "customer" "amount" _ Hc) as [amount ->].
  destruct (get_total data "customer" "reference" _ Hc) as [reference ->].
  destruct (get_total data "customer" "plan" _ Hc) as [plan ->]. simpl.
  destruct (get_opt_total plan "plan_code") as [planCode ->]. simpl.
  eauto.
Qed.

(** The update row by row: a profile with the email gets the plan paid,
    and every other profile stays as it is. *)
Lemma update_plan_rows (e : string) (expiresAt : Z) (ps : list profile) :
  length (update_plan e expiresAt ps) = length ps
  ∧ ∀ i p, ps !! i = Some p →
      ∃ p', update_plan e expiresAt ps !! i = Some p'
            ∧ pf_email p' = pf_email p
            ∧ (pf_email p = e → pf_plan p' = "paid")
            ∧ (pf_email p ≠ e → p' = p).
Proof.
  unfold update_plan. split; [apply length_map |].
  intros i p Hp. rewrite list_lookup_fmap, Hp. simpl. eexists. split; [reflexivity |].
  case_bool_decide as He; simpl; repeat split; try done.
Qed.

Lemma insert_payment_profiles (app : bool) (e : env) (em : string)
    (amount reference planCode : value) (d : db) :
  profiles (insert_payment app e em amount reference planCode d) = profiles d.
Proof.
  unfold insert_payment, after_insert.
  destruct (insert_outcome e), app; reflexivity.
Qed.

(** The handler throws on a body that was parsed before the route. *)
Lemma webhook_parsed (app : bool) (e : env) (req : request) (d : db) (o : json) :
  req_body req = Parsed o →
  webhook hmac_sha512_hex JSON_parse toLowerCase app e req d = (None, d).
Proof. intros H. unfold webhook. now rewrite H. Qed.

(** The handler proper, on a Buffer whose signature is valid and whose
    event is charge.success with a customer email. *)
Lemma webhook_charge (e : env) (req : request) (d : db) (bytes : string)
    (event : json) (em : string) :
  req_body req = Buffer bytes →
  signature_valid hmac_sha512_hex e req →
  JSON_parse bytes = Some event →
  event_type event = Some (Some (JStr "charge.success")) →
  customer_email event = Some (Some (JStr em)) →
  update_outcome e = Applied →
  ∃ expiresAt, ∀ app,
    fst (webhook hmac_sha512_hex JSON_parse toLowerCase app e req d) = Some 200
    ∧ profiles (snd (webhook hmac_sha512_hex JSON_parse toLowerCase app e req d))
      = update_plan (toLowerCase em) expiresAt (profiles d).
Proof.
  intros Hb Hsig Hparse Hty Hem Hup.
  unfold webhook. unfold signature_valid in Hsig. rewrite Hb in Hsig |- *.
  rewrite bool_decide_eq_true_2 by exact Hsig.
  unfold handle_event. rewrite Hparse.
  unfold event_type in Hty. rewrite Hty.
  destruct (charge_fields_read event _ Hem) as (amount & reference & planCode & ->).
  eexists. intros app. split; [reflexivity |]. simpl.
  unfold record_charge. rewrite Hup.
  now rewrite insert_payment_profiles.
Qed.

Lemma webhook_bad_signature (app : bool) (e : env) (req : request) (d : db)
    (bytes : string) :
  req_body req = Buffer bytes →
  ¬ signature_valid hmac_sha512_hex e req →
  webhook hmac_sha512_hex JSON_parse toLowerCase app e req d = (Some 401, d).
Proof.
  intros Hb Hsig. unfold webhook. unfold signature_valid in Hsig.
  rewrite Hb in Hsig |- *.
  now rewrite bool_decide_eq_false_2 by exact Hsig.
Qed.

Lemma is_string_false (x : value) (t : string) :
  x ≠ Some (JStr t) → is_string x t = false.
Proof.
  destruct x as [[| | |u| |]|]; simpl; intros H; try reflexivity.
  apply bool_decide_eq_false_2. congruence.
Qed.

Lemma webhook_other_event (app : bool) (e : env) (req : request) (d : db)
    (bytes : string) (event : json) (ty : value) :
  req_body req = Buffer bytes →
  signature_valid hmac_sha512_hex e req →
  JSON_parse bytes = Some event →
  event_type event = Some ty →
  ty ≠ Some (JStr "charge.success") →
  webhook hmac_sha512_hex JSON_parse toLowerCase app e req d = (Some 200, d).
Proof.
  intros Hb Hsig Hparse Hty Hne.
  unfold webhook. unfold signature_valid in Hsig. rewrite Hb in Hsig |- *.
  rewrite bool_decide_eq_true_2 by exact Hsig.
  unfold handle_event. rewrite Hparse.
  unfold event_type in Hty. rewrite Hty.
  now rewrite is_string_false.
Qed.

(** C4.  The handlers do what the claim says on a body that reaches them
    as a Buffer, and break it on a body the application has parsed as
    JSON before the route.  On a parsed body the handler of server/app.js
    answers 500 and the handler of the payment router sends no answer,
    whatever the signature header, and no table is written.  On a Buffer
    whose digest under the secret equals the signature header and whose
    event is charge.success with a customer email, both handlers respond
    200 and, the database applying the update, every profile whose email
    is the customer email in lower case has the plan paid afterwards and
    every other profile is as it was.  On a Buffer whose digest differs
    from the header both handlers respond 401 and the tables are
    unchanged. *)
Theorem webhook_upgrades_plan_on_raw_body (e : env) (req : request) (d : db) :
  (∀ o, req_body req = Parsed o →
     webhook_app hmac_sha512_hex JSON_parse toLowerCase e req d = (Some 500, d)
     ∧ webhook_router hmac_sha512_hex JSON_parse toLowerCase e req d = (None, d))
  ∧ (∀ bytes event em,
       req_body req = Buffer bytes →
       signature_valid hmac_sha512_hex e req →
       JSON_parse bytes = Some event →
       event_type event = Some (Some (JStr "charge.success")) →
       customer_email event = Some (Some (JStr em)) →
       update_outcome e = Applied →
       ∃ expiresAt,
         fst (webhook_app hmac_sha512_hex JSON_parse toLowerCase e req d) = Some 200
         ∧ fst (webhook_router hmac_sha512_hex JSON_parse toLowerCase e req d) = Some 200
         ∧ profiles (snd (webhook_app hmac_sha512_hex JSON_parse toLowerCase e req d))
           = update_plan (toLowerCase em) expiresAt (profiles d)
         ∧ profiles (snd (webhook_router hmac_sha512_hex JSON_parse toLowerCase e req d))
           = update_plan (toLowerCase em) expiresAt (profiles d)
         ∧ length (update_plan (toLowerCase em) expiresAt (profiles d))
           = length (profiles d)
         ∧ ∀ i p, profiles d !! i = Some p →
             ∃ p', update_plan (toLowerCase em) expiresAt (profiles d) !! i = Some p'
                   ∧ pf_email p' = pf_email p
                   ∧ (pf_email p = toLowerCase em → pf_plan p' = "paid")
                   ∧ (pf_email p ≠ toLowerCase em → p' = p))
  ∧ (∀ bytes,
       req_body req = Buffer bytes →
       ¬ signature_valid hmac_sha512_hex e req →
       webhook_app hmac_sha512_hex JSON_parse toLowerCase e req d = (Some 401, d)
       ∧ webhook_router hmac_sha512_hex JSON_parse toLowerCase e req d = (Some 401, d)).
Proof.
  split; [| split].
  - intros o Hb. unfold webhook_app, webhook_router.
    rewrite !(webhook_parsed _ e req d o Hb). split; reflexivity.
  - intros bytes event em Hb Hsig Hparse Hty Hem Hup.
    destruct (webhook_charge e req d bytes event em Hb Hsig Hparse Hty Hem Hup)
      as (expiresAt & H).
    exists expiresAt.
    destruct (H true) as [Hs1 Hp1]. destruct (H false) as [Hs2 Hp2].
    unfold webhook_app, webhook_router.
    destruct (webhook hmac_sha512_hex JSON_parse toLowerCase true e req d)
      as [[st|] d1]; simpl in Hs1, Hp1; [| discriminate Hs1].
    simpl. split; [assumption |]. split; [assumption |].
    split; [assumption |]. split; [assumption |].
    apply update_plan_rows.
  - intros bytes Hb Hsig. unfold webhook_app, webhook_router.
    rewrite !(webhook_bad_signature _ e req d bytes Hb Hsig). split; reflexivity.
Qed.

(** C10.  An event whose type is not charge.success leaves the profile
    table, the payment table and the event stream as they were, however
    it is delivered; the answer is 200 when the body reaches the handler
    as a Buffer with a valid signature.  When the application has parsed
    the body as JSON before the route, the handler of server/app.js
    answers 500 and the handler of the payment router sends no answer. *)
Theorem webhook_other_event_writes_nothing (e : env) (req : request) (d : db) :
  (∀ bytes event ty,
     req_body req = Buffer bytes →
     signature_valid hmac_sha512_hex e req →
     JSON_parse bytes = Some event →
     event_type event = Some ty →
     ty ≠ Some (JStr "charge.success") →
     webhook_app hmac_sha512_hex JSON_parse toLowerCase e req d = (Some 200, d)
     ∧ webhook_router hmac_sha512_hex JSON_parse toLowerCase e req d = (Some 200, d))
  ∧ (∀ event ty,
       req_body req = Parsed event →
       event_type event = Some ty →
       ty ≠ Some (JStr "charge.success") →
       webhook_app hmac_sha512_hex JSON_parse toLowerCase e req d = (Some 500, d)
       ∧ webhook_router hmac_sha512_hex JSON_parse toLowerCase e req d = (None, d)).
Proof.
  split.
  - intros bytes event ty Hb Hsig Hparse Hty Hne.
    unfold webhook_app, webhook_router.
    rewrite !(webhook_other_event _ e req d bytes event ty Hb Hsig Hparse Hty Hne).
    split; reflexivity.
  - intros event ty Hb _ _. unfold webhook_app, webhook_router.
    rewrite !(webhook_parsed _ e req d event Hb). split; reflexivity.
Qed.

End WebhookFacts.

Lemma webhook_upgrades_plan_on_raw_body_witness :
  Payments.webhook_app Payments.sample_hmac Payments.sample_parse Payments.sample_lower
    Payments.sample_env Payments.charge_delivery Payments.sample_db
  = (Some 500, Payments.sample_db)
  ∧ Payments.signature_valid Payments.sample_hmac Payments.sample_env
      Payments.charge_request
  ∧ Payments.update_outcome Payments.sample_env = Payments.Applied
  ∧ (∃ expiresAt,
       fst (Payments.webhook_app Payments.sample_hmac Payments.sample_parse
              Payments.sample_lower Payments.sample_env Payments.charge_request
              Payments.sample_db) = Some 200
       ∧ Payments.profiles
           (snd (Payments.webhook_app Payments.sample_hmac Payments.sample_parse
                   Payments.sample_lower Payments.sample_env Payments.charge_request
                   Payments.sample_db))
         = Payments.update_plan "ada@example.com" expiresAt
             (Payments.profiles Payments.sample_db))
  ∧ ¬ Payments.signature_valid Payments.sample_hmac Payments.sample_env
        Payments.forged_request
  ∧ Payments.webhook_app Payments.sample_hmac Payments.sample_parse Payments.sample_lower
      Payments.sample_env Payments.forged_request Payments.sample_db
    = (Some 401, Payments.sample_db).
Proof.
  assert (Hsig : Payments.signature_valid Payments.sample_hmac Payments.sample_env
                   Payments.charge_request) by reflexivity.
  assert (Hbad : ¬ Payments.signature_valid Payments.sample_hmac Payments.sample_env
                     Payments.forged_request) by (vm_compute; discriminate).
  destruct (webhook_upgrades_plan_on_raw_body Payments.sample_hmac
              Payments.sample_parse Payments.sample_lower Payments.sample_env
              Payments.charge_delivery Payments.sample_db) as (Hjson & _ & _).
  destruct (webhook_upgrades_plan_on_raw_body Payments.sample_hmac
              Payments.sample_parse Payments.sample_lower Payments.sample_env
              Payments.charge_request Payments.sample_db) as (_ & Hok & _).
  destruct (webhook_upgrades_plan_on_raw_body Payments.sample_hmac
              Payments.sample_parse Payments.sample_lower Payments.sample_env
              Payments.forged_request Payments.sample_db) as (_ & _ & Hno).
  destruct (Hjson Payments.charge_event eq_refl) as [H500 _].
  destruct (Hok "charge" Payments.charge_event "Ada@Example.com"
              eq_refl Hsig eq_refl eq_refl eq_refl eq_refl)
    as (x & Hst & _ & Hp & _).
  destruct (Hno "charge" eq_refl Hbad) as [H401 _].
  split; [exact H500 |]. split; [exact Hsig |]. split; [reflexivity |].
  split; [exists x; exact (conj Hst Hp) |].
  split; [exact Hbad | exact H401].
Defined.

Lemma webhook_other_event_writes_nothing_witness :
  Payments.signature_valid Payments.sample_hmac Payments.sample_env Payments.transfer_request
  ∧ Payments.webhook_app Payments.sample_hmac Payments.sample_parse Payments.sample_lower
      Payments.sample_env Payments.transfer_request Payments.sample_db
    = (Some 200, Payments.sample_db)
  ∧ Payments.webhook_router Payments.sample_hmac Payments.sample_parse
      Payments.sample_lower Payments.sample_env Payments.transfer_request
      Payments.sample_db
    = (Some 200, Payments.sample_db)
  ∧ Payments.webhook_app Payments.sample_hmac Payments.sample_parse Payments.sample_lower
      Payments.sample_env Payments.transfer_delivery Payments.sample_db
    = (Some 500, Payments.sample_db)
  ∧ Payments.webhook_router Payments.sample_hmac Payments.sample_parse
      Payments.sample_lower Payments.sample_env Payments.transfer_delivery
      Payments.sample_db
    = (None, Payments.sample_db).
Proof.
  assert (Hsig : Payments.signature_valid Payments.sample_hmac Payments.sample_env
                   Payments.transfer_request) by reflexivity.
  assert (Hne : Some (Payments.JStr "transfer.success")
                ≠ Some (Payments.JStr "charge.success")) by discriminate.
  destruct (webhook_other_event_writes_nothing Payments.sample_hmac Payments.sample_parse
              Payments.sample_lower Payments.sample_env Payments.transfer_request
              Payments.sample_db) as [Hraw _].
  destruct (webhook_other_event_writes_nothing Payments.sample_hmac Payments.sample_parse
              Payments.sample_lower Payments.sample_env Payments.transfer_delivery
              Payments.sample_db) as [_ Hjson].
  exact (conj Hsig
           (conj (proj1 (Hraw "transfer" Payments.transfer_event _
                           eq_refl Hsig eq_refl eq_refl Hne))
              (conj (proj2 (Hraw "transfer" Payments.transfer_event _
                              eq_refl Hsig eq_refl eq_refl Hne))
                 (Hjson Payments.transfer_event _ eq_refl eq_refl Hne)))).
Defined.

(** ** Saving a grid and previewing it *)

Section ExcelFacts.

Import Excel.

Lemma cells_getRow r ws : cells (getRow r ws) = cells ws.
Proof. reflexivity. Qed.

Lemma cells_getCell r c ws : cells (getCell r c ws) = cells ws.
Proof. reflexivity. Qed.

Lemma cells_set_value r c v ws k :
  cells (set_value r c v ws) !! k
  = if decide (k = (r, c)) then to_cell v else cells ws !! k.
Proof.
  unfold set_value. simpl. destruct v as [| |x]; simpl; case_decide as Hk; subst;
    rewrite ?lookup_delete_eq, ?lookup_insert_eq; try reflexivity;
    rewrite ?lookup_delete_ne, ?lookup_insert_ne by congruence; reflexivity.
Qed.

Lemma cell_value_to_cell ws r c : to_cell (cell_value ws r c) = cells ws !! (r, c).
Proof. unfold cell_value. now destruct (cells ws !! (r, c)). Qed.

Lemma entry_not_undefined row c : entry row c ≠ VUndefined.
Proof. unfold entry. destruct (row !! c) as [[| |x]|]; simpl; discriminate. Qed.

(** The in-bounds write leaves the new value in the cell. *)
Lemma cells_write_cell r c v ws k :
  v ≠ VUndefined →
  cells (write_cell r c v ws) !! k
  = if decide (k = (r, c)) then to_cell v else cells ws !! k.
Proof.
  intros Hv. unfold write_cell. case_bool_decide as Hold.
  - now rewrite cells_set_value.
  - case_decide as Hk; [| reflexivity]. subst k.
    rewrite <- Hold. now rewrite cell_value_to_cell.
Qed.

Lemma cells_clear_cell r c ws k :
  cells (clear_cell r c ws) !! k
  = if decide (k = (r, c)) then None else cells ws !! k.
Proof.
  unfold clear_cell. destruct (nullish (cell_value (getCell r c ws) r c)) eqn:Hn;
    cbn [negb].
  - case_decide as Hk; [| reflexivity]. subst k.
    unfold cell_value in Hn. rewrite cells_getCell in Hn. rewrite cells_getCell.
    now destruct (cells ws !! (r, c)).
  - now rewrite cells_set_value.
Qed.

(** A loop whose body [f i] rewrites the cells of a region [P i] to
    values that depend on the cell only. *)
Lemma cells_foldl (f : nat → worksheet → worksheet) (P : nat → nat * nat → bool)
    (val : nat * nat → option scalar) (l : list nat) :
  (∀ i w k, cells (f i w) !! k = if P i k then val k else cells w !! k) →
  ∀ w k, cells (foldl (λ w i, f i w) w l) !! k
         = if existsb (λ i, P i k) l then val k else cells w !! k.
Proof.
  intros Hf. induction l as [|i l IH]; intros w k; simpl; [reflexivity |].
  rewrite IH, Hf. now destruct (P i k), (existsb (λ i0, P i0 k) l).
Qed.

Lemma existsb_seq (P : nat → bool) (lo n : nat) :
  existsb P (seq lo n) = true ↔ ∃ i, lo ≤ i < lo + n ∧ P i = true.
Proof.
  rewrite existsb_exists. split.
  - intros (i & Hi & HP). apply in_seq in Hi. eauto.
  - intros (i & Hi & HP). exists i. split; [now apply in_seq | assumption].
Qed.

Lemma bool_decide_of_iff (b : bool) (Q : Prop) `{Decision Q} :
  (b = true ↔ Q) → b = bool_decide Q.
Proof.
  intros Hb. destruct b; symmetry.
  - apply bool_decide_eq_true_2, Hb. reflexivity.
  - apply bool_decide_eq_false_2. intros HQ. apply Hb in HQ. discriminate.
Qed.

Ltac existsb_to Q :=
  match goal with
  | |- context [existsb ?P ?l] =>
      rewrite (bool_decide_of_iff (existsb P l) Q); [| rewrite existsb_seq]
  end.

(** One row of the in-bounds pass. *)
Lemma cells_apply_row (r C : nat) (row : list jsval) (w : worksheet) (k : nat * nat) :
  cells (foldl (λ w c, write_cell (r + 1) (c + 1) (entry row c) w)
           (getRow (r + 1) w) (seq 0 C)) !! k
  = if bool_decide (fst k = r + 1 ∧ 1 ≤ snd k ≤ C)
    then to_cell (entry row (snd k - 1)) else cells w !! k.
Proof.
  rewrite (cells_foldl (λ c w, write_cell (r + 1) (c + 1) (entry row c) w)
             (λ c k, bool_decide (k = (r + 1, c + 1)))
             (λ k, to_cell (entry row (snd k - 1)))).
  - rewrite cells_getRow.
    existsb_to (fst k = r + 1 ∧ 1 ≤ snd k ≤ C); [reflexivity |].
    destruct k as [kr kc]. simpl. split.
    + intros (c & Hc & Hk). apply bool_decide_eq_true in Hk. injection Hk as -> ->. lia.
    + intros (-> & Hc). exists (kc - 1). split; [lia |].
      apply bool_decide_eq_true_2. f_equal. lia.
  - intros c w' k'. rewrite cells_write_cell by apply entry_not_undefined.
    case_decide as Hk; case_bool_decide as Hk'; try congruence.
    subst k'. simpl. now rewrite Nat.add_sub.
Qed.

(** The in-bounds pass writes the grid into its rectangle and touches no
    other cell. *)
Lemma cells_apply_edits (grid : list (list jsval)) (ws : worksheet) (r c : nat) :
  cells (apply_edits grid ws) !! (r, c)
  = if decide (in_bounds (length grid) (maxColIn grid) r c)
    then to_cell (grid_at grid r c) else cells ws !! (r, c).
Proof.
  unfold apply_edits.
  rewrite (cells_foldl
             (λ r w, foldl (λ w c, write_cell (r + 1) (c + 1)
                                     (entry (default [] (grid !! r)) c) w)
                       (getRow (r + 1) w) (seq 0 (maxColIn grid)))
             (λ i k, bool_decide (fst k = i + 1 ∧ 1 ≤ snd k ≤ maxColIn grid))
             (λ k, to_cell (grid_at grid (fst k) (snd k)))).
  - simpl.
    existsb_to (in_bounds (length grid) (maxColIn grid) r c).
    + now rewrite <- decide_bool_decide.
    + unfold in_bounds. split.
      * intros (i & Hi & Hk). apply bool_decide_eq_true in Hk. lia.
      * intros (Hr & Hc). exists (r - 1). split; [lia |].
        apply bool_decide_eq_true_2. lia.
  - intros i w k. rewrite cells_apply_row.
    case_bool_decide as Hk; [| reflexivity].
    unfold grid_at. destruct Hk as [-> _]. now rewrite Nat.add_sub.
Qed.

(** The two clearing loops empty their two regions and touch no other
    cell. *)
Lemma cells_for_range_clear (lo hi r : nat) (w : worksheet) (k : nat * nat) :
  cells (for_range lo hi (clear_cell r) (getRow r w)) !! k
  = if bool_decide (fst k = r ∧ lo ≤ snd k ≤ hi) then None else cells w !! k.
Proof.
  unfold for_range.
  rewrite (cells_foldl (clear_cell r) (λ c k, bool_decide (k = (r, c))) (λ _, None)).
  - rewrite cells_getRow.
    existsb_to (fst k = r ∧ lo ≤ snd k ≤ hi); [reflexivity |].
    destruct k as [kr kc]. simpl. split.
    + intros (c & Hc & Hk). apply bool_decide_eq_true in Hk. injection Hk as -> ->. lia.
    + intros (-> & Hc). exists kc. split; [lia |]. now apply bool_decide_eq_true_2.
  - intros c w' k'. rewrite cells_clear_cell.
    now rewrite decide_bool_decide.
Qed.

Lemma cells_clear_region (rlo rhi clo chi : nat) (w : worksheet) (k : nat * nat) :
  cells (for_range rlo rhi
           (λ r w, for_range clo chi (clear_cell r) (getRow r w)) w) !! k
  = if bool_decide (rlo ≤ fst k ≤ rhi ∧ clo ≤ snd k ≤ chi) then None else cells w !! k.
Proof.
  unfold for_range at 1.
  rewrite (cells_foldl (λ r w, for_range clo chi (clear_cell r) (getRow r w))
             (λ r k, bool_decide (fst k = r ∧ clo ≤ snd k ≤ chi)) (λ _, None)).
  - existsb_to (rlo ≤ fst k ≤ rhi ∧ clo ≤ snd k ≤ chi); [reflexivity |]. split.
    + intros (i & Hi & Hk). apply bool_decide_eq_true in Hk. lia.
    + intros (Hr & Hc). exists (fst k). split; [lia |].
      apply bool_decide_eq_true_2. lia.
  - intros r w' k'. apply cells_for_range_clear.
Qed.

Lemma cells_clear_trailing (R C : nat) (ws : worksheet) (r c : nat) :
  let eR := or_nat (actualRowCount ws) (rowCount ws) in
  let eC := or_nat (actualColumnCount ws) (columnsLen ws) in
  cells (clear_trailing R C ws) !! (r, c)
  = if bool_decide ((R + 1 ≤ r ≤ eR ∧ 1 ≤ c ≤ eC)
                    ∨ (1 ≤ r ≤ Nat.max eR R ∧ C + 1 ≤ c ≤ eC))
    then None else cells ws !! (r, c).
Proof.
  intros eR eC. unfold clear_trailing. fold eR eC.
  rewrite !cells_clear_region. simpl.
  repeat case_bool_decide; try reflexivity; tauto.
Qed.

Lemma elem_of_rows_used (ws : worksheet) (r : nat) :
  r ∈ rows_used ws ↔ ∃ c, is_Some (cells ws !! (r, c)).
Proof.
  unfold rows_used. rewrite elem_of_map. split.
  - intros ([r' c] & -> & Hk). apply elem_of_dom in Hk. eauto.
  - intros (c & Hk). exists (r, c). split; [reflexivity | now apply elem_of_dom].
Qed.

Lemma elem_of_cols_used (ws : worksheet) (c : nat) :
  c ∈ cols_used ws ↔ ∃ r, is_Some (cells ws !! (r, c)).
Proof.
  unfold cols_used. rewrite elem_of_map. split.
  - intros ([r c'] & -> & Hk). apply elem_of_dom in Hk. eauto.
  - intros (r & Hk). exists (r, c). split; [reflexivity | now apply elem_of_dom].
Qed.

(** With no empty row or column between used ones, the counts the
    clearing loops run to are the extent of the sheet. *)
Lemma used_extent_bounds (ws : worksheet) (kr kc r c : nat) :
  used_extent ws kr kc → is_Some (cells ws !! (r, c)) →
  1 ≤ r ≤ or_nat (actualRowCount ws) (rowCount ws)
  ∧ 1 ≤ c ≤ or_nat (actualColumnCount ws) (columnsLen ws).
Proof.
  intros [Hr Hc] Hk.
  assert (Hrin : r ∈ rows_used ws) by (apply elem_of_rows_used; eauto).
  assert (Hcin : c ∈ cols_used ws) by (apply elem_of_cols_used; eauto).
  unfold actualRowCount, actualColumnCount. rewrite Hr, Hc in *.
  rewrite !size_set_seq. apply elem_of_set_seq in Hrin, Hcin.
  unfold or_nat.
  destruct (Nat.eqb_spec kr 0), (Nat.eqb_spec kc 0); lia.
Qed.

(** The sheet after a save, when the in-bounds pass leaves no empty row or
    column between used ones: the grid inside the new bounds, nothing
    outside. *)
Lemma cells_save_grid (grid : list (list jsval)) (ws : worksheet) (kr kc r c : nat) :
  used_extent (apply_edits grid ws) kr kc →
  cells (save_grid grid ws) !! (r, c)
  = if decide (in_bounds (length grid) (maxColIn grid) r c)
    then to_cell (grid_at grid r c) else None.
Proof.
  intros Hext. unfold save_grid. rewrite cells_clear_trailing.
  case_decide as Hin.
  - rewrite bool_decide_eq_false_2 by (unfold in_bounds in Hin; lia).
    rewrite cells_apply_edits. now rewrite decide_True.
  - case_bool_decide as Hreg; [reflexivity |].
    destruct (cells (apply_edits grid ws) !! (r, c)) as [x|] eqn:Hk; [| reflexivity].
    exfalso. apply Hreg.
    destruct (used_extent_bounds _ kr kc r c Hext) as [Hr Hc]; [rewrite Hk; eauto |].
    unfold in_bounds in Hin. lia.
Qed.

Lemma maxColIn_ge (grid : list (list jsval)) (row : list jsval) :
  row ∈ grid → length row ≤ maxColIn grid.
Proof.
  unfold maxColIn. generalize 0 as m. induction grid as [|x g IH]; intros m Hin.
  - now apply elem_of_nil in Hin.
  - simpl. apply elem_of_cons in Hin as [-> | Hin].
    + clear IH. generalize (Nat.max m (length x)) (Nat.le_max_r m (length x)).
      induction g as [|y g IH]; intros n Hn; simpl; [assumption |].
      apply IH. lia.
    + now apply IH.
Qed.

Lemma entry_value_lt (row : list jsval) (j : nat) :
  nullish (entry row j) = false → j < length row.
Proof.
  unfold entry. destruct (row !! j) eqn:Hj; [| discriminate].
  intros _. now apply lookup_lt_Some in Hj.
Qed.

Lemma to_cell_is_Some (v : jsval) : is_Some (to_cell v) ↔ nullish v = false.
Proof.
  destruct v as [| |x]; simpl; (split; [intros [y Hy] | intros H]);
    try discriminate; try reflexivity; eauto.
Qed.

(** The in-bounds pass on a sheet without gaps, with a grid whose rows and
    columns all hold a value, leaves a sheet without gaps. *)
Lemma used_extent_apply_edits (grid : list (list jsval)) (ws : worksheet) (R' C' : nat) :
  used_extent ws R' C' → full_rows grid → full_cols grid →
  used_extent (apply_edits grid ws)
    (Nat.max (length grid) R') (Nat.max (maxColIn grid) C').
Proof.
  intros [Hr Hc] Hfr Hfc. split; apply set_eq; intros x; rewrite elem_of_set_seq.
  - rewrite elem_of_rows_used. split.
    + intros (c & Hk). rewrite cells_apply_edits in Hk. case_decide as Hin.
      * unfold in_bounds in Hin. lia.
      * assert (Hx : x ∈ rows_used ws) by (apply elem_of_rows_used; eauto).
        rewrite Hr in Hx. apply elem_of_set_seq in Hx. lia.
    + intros Hx. destruct (decide (x ≤ length grid)) as [Hle | Hgt].
      * destruct (lookup_lt_is_Some_2 grid (x - 1)) as [row Hrow]; [lia |].
        destruct (Hfr _ _ Hrow) as [j Hj].
        exists (j + 1). rewrite cells_apply_edits.
        assert (Hjl : j < maxColIn grid).
        { apply entry_value_lt in Hj as Hlt.
          pose proof (maxColIn_ge grid row (list_elem_of_lookup_2 _ _ _ Hrow)). lia. }
        rewrite decide_True by (unfold in_bounds; lia).
        apply to_cell_is_Some. unfold grid_at. now rewrite Hrow, Nat.add_sub.
      * assert (Hxin : x ∈ rows_used ws) by (rewrite Hr; apply elem_of_set_seq; lia).
        apply elem_of_rows_used in Hxin as (c & Hk). exists c.
        rewrite cells_apply_edits.
        now rewrite decide_False by (unfold in_bounds; lia).
  - rewrite elem_of_cols_used. split.
    + intros (r & Hk). rewrite cells_apply_edits in Hk. case_decide as Hin.
      * unfold in_bounds in Hin. lia.
      * assert (Hx : x ∈ cols_used ws) by (apply elem_of_cols_used; eauto).
        rewrite Hc in Hx. apply elem_of_set_seq in Hx. lia.
    + intros Hx. destruct (decide (x ≤ maxColIn grid)) as [Hle | Hgt].
      * destruct (Hfc (x - 1)) as (i & row & Hrow & Hj); [lia |].
        exists (i + 1). rewrite cells_apply_edits.
        apply lookup_lt_Some in Hrow as Hi.
        rewrite decide_True by (unfold in_bounds; lia).
        apply to_cell_is_Some. unfold grid_at. now rewrite Nat.add_sub, Hrow.
      * assert (Hxin : x ∈ cols_used ws) by (rewrite Hc; apply elem_of_set_seq; lia).
        apply elem_of_cols_used in Hxin as (r & Hk). exists r.
        rewrite cells_apply_edits.
        now rewrite decide_False by (unfold in_bounds; lia).
Qed.

(** After the save the used rows and columns are those of the grid. *)
Lemma used_extent_save_grid (grid : list (list jsval)) (ws : worksheet) (kr kc : nat) :
  used_extent (apply_edits grid ws) kr kc → full_rows grid → full_cols grid →
  used_extent (save_grid grid ws) (length grid) (maxColIn grid).
Proof.
  intros Hext Hfr Hfc. split; apply set_eq; intros x; rewrite elem_of_set_seq.
  - rewrite elem_of_rows_used. split.
    + intros (c & Hk). rewrite (cells_save_grid _ _ kr kc) in Hk by assumption.
      case_decide as Hin; [unfold in_bounds in Hin; lia |].
      destruct Hk as [? Hk]. discriminate Hk.
    + intros Hx.
      destruct (lookup_lt_is_Some_2 grid (x - 1)) as [row Hrow]; [lia |].
      destruct (Hfr _ _ Hrow) as [j Hj].
      exists (j + 1). rewrite (cells_save_grid _ _ kr kc) by assumption.
      assert (Hjl : j < maxColIn grid).
      { apply entry_value_lt in Hj as Hlt.
        pose proof (maxColIn_ge grid row (list_elem_of_lookup_2 _ _ _ Hrow)). lia. }
      rewrite decide_True by (unfold in_bounds; lia).
      apply to_cell_is_Some. unfold grid_at. now rewrite Hrow, Nat.add_sub.
  - rewrite elem_of_cols_used. split.
    + intros (r & Hk). rewrite (cells_save_grid _ _ kr kc) in Hk by assumption.
      case_decide as Hin; [unfold in_bounds in Hin; lia |].
      destruct Hk as [? Hk]. discriminate Hk.
    + intros Hx. destruct (Hfc (x - 1)) as (i & row & Hrow & Hj); [lia |].
      exists (i + 1). rewrite (cells_save_grid _ _ kr kc) by assumption.
      apply lookup_lt_Some in Hrow as Hi.
      rewrite decide_True by (unfold in_bounds; lia).
      apply to_cell_is_Some. unfold grid_at. now rewrite Nat.add_sub, Hrow.
Qed.

Lemma cell_value_of_cells (ws : worksheet) (r c : nat) (v : jsval) :
  v ≠ VUndefined → cells ws !! (r, c) = to_cell v → cell_value ws r c = v.
Proof.
  unfold cell_value. intros Hv ->. destruct v; simpl; congruence.
Qed.

Lemma cell_value_reload (xlsx_name xlsx_text : string → string) (ws : worksheet)
    (r c : nat) :
  cell_value (reload_sheet xlsx_name xlsx_text ws) r c
  = xlsx_value xlsx_text (cell_value ws r c).
Proof.
  unfold cell_value, reload_sheet. simpl. rewrite lookup_fmap.
  now destruct (cells ws !! (r, c)).
Qed.

Lemma rows_used_reload (xlsx_name xlsx_text : string → string) (ws : worksheet) :
  rows_used (reload_sheet xlsx_name xlsx_text ws) = rows_used ws.
Proof. unfold rows_used, reload_sheet. simpl. now rewrite dom_fmap_L. Qed.

Lemma cols_used_reload (xlsx_name xlsx_text : string → string) (ws : worksheet) :
  cols_used (reload_sheet xlsx_name xlsx_text ws) = cols_used ws.
Proof. unfold cols_used, reload_sheet. simpl. now rewrite dom_fmap_L. Qed.

(** The preview of a sheet that holds exactly a grid whose rows and
    columns all hold a value is that grid, as it is read back. *)
Lemma preview_of_grid (xlsx_name xlsx_text : string → string)
    (grid : list (list jsval)) (ws : worksheet) :
  1 ≤ length grid → 1 ≤ maxColIn grid →
  used_extent ws (length grid) (maxColIn grid) →
  (∀ r c, in_bounds (length grid) (maxColIn grid) r c →
     cell_value ws r c = grid_at grid r c) →
  preview_sheet (reload_sheet xlsx_name xlsx_text ws)
  = PreviewResult (List.map (List.map (xlsx_value xlsx_text)) (padded grid))
      (length grid) (maxColIn grid).
Proof.
  intros HR HC [Hr Hc] Hcells. unfold preview_sheet.
  assert (Har : actualRowCount (reload_sheet xlsx_name xlsx_text ws) = length grid).
  { unfold actualRowCount. now rewrite rows_used_reload, Hr, size_set_seq. }
  assert (Hac : actualColumnCount (reload_sheet xlsx_name xlsx_text ws) = maxColIn grid).
  { unfold actualColumnCount. now rewrite cols_used_reload, Hc, size_set_seq. }
  assert (HR0 : (length grid =? 0) = false) by (apply Nat.eqb_neq; lia).
  assert (HC0 : (maxColIn grid =? 0) = false) by (apply Nat.eqb_neq; lia).
  rewrite Har, Hac. unfold or_nat. rewrite HR0, HC0, HR0.
  rewrite !Nat.max_l by lia. f_equal.
  unfold padded. apply list_eq. intros i.
  rewrite !list_lookup_fmap.
  destruct (decide (i < length grid)) as [Hi | Hi].
  - rewrite lookup_seq_lt by assumption.
    destruct (lookup_lt_is_Some_2 grid i Hi) as [row Hrow]. rewrite Hrow. simpl.
    f_equal. apply list_eq. intros j. rewrite !list_lookup_fmap.
    destruct (decide (j < maxColIn grid)) as [Hj | Hj].
    + rewrite !lookup_seq_lt by assumption. simpl. f_equal.
      rewrite cell_value_reload, Hcells by (unfold in_bounds; lia).
      unfold grid_at. replace (S i - 1) with i by lia.
      replace (S j - 1) with j by lia. now rewrite Hrow.
    + rewrite !lookup_seq_ge by lia. reflexivity.
  - rewrite lookup_seq_ge by lia. rewrite lookup_ge_None_2 by lia. reflexivity.
Qed.

Lemma full_rows_maxColIn (grid : list (list jsval)) :
  1 ≤ length grid → full_rows grid → 1 ≤ maxColIn grid.
Proof.
  intros HR Hfr.
  destruct (lookup_lt_is_Some_2 grid 0) as [row Hrow]; [lia |].
  destruct (Hfr _ _ Hrow) as [j Hj]. apply entry_value_lt in Hj.
  pose proof (maxColIn_ge grid row (list_elem_of_lookup_2 _ _ _ Hrow)). lia.
Qed.

(** The sheet after the save of a grid whose rows and columns all hold a
    value, on a sheet without gaps, and its preview. *)
Lemma save_grid_outcome (xlsx_name xlsx_text : string → string)
    (grid : list (list jsval)) (ws : worksheet) (R' C' : nat) :
  used_extent ws R' C' → full_rows grid → full_cols grid → 1 ≤ length grid →
  (∀ r c, ¬ in_bounds (length grid) (maxColIn grid) r c →
     cell_value (save_grid grid ws) r c = VNull)
  ∧ (∀ r c, in_bounds (length grid) (maxColIn grid) r c →
       cell_value (save_grid grid ws) r c = grid_at grid r c)
  ∧ preview_sheet (reload_sheet xlsx_name xlsx_text (save_grid grid ws))
    = PreviewResult (List.map (List.map (xlsx_value xlsx_text)) (padded grid))
        (length grid) (maxColIn grid).
Proof.
  intros Hext Hfr Hfc HR.
  pose proof (used_extent_apply_edits grid ws R' C' Hext Hfr Hfc) as Hext1.
  assert (Hin : ∀ r c, in_bounds (length grid) (maxColIn grid) r c →
                 cell_value (save_grid grid ws) r c = grid_at grid r c).
  { intros r c Hb. apply cell_value_of_cells; [apply entry_not_undefined |].
    rewrite (cells_save_grid _ _ _ _ r c Hext1). now rewrite decide_True. }
  split; [| split].
  - intros r c Hout. unfold cell_value.
    rewrite (cells_save_grid _ _ _ _ r c Hext1). now rewrite decide_False.
  - exact Hin.
  - apply preview_of_grid; try assumption.
    + now apply full_rows_maxColIn.
    + now apply (used_extent_save_grid grid ws _ _ Hext1).
Qed.

End ExcelFacts.

(** ** The workbook routes *)

Section ServerFacts.

Import Identity Gate Excel Server.

Lemma getWorksheet_removed (wb : workbook) (n : string) :
  getWorksheet (removeWorksheet wb n) n = None.
Proof.
  unfold getWorksheet, removeWorksheet.
  induction wb as [|x wb IH]; simpl; [reflexivity |].
  case_bool_decide as Hx; simpl; [assumption |].
  now rewrite bool_decide_eq_false_2 by exact Hx.
Qed.

Lemma getWorksheet_removed_other (wb : workbook) (n m : string) :
  m ≠ n → getWorksheet (removeWorksheet wb n) m = getWorksheet wb m.
Proof.
  intros Hne. unfold getWorksheet, removeWorksheet.
  induction wb as [|x wb IH]; simpl; [reflexivity |].
  destruct (decide (name x = n)) as [Hx | Hx].
  - rewrite (bool_decide_eq_true_2 _ Hx). simpl.
    rewrite bool_decide_eq_false_2 by congruence. exact IH.
  - rewrite (bool_decide_eq_false_2 _ Hx). simpl.
    case_bool_decide; [reflexivity | exact IH].
Qed.

(** The world after a handler has stored a workbook, inserted its audit
    row and broadcast: the three tables. *)
Lemma world_after_write (e : env) (u : user) (ctx : context)
    (action event n key : string) (buffer : blob) (w : world) :
  let w' := broadcastSSE event n
              (insert_audit e u ctx action n
                 (World (<[key := buffer]> (storage w)) (excel_audit w) (events w))) in
  storage w' = <[key := buffer]> (storage w)
  ∧ excel_audit w'
    = (if insert_ok e
       then excel_audit w ++ [AuditEntry (id u) (userEmail ctx) action (Some n) (now e)]
       else excel_audit w)
  ∧ events w' = events w ++ [(event, n)].
Proof. unfold broadcastSSE, insert_audit. destruct (insert_ok e); done. Qed.

(** C7, as the code has it.  When the download succeeds and the workbook
    it loads holds a sheet of the requested name: without overwrite,
    POST /excel/add-sheet leaves the bucket, the audit table and the event
    stream as they were, and a request that passes the checks before the
    download is answered with the error 400, Sheet already exists; with
    overwrite, for a request that passes those checks, a name the library
    accepts and an upload that succeeds, the sheet of that name is removed,
    the new, seeded sheet is appended under the name the library gives
    it, the other sheets stay as they are, that workbook is stored, the
    audit row is inserted and the event is broadcast. *)
Theorem add_sheet_existing_name
    (cfg : config) (e : env) (u : user) (ctx : context) (n : string)
    (w : world) (wb : workbook) :
  n ≠ EmptyString →
  getBufferFromStorage e w (target_key cfg ctx) = Some (Xlsx wb) →
  is_Some (getWorksheet wb n) →
  snd (add_sheet cfg e u ctx (Some n) false w) = w
  ∧ (passes_checks cfg e u ctx (OpAddSheet (Some n) false) w →
       fst (add_sheet cfg e u ctx (Some n) false w) = error 400 "Sheet already exists")
  ∧ (passes_checks cfg e u ctx (OpAddSheet (Some n) true) w →
       ∀ n', worksheet_name e (sheet_names (removeWorksheet wb n)) n = Some n' →
       upload_error e = None →
       let stored := writeBuffer e (removeWorksheet wb n ++ [seeded_sheet n']) in
       let w' := snd (add_sheet cfg e u ctx (Some n) true w) in
       status (fst (add_sheet cfg e u ctx (Some n) true w)) = 200
       ∧ storage w' = <[target_key cfg ctx := stored]> (storage w)
       ∧ excel_audit w'
         = (if insert_ok e
            then excel_audit w
                 ++ [AuditEntry (id u) (userEmail ctx) "add_sheet" (Some n) (now e)]
            else excel_audit w)
       ∧ events w' = events w ++ [("excel:add_sheet", n)]
       ∧ getWorksheet (removeWorksheet wb n) n = None
       ∧ ∀ m, m ≠ n → getWorksheet (removeWorksheet wb n) m = getWorksheet wb m).
Proof.
  intros Hn Hbuf Hex. destruct n as [|a0 r0]; [contradiction |].
  split; [| split].
  - unfold add_sheet.
    destruct (free_plan_gate AddSheet ctx (id u) (excel_audit w) (now e) (count_ok e))
      as [[st msg]|]; [reflexivity |].
    destruct (nonempty (target_key cfg ctx)); simpl; [| reflexivity].
    rewrite Hbuf. simpl.
    now rewrite bool_decide_eq_true_2 by exact Hex.
  - intros [Hkey Hgate]. simpl in Hkey, Hgate. unfold add_sheet.
    rewrite Hgate, Hkey. simpl. rewrite Hbuf. simpl.
    now rewrite bool_decide_eq_true_2 by exact Hex.
  - intros [Hkey Hgate] n' Hname Hup. simpl in Hkey, Hgate. unfold add_sheet.
    rewrite Hgate, Hkey. simpl. rewrite Hbuf. simpl.
    rewrite bool_decide_eq_true_2 by exact Hex. simpl.
    unfold try_addWorksheet. rewrite Hname. simpl.
    unfold updateBufferToStorage. rewrite Hup. simpl.
    split; [reflexivity |].
    destruct (world_after_write e u ctx "add_sheet" "excel:add_sheet" (String a0 r0)
                (target_key cfg ctx)
                (writeBuffer e (removeWorksheet wb (String a0 r0) ++ [seeded_sheet n'])) w)
      as (Hs & Ha & Hev).
    split; [exact Hs |]. split; [exact Ha |]. split; [exact Hev |].
    split; [apply getWorksheet_removed |].
    intros m Hm. now apply getWorksheet_removed_other.
Qed.

Lemma name_foldl (f : nat → worksheet → worksheet) (l : list nat) :
  (∀ i w, name (f i w) = name w) →
  ∀ w, name (foldl (λ w i, f i w) w l) = name w.
Proof.
  intros Hf. induction l as [|i l IH]; intros w; simpl; [reflexivity |].
  now rewrite IH, Hf.
Qed.

Lemma name_write_cell r c v w : name (write_cell r c v w) = name w.
Proof. unfold write_cell. now case_bool_decide. Qed.

Lemma name_clear_cell r c w : name (clear_cell r c w) = name w.
Proof. unfold clear_cell. now destruct (negb _). Qed.

(** The save works on the sheet it was given. *)
Lemma name_save_grid (grid : list (list jsval)) (ws : worksheet) :
  name (save_grid grid ws) = name ws.
Proof.
  unfold save_grid, clear_trailing, for_range, apply_edits.
  rewrite !(name_foldl (λ r w, foldl _ (getRow r w) _)).
  - rewrite (name_foldl (λ r w, foldl _ (getRow (r + 1) w) _)); [reflexivity |].
    intros i w. now rewrite (name_foldl (λ c w, write_cell _ _ _ w))
      by (intros; apply name_write_cell).
  - intros i w. now rewrite (name_foldl (clear_cell i))
      by (intros; apply name_clear_cell).
  - intros i w. now rewrite (name_foldl (clear_cell i))
      by (intros; apply name_clear_cell).
Qed.

(** The row cap of save-all does not fire on a request that passes the
    checks. *)
Lemma row_cap_passed (ctx : context) (d : grid_data) :
  ¬ (userPlan ctx = "free"
     ∧ maxRowsSaveAll < match d with DArray l => length l | DOther => 0 end) →
  bool_decide (userPlan ctx = "free")
  && bool_decide (maxRowsSaveAll < match d with DArray l => length l | DOther => 0 end)
  = false.
Proof.
  intros Hcap. apply andb_false_iff.
  destruct (decide (userPlan ctx = "free")) as [Hf | Hf].
  - right. apply bool_decide_eq_false_2. tauto.
  - left. now apply bool_decide_eq_false_2.
Qed.

(** C8, as the code has it.  When the download of the workbook fails or
    finds no object: delete_sheet, get_cell and preview leave the bucket,
    the audit table and the event stream as they were and answer a request
    that passes the checks before the download with 404, Workbook not
    found; add_sheet and save_all do not answer 404 but go on with a new
    workbook (add_sheet with a sheet Sheet1 and the new, seeded sheet,
    save_all with the named sheet holding the grid).  When the library
    accepts the names and the upload succeeds they answer 200, store that
    workbook in place of the missing one, insert the audit row and
    broadcast the event. *)
Theorem failed_download_outcome
    (cfg : config) (e : env) (u : user) (ctx : context) (op : operation)
    (w : world) :
  getBufferFromStorage e w (key_of cfg ctx op) = None →
  let w' := snd (run cfg e u ctx op w) in
  match op with
  | OpDeleteSheet _ | OpGetCell _ _ _ | OpPreview _ =>
      w' = w
      ∧ (passes_checks cfg e u ctx op w →
           fst (run cfg e u ctx op w) = error 404 "Workbook not found")
  | OpAddSheet sheet _ =>
      passes_checks cfg e u ctx op w →
      status (fst (run cfg e u ctx op w)) ≠ 404
      ∧ ∀ n n1 n', sheet = Some n →
          worksheet_name e [] "Sheet1" = Some n1 → n1 ≠ n →
          worksheet_name e [n1] n = Some n' →
          upload_error e = None →
          status (fst (run cfg e u ctx op w)) = 200
          ∧ storage w'
            = <[key_of cfg ctx op := writeBuffer e [new_sheet n1; seeded_sheet n']]>
                (storage w)
          ∧ excel_audit w'
            = (if insert_ok e
               then excel_audit w
                    ++ [AuditEntry (id u) (userEmail ctx) "add_sheet" (Some n) (now e)]
               else excel_audit w)
          ∧ events w' = events w ++ [("excel:add_sheet", n)]
  | OpSaveAll sheet data =>
      passes_checks cfg e u ctx op w →
      status (fst (run cfg e u ctx op w)) ≠ 404
      ∧ ∀ n d n', sheet = Some n → data = Some d →
          worksheet_name e [] n = Some n' → upload_error e = None →
          status (fst (run cfg e u ctx op w)) = 200
          ∧ storage w'
            = <[key_of cfg ctx op
                  := writeBuffer e [save_grid (normalize d) (new_sheet n')]]>
                (storage w)
          ∧ excel_audit w'
            = (if insert_ok e
               then excel_audit w
                    ++ [AuditEntry (id u) (userEmail ctx) "save_all" (Some n) (now e)]
               else excel_audit w)
          ∧ events w' = events w ++ [("excel:save_all", n)]
  end.
Proof.
  intros Hdl w'. subst w'.
  destruct op as [sheet ov | sheet | sheet data | sheet cell scope | sheet];
    simpl in Hdl |- *.
  - (* add_sheet *)
    intros [Hkey Hgate]. simpl in Hkey.
    destruct sheet as [[|a0 r0]|]; try contradiction.
    unfold add_sheet. rewrite Hgate, Hkey, Hdl. cbn [negb].
    unfold try_addWorksheet, updateBufferToStorage. cbn [sheet_names List.map].
    split.
    + destruct (worksheet_name e [] "Sheet1") as [n1|]; [| discriminate].
      cbn [mbind option_bind app].
      destruct (bool_decide (is_Some (getWorksheet [new_sheet n1] (String a0 r0)))
                && negb ov); [discriminate |].
      match goal with
      | |- context [worksheet_name e ?l (String a0 r0)] =>
          destruct (worksheet_name e l (String a0 r0)) as [n'|]
      end; [| discriminate].
      cbn [mbind option_bind].
      destruct (upload_error e); simpl; discriminate.
    + intros n n1 n' [= <-] H1 Hne Hn Hup. rewrite H1.
      cbn [mbind option_bind app].
      assert (Hex : getWorksheet [new_sheet n1] (String a0 r0) = None).
      { unfold getWorksheet. simpl.
        now rewrite bool_decide_eq_false_2 by exact Hne. }
      rewrite Hex.
      rewrite (bool_decide_eq_false_2 (is_Some None)) by (intros [? ?]; discriminate).
      cbn [andb sheet_names List.map name new_sheet]. rewrite Hn.
      cbn [mbind option_bind app]. rewrite Hup.
      cbn [loadWorkbook writeBuffer fst snd status].
      split; [reflexivity |].
      apply (world_after_write e u ctx "add_sheet" "excel:add_sheet" (String a0 r0)).
  - (* delete_sheet *)
    unfold delete_sheet. split.
    + destruct sheet as [[|a0 r0]|]; try reflexivity.
      destruct (free_plan_gate DeleteSheet ctx (id u) (excel_audit w) (now e) (count_ok e))
        as [[st msg]|]; [reflexivity |].
      destruct (nonempty (target_key cfg ctx)); simpl; [| reflexivity].
      now rewrite Hdl.
    + intros [Hkey Hgate]. simpl in Hkey.
      destruct sheet as [[|a0 r0]|]; try contradiction.
      now rewrite Hgate, Hkey, Hdl.
  - (* save_all *)
    intros [Hkey Hgate]. simpl in Hkey.
    destruct sheet as [[|a0 r0]|]; try contradiction.
    destruct data as [d|]; try contradiction.
    destruct Hgate as [Hgate Hcap].
    unfold save_all. rewrite Hgate, Hkey, Hdl. cbn [negb].
    rewrite (row_cap_passed ctx d Hcap).
    unfold try_addWorksheet, updateBufferToStorage. cbn [sheet_names List.map].
    split.
    + destruct (worksheet_name e [] (String a0 r0)) as [n'|]; [| discriminate].
      cbn [mbind option_bind].
      destruct (upload_error e); discriminate.
    + intros n d' n' [= <-] [= <-] Hn Hup. rewrite Hn.
      cbn [mbind option_bind app]. rewrite Hup. cbn [fst snd status].
      split; [reflexivity |].
      apply (world_after_write e u ctx "save_all" "excel:save_all" (String a0 r0)).
  - (* get_cell *)
    unfold get_cell. split.
    + destruct sheet as [[|a0 r0]|]; try reflexivity.
      destruct cell as [[|a1 r1]|]; try reflexivity.
      destruct (free_plan_gate GetCell ctx (id u) (excel_audit w) (now e) (count_ok e))
        as [[st msg]|]; [reflexivity |].
      match goal with |- context [nonempty ?k] => destruct (nonempty k) end;
        simpl; [| reflexivity].
      now rewrite Hdl.
    + intros [Hkey Hgate]. simpl in Hkey.
      destruct sheet as [[|a0 r0]|]; try contradiction.
      destruct cell as [[|a1 r1]|]; try contradiction.
      now rewrite Hgate, Hkey, Hdl.
  - (* preview *)
    unfold preview_route. split.
    + destruct sheet as [[|a0 r0]|]; try reflexivity.
      destruct (nonempty (fileKey ctx)); simpl; [| reflexivity].
      now rewrite Hdl.
    + intros [Hkey Hgate]. simpl in Hkey.
      destruct sheet as [[|a0 r0]|]; try contradiction.
      now rewrite Hkey, Hdl.
Qed.

(** With a download that fails, POST /excel/add-sheet answers 200 and
    stores a new workbook over the user's, whose sheet Data is lost, and
    writes an audit entry; POST /excel/save-all answers 200 as well. *)
Lemma add_sheet_replaces_workbook_on_failed_download :
  passes_checks sample_config failing_env sample_user paid_context
    (OpAddSheet (Some "New") false) sample_world
  ∧ getBufferFromStorage failing_env sample_world
      (key_of sample_config paid_context (OpAddSheet (Some "New") false)) = None
  ∧ fst (run sample_config failing_env sample_user paid_context
           (OpAddSheet (Some "New") false) sample_world)
    = Response 200 (BAddSheet "New" ["New"; "Sheet1"])
  ∧ storage (snd (run sample_config failing_env sample_user paid_context
                    (OpAddSheet (Some "New") false) sample_world))
      !! "users/u1/uploaded.xlsx"
    = Some (writeBuffer failing_env [new_sheet "Sheet1"; seeded_sheet "New"])
  ∧ length (excel_audit (snd (run sample_config failing_env sample_user paid_context
                                (OpAddSheet (Some "New") false) sample_world))) = 1
  ∧ status (fst (run sample_config failing_env sample_user paid_context
                   (OpSaveAll (Some "Data") (Some (DArray [RArray [VStr "x"]])))
                   sample_world)) = 200
  ∧ ¬ not_found_on_failed_download (OpAddSheet (Some "New") false)
  ∧ ¬ not_found_on_failed_download
        (OpSaveAll (Some "Data") (Some (DArray [RArray [VStr "x"]]))).
Proof.
  assert (Hp : passes_checks sample_config failing_env sample_user paid_context
                 (OpAddSheet (Some "New") false) sample_world)
    by (split; reflexivity).
  assert (Hp' : passes_checks sample_config failing_env sample_user paid_context
                  (OpSaveAll (Some "Data") (Some (DArray [RArray [VStr "x"]])))
                  sample_world).
  { split; [reflexivity |]. split; [reflexivity |]. intros [Hf _]. discriminate Hf. }
  split; [exact Hp |]. split; [reflexivity |]. split; [reflexivity |].
  split; [reflexivity |]. split; [reflexivity |]. split; [reflexivity |].
  split; intros H.
  - destruct (H sample_config failing_env sample_user paid_context sample_world Hp eq_refl)
      as [Hs _].
    vm_compute in Hs. discriminate Hs.
  - destruct (H sample_config failing_env sample_user paid_context sample_world Hp' eq_refl)
      as [Hs _].
    vm_compute in Hs. discriminate Hs.
Qed.

(** When the download fails, an add-sheet request without overwrite for a
    name the stored workbook holds is not answered with a conflict: it is
    answered 200, the stored workbook is replaced by a new one, in which
    the sheet holds the seed text only, and the audit row is written. *)
Lemma existing_sheet_replaced_on_failed_download :
  storage sample_world !! target_key sample_config paid_context
  = Some (Xlsx data_workbook)
  ∧ is_Some (getWorksheet data_workbook "Data")
  ∧ passes_checks sample_config failing_env sample_user paid_context
      (OpAddSheet (Some "Data") false) sample_world
  ∧ fst (add_sheet sample_config failing_env sample_user paid_context (Some "Data")
           false sample_world)
    = Response 200 (BAddSheet "Data" ["Data"; "Sheet1"])
  ∧ storage (snd (add_sheet sample_config failing_env sample_user paid_context
                    (Some "Data") false sample_world))
      !! target_key sample_config paid_context
    = Some (writeBuffer failing_env [new_sheet "Sheet1"; seeded_sheet "Data"])
  ∧ excel_audit (snd (add_sheet sample_config failing_env sample_user paid_context
                        (Some "Data") false sample_world))
    = [AuditEntry "u1" "u1@example.com" "add_sheet" (Some "Data") 1762045200]
  ∧ ¬ conflict_on_existing_name sample_config failing_env sample_user paid_context
        "Data" sample_world.
Proof.
  assert (Hex : is_Some (getWorksheet data_workbook "Data")) by (eexists; reflexivity).
  split; [reflexivity |]. split; [exact Hex |].
  split; [split; reflexivity |].
  split; [reflexivity |]. split; [reflexivity |]. split; [reflexivity |].
  intros H. destruct H as [Hst _].
  - exists data_workbook. split; [reflexivity | exact Hex].
  - vm_compute in Hst. lia.
Qed.

Lemma failed_download_outcome_witness :
  getBufferFromStorage failing_env sample_world
    (key_of sample_config paid_context (OpDeleteSheet (Some "Data"))) = None
  ∧ passes_checks sample_config failing_env sample_user paid_context
      (OpDeleteSheet (Some "Data")) sample_world
  ∧ snd (run sample_config failing_env sample_user paid_context
           (OpDeleteSheet (Some "Data")) sample_world) = sample_world
  ∧ fst (run sample_config failing_env sample_user paid_context
           (OpDeleteSheet (Some "Data")) sample_world)
    = error 404 "Workbook not found"
  ∧ excel_audit (snd (run sample_config failing_env sample_user paid_context
                        (OpAddSheet (Some "New") false) sample_world))
    = [AuditEntry "u1" "u1@example.com" "add_sheet" (Some "New") 1762045200].
Proof.
  assert (Hdl : getBufferFromStorage failing_env sample_world
                  (key_of sample_config paid_context (OpDeleteSheet (Some "Data"))) = None)
    by reflexivity.
  assert (Hp : passes_checks sample_config failing_env sample_user paid_context
                 (OpDeleteSheet (Some "Data")) sample_world)
    by (split; reflexivity).
  assert (Hp' : passes_checks sample_config failing_env sample_user paid_context
                  (OpAddSheet (Some "New") false) sample_world)
    by (split; reflexivity).
  destruct (failed_download_outcome sample_config failing_env sample_user paid_context
              (OpDeleteSheet (Some "Data")) sample_world Hdl) as [Hw H404].
  assert (Hne : "Sheet1" ≠ "New") by discriminate.
  destruct (failed_download_outcome sample_config failing_env sample_user paid_context
              (OpAddSheet (Some "New") false) sample_world eq_refl Hp') as [_ Hadd].
  destruct (Hadd "New" "Sheet1" "New" eq_refl eq_refl Hne eq_refl eq_refl)
    as (_ & _ & Haudit & _).
  exact (conj Hdl (conj Hp (conj Hw (conj (H404 Hp) Haudit)))).
Defined.

Lemma add_sheet_existing_name_witness :
  "Data" ≠ EmptyString
  ∧ getBufferFromStorage working_env sample_world (target_key sample_config paid_context)
    = Some (Xlsx data_workbook)
  ∧ is_Some (getWorksheet data_workbook "Data")
  ∧ passes_checks sample_config working_env sample_user paid_context
      (OpAddSheet (Some "Data") false) sample_world
  ∧ snd (add_sheet sample_config working_env sample_user paid_context (Some "Data")
           false sample_world) = sample_world
  ∧ fst (add_sheet sample_config working_env sample_user paid_context (Some "Data")
           false sample_world) = error 400 "Sheet already exists"
  ∧ passes_checks sample_config working_env sample_user paid_context
      (OpAddSheet (Some "Data") true) sample_world
  ∧ status (fst (add_sheet sample_config working_env sample_user paid_context
                   (Some "Data") true sample_world)) = 200
  ∧ storage (snd (add_sheet sample_config working_env sample_user paid_context
                    (Some "Data") true sample_world))
    = <[target_key sample_config paid_context
          := writeBuffer working_env [seeded_sheet "Data"]]> (storage sample_world).
Proof.
  assert (Hn : "Data" ≠ EmptyString) by discriminate.
  assert (Hbuf : getBufferFromStorage working_env sample_world
                   (target_key sample_config paid_context) = Some (Xlsx data_workbook))
    by reflexivity.
  assert (Hex : is_Some (getWorksheet data_workbook "Data")) by (eexists; reflexivity).
  assert (Hp : passes_checks sample_config working_env sample_user paid_context
                 (OpAddSheet (Some "Data") false) sample_world)
    by (split; reflexivity).
  assert (Hp' : passes_checks sample_config working_env sample_user paid_context
                  (OpAddSheet (Some "Data") true) sample_world)
    by (split; reflexivity).
  destruct (add_sheet_existing_name sample_config working_env sample_user paid_context
              "Data" sample_world data_workbook Hn Hbuf Hex) as (Hw & Hc & Ho).
  destruct (Ho Hp' "Data" eq_refl eq_refl) as (Hst & Hsto & _).
  exact (conj Hn (conj Hbuf (conj Hex (conj Hp (conj Hw (conj (Hc Hp)
           (conj Hp' (conj Hst Hsto)))))))).
Defined.

End ServerFacts.

(** ** From the gate to the response, and from a save to the preview *)

Section PipelineFacts.

Import Identity Gate Excel Server.

(** A request the free-plan gate denies is answered with the gate's
    denial, and nothing is written. *)
Lemma gate_denial_is_the_response
    (cfg : config) (e : env) (u : user) (ctx : context) (w : world)
    (n addr : string) (st : nat) (msg : string) :
  n ≠ EmptyString → addr ≠ EmptyString →
  (∀ ov, free_plan_gate AddSheet ctx (id u) (excel_audit w) (now e) (count_ok e)
         = Some (st, msg) →
         add_sheet cfg e u ctx (Some n) ov w = (error st msg, w))
  ∧ (free_plan_gate DeleteSheet ctx (id u) (excel_audit w) (now e) (count_ok e)
       = Some (st, msg) →
     delete_sheet cfg e u ctx (Some n) w = (error st msg, w))
  ∧ (∀ scope, free_plan_gate GetCell ctx (id u) (excel_audit w) (now e) (count_ok e)
              = Some (st, msg) →
              get_cell cfg e u ctx (Some n) (Some addr) scope w = (error st msg, w))
  ∧ (∀ data, free_plan_gate SaveAll ctx (id u) (excel_audit w) (now e) (count_ok e)
             = Some (st, msg) →
             save_all cfg e u ctx (Some n) (Some data) w = (error st msg, w)).
Proof.
  intros Hn Ha. destruct n as [|a0 r0]; [contradiction |].
  destruct addr as [|a1 r1]; [contradiction |].
  repeat split; intros; unfold add_sheet, delete_sheet, get_cell, save_all;
    match goal with H : free_plan_gate _ _ _ _ _ _ = _ |- _ => now rewrite H end.
Qed.

Lemma getWorksheet_putWorksheet (wb : workbook) (ws : worksheet) :
  is_Some (getWorksheet wb (name ws)) →
  getWorksheet (putWorksheet wb ws) (name ws) = Some ws.
Proof.
  unfold getWorksheet, putWorksheet.
  induction wb as [|x wb IH]; simpl; [intros [y Hy]; discriminate |].
  case_bool_decide as Hx; simpl.
  - intros _. now rewrite bool_decide_eq_true_2 by reflexivity.
  - rewrite bool_decide_eq_false_2 by exact Hx. exact IH.
Qed.

Lemma getWorksheet_reload (xlsx_name xlsx_text : string → string)
    (wb : workbook) (n : string) :
  (∀ x, x ∈ wb → xlsx_name (name x) = name x) →
  getWorksheet (reload xlsx_name xlsx_text wb) n
  = reload_sheet xlsx_name xlsx_text <$> getWorksheet wb n.
Proof.
  unfold getWorksheet, reload.
  induction wb as [|x wb IH]; intros Hk; simpl; [reflexivity |].
  rewrite (Hk x) by left.
  case_bool_decide; [reflexivity |].
  apply IH. intros y Hy. apply Hk. now right.
Qed.

Lemma putWorksheet_names (wb : workbook) (ws : worksheet) (x : worksheet) :
  x ∈ putWorksheet wb ws → ∃ y, y ∈ wb ∧ name x = name y.
Proof.
  unfold putWorksheet. intros Hx.
  apply list_elem_of_fmap in Hx as (y & -> & Hy). exists y. split; [done |].
  now case_bool_decide.
Qed.

(** A save that succeeds on a sheet of the stored workbook, then the
    preview of that sheet: the preview route returns the preview of the
    saved sheet as it is read back from the bucket. *)
Lemma save_all_then_preview
    (cfg : config) (e : env) (u : user) (ctx : context) (n : string)
    (data : grid_data) (w : world) (wb : workbook) (ws : worksheet) :
  n ≠ EmptyString →
  passes_checks cfg e u ctx (OpSaveAll (Some n) (Some data)) w →
  download_fails e (fileKey ctx) = false →
  storage w !! fileKey ctx = Some (Xlsx wb) →
  (∀ x, x ∈ wb → xlsx_name e (name x) = name x) →
  getWorksheet wb n = Some ws →
  upload_error e = None →
  let w' := snd (save_all cfg e u ctx (Some n) (Some data) w) in
  fst (save_all cfg e u ctx (Some n) (Some data) w) = Response 200 BSuccess
  ∧ preview_route cfg e u ctx (Some n) w'
    = (Response 200
         (BPreview n (preview_sheet (reload_sheet (xlsx_name e) (xlsx_text e)
                                       (save_grid (normalize data) ws)))),
       w').
Proof.
  intros Hn Hp Hdl Hst Hkept Hws Hup.
  destruct n as [|a0 r0]; [contradiction |].
  destruct Hp as [Hkey [Hgate Hcap]]. simpl in Hkey.
  assert (Hname : name ws = String a0 r0).
  { unfold getWorksheet in Hws. apply find_some in Hws as [_ Hb].
    now apply bool_decide_eq_true in Hb. }
  assert (Hsave : save_all cfg e u ctx (Some (String a0 r0)) (Some data) w
            = (Response 200 BSuccess,
               broadcastSSE "excel:save_all" (String a0 r0)
                 (insert_audit e u ctx "save_all" (String a0 r0)
                    (World (<[fileKey ctx :=
                               writeBuffer e (putWorksheet wb
                                                (save_grid (normalize data) ws))]>
                              (storage w))
                           (excel_audit w) (events w))))).
  { unfold save_all. rewrite Hgate, Hkey, (row_cap_passed ctx data Hcap). cbn [negb].
    unfold getBufferFromStorage. rewrite Hdl, Hst. cbn [loadWorkbook mbind option_bind].
    rewrite Hws.
    unfold updateBufferToStorage. now rewrite Hup. }
  rewrite Hsave. cbn [fst snd]. split; [reflexivity |].
  unfold preview_route. rewrite Hkey. cbn [negb].
  unfold getBufferFromStorage. rewrite Hdl.
  destruct (world_after_write e u ctx "save_all" "excel:save_all" (String a0 r0)
              (fileKey ctx)
              (writeBuffer e (putWorksheet wb (save_grid (normalize data) ws))) w)
    as (Hs & _ & _).
  cbv zeta in Hs. rewrite Hs, lookup_insert_eq. cbn [loadWorkbook writeBuffer].
  rewrite getWorksheet_reload.
  - assert (Hget : getWorksheet (putWorksheet wb (save_grid (normalize data) ws))
                     (String a0 r0)
                   = Some (save_grid (normalize data) ws)).
    { rewrite <- Hname, <- (name_save_grid (normalize data) ws).
      apply getWorksheet_putWorksheet. rewrite name_save_grid, Hname, Hws. eauto. }
    now rewrite Hget.
  - intros x Hx. apply putWorksheet_names in Hx as (y & Hy & ->). now apply Hkept.
Qed.

(** Three cell queries today do not close the add-sheet gate, nor the
    save-all gate, though the four-action count of the claim is 3: the
    user's next add-sheet request is served. *)
Lemma cell_queries_leave_add_sheet_open :
  userPlan free_context = "free"
  ∧ count_today three_queries "u1" shared_actions sample_now = 3
  ∧ claimed_gate AddSheet free_context "u1" three_queries sample_now
    = Some (403, quota_message AddSheet)
  ∧ free_plan_gate AddSheet free_context "u1" three_queries sample_now true = None
  ∧ free_plan_gate SaveAll free_context "u1" three_queries sample_now true = None
  ∧ free_plan_gate GetCell free_context "u1" three_queries sample_now true
    = Some (403, quota_message GetCell)
  ∧ fst (add_sheet sample_config working_env sample_user free_context (Some "New")
           false free_world)
    = Response 200 (BAddSheet "New" ["New"; "Data"]).
Proof. repeat split; vm_compute; reflexivity. Qed.

(** C5, as the code has it.  For a free-plan user each gate counts the
    user's audit entries created since the start of the current UTC day
    whose action is in the gate's own list: add_sheet counts add_sheet;
    save_all counts save_all; delete_sheet counts save_all, delete_sheet,
    edit_sheet and add_sheet; get_cell counts get_cell, save_all,
    delete_sheet and add_sheet.  The gate denies with 403 exactly when the
    plan is free and that count has reached 3, and the handler answers a
    request its gate denies with that denial and writes nothing. *)
Theorem free_plan_gate_denies_at_three
    (r : route) (ctx : context) (uid : string) (table : list audit_entry)
    (now : Z) :
  quota_actions AddSheet = ["add_sheet"]
  ∧ quota_actions SaveAll = ["save_all"]
  ∧ quota_actions DeleteSheet = ["save_all"; "delete_sheet"; "edit_sheet"; "add_sheet"]
  ∧ quota_actions GetCell = ["get_cell"; "save_all"; "delete_sheet"; "add_sheet"]
  ∧ (free_plan_gate r ctx uid table now true = Some (403, quota_message r)
     ↔ userPlan ctx = "free" ∧ 3 ≤ count_today table uid (quota_actions r) now)
  ∧ (free_plan_gate r ctx uid table now true = None
     ↔ userPlan ctx ≠ "free" ∨ count_today table uid (quota_actions r) now < 3)
  ∧ count_today table uid (quota_actions r) now
    = length (filter (λ e, a_user_id e = uid ∧ a_action e ∈ quota_actions r
                           ∧ (now / 86400 * 86400 ≤ a_created_at e)%Z) table)
  ∧ ∀ cfg e u w n addr ov scope data,
      n ≠ EmptyString → addr ≠ EmptyString →
      count_ok e = true → userPlan ctx = "free" →
      (3 ≤ count_today (excel_audit w) (id u) (quota_actions AddSheet) (Server.now e) →
         add_sheet cfg e u ctx (Some n) ov w
         = (error 403 (quota_message AddSheet), w))
      ∧ (3 ≤ count_today (excel_audit w) (id u) (quota_actions DeleteSheet) (Server.now e) →
           delete_sheet cfg e u ctx (Some n) w
           = (error 403 (quota_message DeleteSheet), w))
      ∧ (3 ≤ count_today (excel_audit w) (id u) (quota_actions GetCell) (Server.now e) →
           get_cell cfg e u ctx (Some n) (Some addr) scope w
           = (error 403 (quota_message GetCell), w))
      ∧ (3 ≤ count_today (excel_audit w) (id u) (quota_actions SaveAll) (Server.now e) →
           save_all cfg e u ctx (Some n) (Some data) w
           = (error 403 (quota_message SaveAll), w)).
Proof.
  do 4 (split; [reflexivity |]).
  destruct (free_plan_gate_iff r ctx uid table now) as [Hdeny Hopen].
  split; [exact Hdeny |]. split; [exact Hopen |].
  split; [apply count_today_filter |].
  intros cfg e u w n addr ov scope data Hn Ha Hok Hfree.
  destruct (gate_denial_is_the_response cfg e u ctx w n addr 403
              (quota_message AddSheet) Hn Ha) as (H1 & _ & _ & _).
  destruct (gate_denial_is_the_response cfg e u ctx w n addr 403
              (quota_message DeleteSheet) Hn Ha) as (_ & H2 & _ & _).
  destruct (gate_denial_is_the_response cfg e u ctx w n addr 403
              (quota_message GetCell) Hn Ha) as (_ & _ & H3 & _).
  destruct (gate_denial_is_the_response cfg e u ctx w n addr 403
              (quota_message SaveAll) Hn Ha) as (_ & _ & _ & H4).
  repeat split; intros Hc.
  - apply H1. rewrite Hok. apply free_plan_gate_iff. split; assumption.
  - apply H2. rewrite Hok. apply free_plan_gate_iff. split; assumption.
  - apply H3. rewrite Hok. apply free_plan_gate_iff. split; assumption.
  - apply H4. rewrite Hok. apply free_plan_gate_iff. split; assumption.
Qed.

Lemma free_plan_gate_denies_at_three_witness :
  "New" ≠ EmptyString ∧ "A1" ≠ EmptyString
  ∧ count_ok working_env = true ∧ userPlan free_context = "free"
  ∧ 3 ≤ count_today (excel_audit free_world) (id sample_user) (quota_actions GetCell)
          (Server.now working_env)
  ∧ get_cell sample_config working_env sample_user free_context (Some "New")
      (Some "A1") None free_world
    = (error 403 (quota_message GetCell), free_world).
Proof.
  assert (Hn : "New" ≠ EmptyString) by discriminate.
  assert (Ha : "A1" ≠ EmptyString) by discriminate.
  assert (Hc : 3 ≤ count_today (excel_audit free_world) (id sample_user)
                     (quota_actions GetCell) (Server.now working_env))
    by (vm_compute; lia).
  destruct (free_plan_gate_denies_at_three GetCell free_context "u1" three_queries
              sample_now) as (_ & _ & _ & _ & _ & _ & _ & H).
  destruct (H sample_config working_env sample_user free_world "New" "A1" false None
              (DArray []) Hn Ha eq_refl eq_refl) as (_ & _ & Hg & _).
  exact (conj Hn (conj Ha (conj eq_refl (conj eq_refl (conj Hc (Hg Hc)))))).
Defined.

(** C2, as the code has it.  A save of a grid of R >= 1 rows and C
    columns in which every row and every column holds a value, on a sheet
    whose used rows are the rows 1..R' and whose used columns are the
    columns 1..C', leaves every cell outside the new bounds null and the
    grid inside them.  The preview of the saved sheet, read back from the
    file it was written to, has R rows and C columns and holds the grid
    as the file gives it back: null for null, a boolean or a number as it
    was sent, a text as the file format reads it back.  So
    POST /excel/save-all with that grid, when it succeeds on a sheet of
    the stored workbook, is followed by a GET /excel/preview that answers
    with that grid, R rows and C columns. *)
Theorem save_all_shrink_clears_trailing
    (grid : list (list jsval)) (ws : worksheet) (R' C' : nat) :
  used_extent ws R' C' → full_rows grid → full_cols grid → 1 ≤ length grid →
  (∀ r c, ¬ in_bounds (length grid) (maxColIn grid) r c →
     cell_value (save_grid grid ws) r c = VNull)
  ∧ (∀ r c, in_bounds (length grid) (maxColIn grid) r c →
       cell_value (save_grid grid ws) r c = grid_at grid r c)
  ∧ (∀ xlsx_name xlsx_text,
       preview_sheet (reload_sheet xlsx_name xlsx_text (save_grid grid ws))
       = PreviewResult (List.map (List.map (xlsx_value xlsx_text)) (padded grid))
           (length grid) (maxColIn grid))
  ∧ ∀ cfg e u ctx n data w wb,
      normalize data = grid →
      n ≠ EmptyString →
      passes_checks cfg e u ctx (OpSaveAll (Some n) (Some data)) w →
      download_fails e (fileKey ctx) = false →
      storage w !! fileKey ctx = Some (Xlsx wb) →
      (∀ x, x ∈ wb → xlsx_name e (name x) = name x) →
      getWorksheet wb n = Some ws →
      upload_error e = None →
      fst (save_all cfg e u ctx (Some n) (Some data) w) = Response 200 BSuccess
      ∧ fst (preview_route cfg e u ctx (Some n)
               (snd (save_all cfg e u ctx (Some n) (Some data) w)))
        = Response 200
            (BPreview n
               (PreviewResult
                  (List.map (List.map (xlsx_value (xlsx_text e))) (padded grid))
                  (length grid) (maxColIn grid))).
Proof.
  intros Hext Hfr Hfc HR.
  destruct (save_grid_outcome kept kept grid ws R' C' Hext Hfr Hfc HR)
    as (Hout & Hin & _).
  split; [exact Hout |]. split; [exact Hin |]. split.
  - intros xlsx_name xlsx_text.
    apply (save_grid_outcome xlsx_name xlsx_text grid ws R' C' Hext Hfr Hfc HR).
  - intros cfg e u ctx n data w wb Hg Hn Hpass Hdl Hst Hkept Hws Hup.
    destruct (save_all_then_preview cfg e u ctx n data w wb ws Hn Hpass Hdl Hst Hkept
                Hws Hup) as [Hsave Hprev].
    split; [exact Hsave |]. rewrite Hprev. cbn [fst]. rewrite Hg.
    now rewrite (proj2 (proj2 (save_grid_outcome (xlsx_name e) (xlsx_text e) grid ws
                                 R' C' Hext Hfr Hfc HR))).
Qed.

(** The preview of an empty grid saved over a sheet of two rows has two
    rows of one column, for the rows of the cleared cells stay in the
    file, and reports no column; a grid with an empty last column is
    previewed narrower than it was sent; a sheet with an empty row
    between used ones keeps a value outside the new bounds. *)
Lemma preview_dimensions_differ_from_grid :
  preview_sheet (reload_sheet kept kept (save_grid [] square_sheet))
  = PreviewResult [[VNull]; [VNull]] 2 0
  ∧ maxColIn [[VStr "x"; VNull]] = 2
  ∧ preview_sheet (reload_sheet kept kept (save_grid [[VStr "x"; VNull]] square_sheet))
    = PreviewResult [[VStr "x"]] 1 1
  ∧ cells sparse_sheet !! (3, 1) = Some (SStr "c")
  ∧ ¬ in_bounds 1 1 3 1
  ∧ cell_value (save_grid [[VStr "x"]] sparse_sheet) 3 1 = VStr "c"
  ∧ preview_sheet (reload_sheet kept kept (save_grid [[VStr "x"]] sparse_sheet))
    = PreviewResult [[VStr "x"]; [VNull]] 2 1
  ∧ ¬ shrink_clears kept kept [] square_sheet
  ∧ ¬ shrink_clears kept kept [[VStr "x"]] sparse_sheet
  ∧ ¬ shrink_clears kept kept [[VStr "x"; VNull]] square_sheet.
Proof.
  split; [reflexivity |]. split; [reflexivity |]. split; [reflexivity |].
  split; [reflexivity |]. split; [unfold in_bounds; lia |].
  split; [reflexivity |]. split; [reflexivity |]. split; [| split].
  - intros (_ & Hl & _). vm_compute in Hl. discriminate Hl.
  - intros [H _]. specialize (H 3 1).
    assert (Hc : cell_value (save_grid [[VStr "x"]] sparse_sheet) 3 1 = VNull).
    { apply H; [eexists; reflexivity | unfold in_bounds; simpl; lia]. }
    vm_compute in Hc. discriminate Hc.
  - intros (_ & _ & H).
    specialize (H [VStr "x"]).
    assert (Hl : length [VStr "x"] = maxColIn [[VStr "x"; VNull]]).
    { apply H. vm_compute. apply list_elem_of_here. }
    vm_compute in Hl. discriminate Hl.
Qed.

Lemma save_all_shrink_clears_trailing_witness :
  used_extent square_sheet 2 2
  ∧ full_rows [[VStr "x"]] ∧ full_cols [[VStr "x"]] ∧ 1 ≤ length [[VStr "x"]]
  ∧ passes_checks sample_config working_env sample_user paid_context
      (OpSaveAll (Some "S") (Some (DArray [RArray [VStr "x"]]))) square_world
  ∧ (∀ r c, ¬ in_bounds 1 1 r c →
       cell_value (save_grid [[VStr "x"]] square_sheet) r c = VNull)
  ∧ preview_sheet (reload_sheet kept kept (save_grid [[VStr "x"]] square_sheet))
    = PreviewResult [[VStr "x"]] 1 1
  ∧ fst (preview_route sample_config working_env sample_user paid_context (Some "S")
           (snd (save_all sample_config working_env sample_user paid_context (Some "S")
                   (Some (DArray [RArray [VStr "x"]])) square_world)))
    = Response 200 (BPreview "S" (PreviewResult [[VStr "x"]] 1 1)).
Proof.
  assert (He : used_extent square_sheet 2 2) by (split; vm_compute; reflexivity).
  assert (Hfr : full_rows [[VStr "x"]]).
  { intros [|i] row Hrow; [| discriminate Hrow].
    injection Hrow as <-. exists 0. reflexivity. }
  assert (Hfc : full_cols [[VStr "x"]]).
  { intros j Hj. exists 0, [VStr "x"]. split; [reflexivity |].
    destruct j as [|j]; [reflexivity |]. vm_compute in Hj. lia. }
  assert (HR : 1 ≤ length [[VStr "x"]]) by (simpl; lia).
  assert (Hpass : passes_checks sample_config working_env sample_user paid_context
                    (OpSaveAll (Some "S") (Some (DArray [RArray [VStr "x"]]))) square_world).
  { split; [reflexivity |]. split; [reflexivity |]. intros [Hf _]. discriminate Hf. }
  assert (Hn : "S" ≠ EmptyString) by discriminate.
  assert (Hkept : ∀ x, x ∈ [square_sheet] → xlsx_name working_env (name x) = name x)
    by reflexivity.
  destruct (save_all_shrink_clears_trailing [[VStr "x"]] square_sheet 2 2 He Hfr Hfc HR)
    as (Hout & _ & Hp & Hroute).
  destruct (Hroute sample_config working_env sample_user paid_context "S"
              (DArray [RArray [VStr "x"]]) square_world [square_sheet]
              eq_refl Hn Hpass eq_refl eq_refl Hkept eq_refl eq_refl) as [_ Hprev].
  exact (conj He (conj Hfr (conj Hfc (conj HR (conj Hpass (conj Hout
           (conj (Hp kept kept) Hprev))))))).
Defined.

End PipelineFacts.

(** ** The lists the handlers serve *)

Section ServedFacts.

Import Identity Gate Excel Server.





(** A name of 32 characters: the library cuts it down, so the list that
    POST /excel/add-sheet returns starts with a name that no sheet of the
    stored workbook bears, followed by all the names of that workbook. *)
Lemma long_name_heads_list_of_other_names :
  String.length long_name = 32
  ∧ fst (add_sheet sample_config cutting_env sample_user paid_context (Some long_name)
           false sample_world)
    = Response 200
        (BAddSheet long_name [long_name; "Quarterly-report-2025-2026-draf"; "Data"])
  ∧ storage (snd (add_sheet sample_config cutting_env sample_user paid_context
                    (Some long_name) false sample_world))
      !! "users/u1/uploaded.xlsx"
    = Some (writeBuffer cutting_env
              (data_workbook ++ [seeded_sheet "Quarterly-report-2025-2026-draf"]))
  ∧ fst (delete_sheet sample_config cutting_env sample_user paid_context (Some long_name)
           (snd (add_sheet sample_config cutting_env sample_user paid_context
                   (Some long_name) false sample_world)))
    = error 400 "Sheet not found".
Proof. repeat split; vm_compute; reflexivity. Qed.



End ServedFacts.

(** ** The CSV document *)

Ltac norm_append := rewrite ?append_cons, ?append_nil; simpl.

Section CsvExportFacts.

Import Csv Excel CsvExport.

Lemma rfc4180_field_text (v : jsval) (rest : string) :
  at_field_end rest = true → rest ≠ EmptyString →
  rfc4180_field (escapeCSV v +:+ rest) = Some (field_text v, rest).
Proof.
  intros Hend Hne. unfold field_text.
  destruct (nullish v) eqn:Hv.
  - unfold escapeCSV. rewrite Hv. rewrite append_nil.
    destruct rest as [|c r]; [contradiction |]. simpl in Hend.
    unfold rfc4180_field. rewrite (is_delim_not_dquote c Hend).
    simpl. now rewrite Hend.
  - now apply rfc4180_field_escapeCSV.
Qed.

Lemma append_nonempty (s : string) (c : ascii) (t : string) :
  ∃ a r, s +:+ String c t = String a r.
Proof. destruct s as [|a r]; [rewrite append_nil | rewrite append_cons]; eauto. Qed.

(** One record: its fields are read back and the reader goes on after
    the line feed. *)
Lemma rfc4180_records_line (v : jsval) (vs : list jsval) (fuel : nat)
    (tail : string) (rows : list (list string)) :
  rfc4180_records fuel tail = Some rows →
  rfc4180_records (fuel + length (v :: vs)) (csv_line (v :: vs) +:+ String LF tail)
  = Some (List.map field_text (v :: vs) :: rows).
Proof.
  intros Htail. revert v. induction vs as [|v' vs IH]; intros v.
  - unfold csv_line. simpl. rewrite Nat.add_1_r. simpl.
    destruct (append_nonempty (escapeCSV v) LF tail) as (a & r & Heq).
    rewrite Heq, <- Heq.
    rewrite rfc4180_field_text by (reflexivity || discriminate). simpl.
    now rewrite Htail.
  - replace (fuel + length (v :: v' :: vs)) with (S (fuel + length (v' :: vs)))
      by (simpl; lia).
    change (csv_line (v :: v' :: vs))
      with (escapeCSV v +:+ String comma EmptyString +:+ csv_line (v' :: vs)).
    rewrite !append_String_assoc. rewrite append_cons, append_nil.
    cbn [rfc4180_records].
    destruct (append_nonempty (escapeCSV v) comma
                (csv_line (v' :: vs) +:+ String LF tail)) as (a & r & Heq).
    rewrite Heq, <- Heq.
    rewrite rfc4180_field_text by (reflexivity || discriminate).
    cbn [mbind option_bind]. rewrite Ascii.eqb_refl, IH. reflexivity.
Qed.

Lemma csv_text_fold (rows : list (list jsval)) (acc : string) :
  foldl (λ csv vals, csv +:+ csv_line vals +:+ String LF EmptyString) acc rows
  = acc +:+ csv_text rows.
Proof.
  unfold csv_text. revert acc. induction rows as [|vals rows IH]; intros acc; simpl.
  - induction acc as [|a r IHa]; [reflexivity |].
    rewrite append_cons. now rewrite <- IHa.
  - rewrite IH. rewrite (IH (EmptyString +:+ _)). rewrite append_nil.
    now rewrite !append_String_assoc.
Qed.

(** The CSV text of rows that all have at least one cell, read by the
    record reader with one unit of fuel per cell and one more, is the
    rows of cell texts. *)
Lemma csv_text_read_back (rows : list (list jsval)) :
  (∀ vals, vals ∈ rows → vals ≠ []) →
  rfc4180_records (S (length (concat rows))) (csv_text rows)
  = Some (List.map (List.map field_text) rows).
Proof.
  induction rows as [|vals rows IH]; intros Hne; [reflexivity |].
  destruct vals as [|v vs]; [exfalso; apply (Hne []); [left | reflexivity] |].
  assert (Htext : csv_text ((v :: vs) :: rows)
                  = csv_line (v :: vs) +:+ String LF (csv_text rows)).
  { unfold csv_text at 1. cbn [foldl]. rewrite csv_text_fold, append_nil.
    now rewrite append_String_assoc, append_cons, append_nil. }
  rewrite Htext.
  replace (S (length (concat ((v :: vs) :: rows))))
    with (S (length (concat rows)) + length (v :: vs))
    by (cbn [concat]; rewrite length_app; lia).
  apply rfc4180_records_line. apply IH.
  intros vals Hin. apply Hne. now right.
Qed.

Lemma sheet_rows_nonempty (ws : worksheet) :
  or_nat (actualColumnCount ws) (columnsLen ws) ≠ 0 →
  ∀ vals, vals ∈ sheet_rows ws → vals ≠ [].
Proof.
  intros Hcol vals Hin. unfold sheet_rows in Hin.
  apply list_elem_of_In, in_map_iff in Hin as (r & <- & _).
  destruct (or_nat (actualColumnCount ws) (columnsLen ws)); [done | discriminate].
Qed.

(** X1.  The CSV document of a sheet that has a column, read by an
    RFC 4180 reader with enough fuel, is the sheet's rectangle of cell
    texts: the empty string for a null cell, the string form for the
    others, whatever commas, quotes and line breaks the values hold. *)
Theorem export_csv_read_back (ws : worksheet) :
  or_nat (actualColumnCount ws) (columnsLen ws) ≠ 0 →
  rfc4180_records (S (length (concat (sheet_rows ws)))) (export_csv ws)
  = Some (List.map
            (λ r, List.map (λ c, field_text (cell_value ws r c))
                    (seq 1 (or_nat (actualColumnCount ws) (columnsLen ws))))
            (seq 1 (or_nat (actualRowCount ws) (rowCount ws)))).
Proof.
  intros Hcol. unfold export_csv.
  rewrite csv_text_read_back by now apply sheet_rows_nonempty.
  f_equal. unfold sheet_rows. rewrite List.map_map.
  apply List.map_ext. intros r. now rewrite List.map_map.
Qed.

Lemma export_csv_read_back_witness :
  or_nat (actualColumnCount square_sheet) (columnsLen square_sheet) ≠ 0
  ∧ rfc4180_records (S (length (concat (sheet_rows square_sheet))))
      (export_csv square_sheet)
    = Some (List.map
              (λ r, List.map (λ c, field_text (cell_value square_sheet r c))
                      (seq 1 (or_nat (actualColumnCount square_sheet)
                                (columnsLen square_sheet))))
              (seq 1 (or_nat (actualRowCount square_sheet) (rowCount square_sheet)))).
Proof.
  split; [vm_compute; discriminate |].
  apply (export_csv_read_back square_sheet). vm_compute. discriminate.
Defined.

(** X2.  A sheet that holds no value and has no column object exports as
    one line feed for each of its row objects: the rows are there, their
    cells are not. *)
Theorem export_csv_without_columns (ws : worksheet) :
  cells ws = ∅ → columnsLen ws = 0 →
  export_csv ws = string_of_list_ascii (repeat LF (rowCount ws)).
Proof.
  intros Hcells Hcols. unfold export_csv, sheet_rows.
  unfold actualRowCount, actualColumnCount, rows_used, cols_used.
  rewrite Hcells, Hcols, dom_empty_L, !set_map_empty, size_empty.
  cbn [or_nat Nat.eqb seq List.map].
  generalize 1 at 1. induction (rowCount ws) as [|n IH]; intros k; [reflexivity |].
  cbn [seq List.map repeat string_of_list_ascii].
  assert (Htext : ∀ rows, csv_text ([] :: rows) = String LF (csv_text rows)).
  { intros rows. unfold csv_text at 1. cbn [foldl].
    rewrite csv_text_fold. unfold csv_line. cbn [List.map join].
    now rewrite !append_nil, append_cons, append_nil. }
  rewrite Htext. f_equal. apply IH.
Qed.

Lemma export_csv_without_columns_witness :
  cells (Worksheet "S" ∅ 2 0 0) = ∅ ∧ columnsLen (Worksheet "S" ∅ 2 0 0) = 0
  ∧ export_csv (Worksheet "S" ∅ 2 0 0) = string_of_list_ascii (repeat LF 2).
Proof.
  split; [reflexivity |]. split; [reflexivity |].
  apply (export_csv_without_columns (Worksheet "S" ∅ 2 0 0)); reflexivity.
Defined.

End CsvExportFacts.

(** ** The storage key of an upload *)

Section UploadFacts.

Import Identity Upload.

Lemma append_inv_head (s a b : string) : s +:+ a = s +:+ b → a = b.
Proof.
  induction s as [|c r IH]; norm_append; [done |].
  intros Heq. injection Heq as Heq. auto.
Qed.

Lemma append_inv_tail (a b t : string) : a +:+ t = b +:+ t → a = b.
Proof.
  intros Heq.
  apply (f_equal list_ascii_of_string) in Heq.
  assert (Happ : ∀ x y, list_ascii_of_string (x +:+ y)
                        = list_ascii_of_string x ++ list_ascii_of_string y).
  { intros x y. induction x as [|c r IH]; norm_append; [done |].
    simpl. now rewrite IH. }
  rewrite !Happ in Heq. apply app_inv_tail in Heq.
  rewrite <- (string_of_list_ascii_of_string a), <- (string_of_list_ascii_of_string b).
  now rewrite Heq.
Qed.

Lemma decimal_inj (i j : nat) : decimal i = decimal j → i = j.
Proof.
  unfold decimal. intros Heq.
  assert (Hnil : ∀ n, Nat.to_uint n ≠ Decimal.Nil).
  { intros n Hn. pose proof (DecimalNat.Unsigned.of_to n) as Hof.
    rewrite Hn in Hof. simpl in Hof. subst n. discriminate Hn. }
  apply DecimalNat.Unsigned.to_uint_inj.
  pose proof (NilZero.usu _ (Hnil i)) as Hi.
  pose proof (NilZero.usu _ (Hnil j)) as Hj.
  rewrite Heq in Hi. congruence.
Qed.

Lemma candidate_inj (base extn : string) (i j : nat) :
  candidate base i extn = candidate base j extn → i = j.
Proof.
  unfold candidate. intros Heq.
  apply append_inv_head in Heq. rewrite !append_cons, !append_nil in Heq.
  injection Heq as Heq. apply append_inv_tail in Heq. now apply decimal_inj.
Qed.

(** A search that runs out of fuel has found every candidate it tested
    among the names. *)
Lemma first_free_None (names : gset string) (base extn : string) (fuel i : nat) :
  first_free names base extn fuel i = None →
  ∀ j, i ≤ j < i + fuel → candidate base j extn ∈ names.
Proof.
  revert i. induction fuel as [|fuel IH]; intros i Hnone j Hj; [lia |].
  simpl in Hnone. case_bool_decide as Hin; [| done].
  destruct (decide (j = i)) as [-> | Hne]; [done |].
  apply (IH (S i) Hnone). lia.
Qed.

Lemma first_free_Some (names : gset string) (base extn : string) (fuel i : nat)
    (c : string) :
  first_free names base extn fuel i = Some c →
  (c ∉ names)
  ∧ ∃ k, i ≤ k < i + fuel ∧ c = candidate base k extn
         ∧ ∀ j, i ≤ j < k → candidate base j extn ∈ names.
Proof.
  revert i. induction fuel as [|fuel IH]; intros i Hsome; [done |].
  simpl in Hsome. case_bool_decide as Hin.
  - destruct (IH (S i) Hsome) as (Hfresh & k & Hk & -> & Hbelow).
    split; [done |]. exists k. split; [lia |]. split; [done |].
    intros j Hj. destruct (decide (j = i)) as [-> | Hne]; [done |].
    apply Hbelow. lia.
  - injection Hsome as <-. split; [done |].
    exists i. split; [lia |]. split; [done |]. intros j Hj. lia.
Qed.

(** The names are fewer than the candidates the search may test. *)
Lemma first_free_total (names : gset string) (base extn : string) (i : nat) :
  is_Some (first_free names base extn (S (size names)) i).
Proof.
  destruct (first_free names base extn (S (size names)) i) as [c|] eqn:Hff; [eauto |].
  exfalso.
  pose proof (first_free_None _ _ _ _ _ Hff) as Hall.
  assert (Hnodup : NoDup ((λ j, candidate base j extn) <$> seq i (S (size names)))).
  { apply NoDup_fmap_2_strong; [| apply NoDup_seq].
    intros x y _ _. apply candidate_inj. }
  assert (Hsub : ∀ x, x ∈ (λ j, candidate base j extn) <$> seq i (S (size names))
                      → x ∈ elements names).
  { intros x Hx. apply list_elem_of_fmap in Hx as (j & -> & Hj).
    apply elem_of_elements, Hall. apply elem_of_seq in Hj. lia. }
  pose proof (submseteq_length _ _ (NoDup_submseteq _ _ Hnodup Hsub)) as Hlen.
  rewrite length_fmap, length_seq in Hlen.
  unfold size, set_size in Hlen. simpl in Hlen. lia.
Qed.

(** X3.  With a listing of the user's folder, the name chosen for the
    stored file is none of the listed names; the search ends within one
    test more than there are names.  The name is the file name itself
    when that is not listed, and otherwise the candidate with the least
    counter, from 1, that is not listed. *)
Theorem unique_name_is_fresh (names : gset string) (filename : string) :
  ∃ c, unique_name (Some names) filename (S (size names)) = Some c
       ∧ (c ∉ names)
       ∧ (filename ∉ names → c = filename)
       ∧ (filename ∈ names →
          ∃ k, 1 ≤ k ≤ S (size names)
               ∧ c = candidate (strip_extension filename) k (last_segment filename)
               ∧ ∀ j, 1 ≤ j < k →
                   candidate (strip_extension filename) j (last_segment filename)
                   ∈ names).
Proof.
  unfold unique_name. case_bool_decide as Hin.
  - destruct (first_free_total names (strip_extension filename)
                (last_segment filename) 1) as [c Hc].
    exists c. split; [done |].
    destruct (first_free_Some _ _ _ _ _ _ Hc) as (Hfresh & k & Hk & -> & Hbelow).
    split; [done |]. split; [done |].
    intros _. exists k. split; [lia |]. split; [done |]. exact Hbelow.
  - exists filename. split; [done |]. split; [done |]. split; [done |]. done.
Qed.

Lemma split_last_dot_no_dot (s : string) :
  Csv.includes s dot = false → split_last_dot s = None.
Proof.
  induction s as [|c r IH]; [done |]. simpl.
  intros Hno. apply orb_false_iff in Hno as [Hc Hr].
  now rewrite (IH Hr), Hc.
Qed.

Lemma split_last_dot_append (b e : string) :
  Csv.includes e dot = false →
  split_last_dot (b +:+ String dot e) = Some (b, e).
Proof.
  intros Hno. induction b as [|c r IH]; norm_append.
  - simpl. now rewrite (split_last_dot_no_dot e Hno).
  - simpl. now rewrite IH.
Qed.

Lemma split_last_dot_spec (s b e : string) :
  split_last_dot s = Some (b, e) →
  s = b +:+ String dot e ∧ Csv.includes e dot = false.
Proof.
  revert b e. induction s as [|c r IH]; intros b e; [done |]. simpl.
  destruct (split_last_dot r) as [[b' e']|] eqn:Hr.
  - intros [= <- <-]. destruct (IH _ _ eq_refl) as [-> Hno].
    now rewrite append_cons.
  - destruct (Ascii.eqb_spec c dot) as [-> | Hne]; [| done].
    intros [= <- <-]. rewrite append_nil. split; [done |].
    clear IH. induction r as [|a r IHr]; [done |]. simpl in *.
    destruct (split_last_dot r) as [[? ?]|]; [done |].
    destruct (Ascii.eqb a dot); [done |]. now rewrite IHr.
Qed.

Lemma last_segment_no_dot (s : string) : Csv.includes (last_segment s) dot = false.
Proof.
  unfold last_segment. destruct (split_last_dot s) as [[b e]|] eqn:Hs.
  - now destruct (split_last_dot_spec _ _ _ Hs).
  - clear -Hs. induction s as [|c r IH]; [done |]. simpl in *.
    destruct (split_last_dot r) as [[? ?]|]; [done |].
    destruct (Ascii.eqb c dot); [done |]. now rewrite IH.
Qed.

(** X4.  The chosen name ends in the segment after the last dot of the
    file name, the text by which the handler tells the file types apart:
    a renamed file keeps its type.  A file name without a dot is its own
    last segment, and is renamed to itself, a counter, a dot and itself
    again. *)
Theorem unique_name_keeps_last_segment (listing : option (gset string))
    (filename : string) (fuel : nat) (c : string) :
  unique_name listing filename fuel = Some c →
  last_segment c = last_segment filename
  ∧ (Csv.includes filename dot = false → c ≠ filename →
     ∃ k, c = filename +:+ " " +:+ decimal k +:+ String dot filename).
Proof.
  intros Hc. unfold unique_name in Hc.
  assert (Hcand : ∀ base k, last_segment (candidate base k (last_segment filename))
                            = last_segment filename).
  { intros base k. unfold candidate. rewrite <- !append_String_assoc.
    unfold last_segment at 1.
    now rewrite (split_last_dot_append _ _ (last_segment_no_dot filename)). }
  destruct listing as [names|]; [| injection Hc as <-; split; [done | tauto]].
  case_bool_decide as Hin; [| injection Hc as <-; split; [done | tauto]].
  apply first_free_Some in Hc as (_ & k & _ & -> & _).
  split; [apply Hcand |].
  intros Hno _. exists k.
  unfold candidate, strip_extension, last_segment.
  now rewrite (split_last_dot_no_dot _ Hno).
Qed.

Lemma unique_name_keeps_last_segment_witness :
  unique_name (Some {["report"; "report 1.report"]}) "report" 3
  = Some "report 2.report"
  ∧ last_segment "report 2.report" = last_segment "report"
  ∧ (Csv.includes "report" dot = false → "report 2.report" ≠ "report" →
     ∃ k, "report 2.report" = "report" +:+ " " +:+ decimal k +:+ String dot "report").
Proof.
  assert (Hrun : unique_name (Some {["report"; "report 1.report"]}) "report" 3
                 = Some "report 2.report") by (vm_compute; reflexivity).
  split; [exact Hrun |].
  exact (unique_name_keeps_last_segment _ _ _ _ Hrun).
Defined.

(** X5.  POST /excel/upload never answers 403: behind its middleware
    chain no field of the plan is assigned, so neither plan check of the
    handler fires, for no user, file name or profile.  The checks
    themselves deny a request whose plan field is free and whose file is
    a CSV or a PDF. *)
Theorem upload_never_forbidden (toLowerCase : string → string)
    (cfg : config) (authHeader : string)
    (getUser : string → option Identity.user) (ip ua : string)
    (file : option string) :
  upload_head toLowerCase cfg authHeader getUser ip ua file ≠ inl 403
  ∧ ∀ req uid filename,
      userPlan req = Some "free" →
      last_segment (toLowerCase filename) ∈ ["csv"; "pdf"] →
      fst <$> plan_enforcement toLowerCase cfg req uid filename = Some 403.
Proof.
  split.
  - unfold upload_head, requireAuth, Identity.requireAuth.
    destruct (bearer_token authHeader) as [[|a t]|]; [done | | done].
    destruct (getUser (String a t)) as [u|]; [| done].
    destruct file as [filename|]; [| done].
    unfold plan_enforcement, attachUserContext, incoming. simpl.
    now rewrite !andb_false_r.
  - intros req uid filename Hfree Hext. unfold plan_enforcement.
    rewrite Hfree. rewrite (bool_decide_eq_true_2 _ Hext). done.
Qed.

End UploadFacts.

(** ** The audit helper *)

Section AuditLogFacts.

Import AuditLog.

Lemma append_empty_r (s : string) : s +:+ EmptyString = s.
Proof. induction s as [|a s IH]; norm_append; [done | now rewrite IH]. Qed.

Lemma ndjson_lines_line (cur line rest : string) :
  Csv.includes line LF = false →
  ndjson_lines cur (line +:+ String LF rest)
  = (cur +:+ line) :: ndjson_lines EmptyString rest.
Proof.
  revert cur. induction line as [|c r IH]; intros cur Hno; norm_append.
  - now rewrite append_empty_r.
  - simpl in Hno. apply orb_false_iff in Hno as [Hc Hr].
    rewrite Ascii.eqb_sym in Hc.
    rewrite Ascii.eqb_sym, Hc, (IH _ Hr). now rewrite append_String_assoc.
Qed.

Lemma ndjson_lines_text (lines : list string) :
  (∀ l, l ∈ lines → Csv.includes l LF = false) →
  ndjson_lines EmptyString (ndjson_text lines) = lines.
Proof.
  induction lines as [|l ls IH]; intros Hno; [done |].
  cbn [ndjson_text foldr].
  rewrite ndjson_lines_line by (apply Hno; left).
  rewrite append_nil. f_equal. apply IH. intros x Hx. apply Hno. now right.
Qed.

Lemma ndjson_text_app (l1 l2 : list string) :
  ndjson_text (l1 ++ l2) = ndjson_text l1 +:+ ndjson_text l2.
Proof.
  induction l1 as [|l ls IH]; [now rewrite append_nil |].
  cbn [app ndjson_text foldr]. fold (ndjson_text (ls ++ l2)). fold (ndjson_text ls).
  now rewrite IH, append_String_assoc, append_cons.
Qed.

Lemma writeAuditLog_works (key line : string) (b : bucket) :
  writeAuditLog Works Works key line b
  = (true, <[key := default EmptyString (b !! key) +:+ line +:+ String LF EmptyString]> b).
Proof. reflexivity. Qed.

Lemma write_all_cons (key l : string) (ls : list string) (b : bucket) :
  write_all key (l :: ls) b
  = write_all key ls
      (<[key := default EmptyString (b !! key) +:+ l +:+ String LF EmptyString]> b).
Proof. reflexivity. Qed.

Lemma write_all_text (key : string) (lines prev : list string) (b : bucket) :
  default EmptyString (b !! key) = ndjson_text prev →
  default EmptyString (write_all key lines b !! key) = ndjson_text (prev ++ lines)
  ∧ ∀ k, k ≠ key → write_all key lines b !! k = b !! k.
Proof.
  revert prev b. induction lines as [|l ls IH]; intros prev b Hb.
  - rewrite app_nil_r. done.
  - rewrite write_all_cons.
    set (b' := <[key := default EmptyString (b !! key) +:+ l +:+ String LF EmptyString]> b).
    assert (Hb' : default EmptyString (b' !! key) = ndjson_text (prev ++ [l])).
    { unfold b'. rewrite Hb, lookup_insert_eq, ndjson_text_app.
      cbn [from_option ndjson_text foldr]. done. }
    destruct (IH (prev ++ [l]) b' Hb') as [Htext Hother].
    split; [now rewrite Htext, <- app_assoc |].
    intros k Hk. rewrite (Hother k Hk). unfold b'. now rewrite lookup_insert_ne.
Qed.

(** X6.  Calls of the audit helper made one after the other against a
    storage service that works append to the day's object: reading the
    object line by line gives the lines it held, then the new entries in
    the order of the calls, and no other object changes.  The entries'
    texts hold no line feed, as the output of JSON.stringify does not. *)
Theorem audit_log_appends (key : string) (prev lines : list string) (b : bucket) :
  default EmptyString (b !! key) = ndjson_text prev →
  (∀ l, l ∈ prev ++ lines → Csv.includes l LF = false) →
  ndjson_lines EmptyString (default EmptyString (write_all key lines b !! key))
  = prev ++ lines
  ∧ ∀ k, k ≠ key → write_all key lines b !! k = b !! k.
Proof.
  intros Hb Hno. destruct (write_all_text key lines prev b Hb) as [Htext Hother].
  split; [| exact Hother]. rewrite Htext. now apply ndjson_lines_text.
Qed.

Lemma audit_log_appends_witness :
  let b : bucket := {["excel_access/2026-01-01.ndjson" := ndjson_text ["a"]]} in
  ndjson_lines EmptyString
    (default EmptyString
       (write_all "excel_access/2026-01-01.ndjson" ["b"; "c"] b
        !! "excel_access/2026-01-01.ndjson"))
  = ["a"] ++ ["b"; "c"]
  ∧ ∀ k, k ≠ "excel_access/2026-01-01.ndjson" →
      write_all "excel_access/2026-01-01.ndjson" ["b"; "c"] b !! k = b !! k.
Proof.
  intros b.
  apply (audit_log_appends "excel_access/2026-01-01.ndjson" ["a"] ["b"; "c"] b).
  - vm_compute. reflexivity.
  - intros l Hl. apply list_elem_of_In in Hl. simpl in Hl.
    destruct Hl as [<- | [<- | [<- | []]]]; reflexivity.
Defined.

(** X7.  A download that resolves with an error is taken for a missing
    object: when the upload then works, the helper reports success and
    the day's object holds the new entry alone, whatever it held. *)
Theorem audit_log_reset_on_failed_download (key line : string) (b : bucket) :
  Csv.includes line LF = false →
  fst (writeAuditLog Errors Works key line b) = true
  ∧ ndjson_lines EmptyString
      (default EmptyString (snd (writeAuditLog Errors Works key line b) !! key))
    = [line].
Proof.
  intros Hno. unfold writeAuditLog, read_current, write_updated, updated.
  rewrite append_nil. split; [done |].
  cbn [snd]. rewrite lookup_insert_eq. cbn [from_option]. unfold Datatypes.id.
  rewrite ndjson_lines_line by done. now rewrite append_nil.
Qed.

Lemma audit_log_reset_on_failed_download_witness :
  let b : bucket := {["k" := ndjson_text ["a"; "b"]]} in
  Csv.includes "c" LF = false
  ∧ fst (writeAuditLog Errors Works "k" "c" b) = true
  ∧ ndjson_lines EmptyString
      (default EmptyString (snd (writeAuditLog Errors Works "k" "c" b) !! "k"))
    = ["c"].
Proof.
  intros b. split; [reflexivity |].
  apply (audit_log_reset_on_failed_download "k" "c" b). reflexivity.
Defined.

(** X8.  The helper reads, then writes, and awaits between the two.  Of
    two calls that both read before either writes, the object keeps the
    entry of the call that writes last and loses the other one, though
    both calls report success. *)
Theorem audit_log_lost_update (key line1 line2 : string) (b : bucket)
    (cur : string) :
  read_current Works key b = Some cur →
  let r1 := write_updated Works key (updated cur line1) b in
  let r2 := write_updated Works key (updated cur line2) (snd r1) in
  fst r1 = true ∧ fst r2 = true
  ∧ snd r2 = snd (writeAuditLog Works Works key line2 b).
Proof.
  intros Hcur. cbn [write_updated fst snd]. split; [done |]. split; [done |].
  unfold writeAuditLog. rewrite Hcur. cbn [write_updated snd].
  now rewrite insert_insert_eq.
Qed.

Lemma audit_log_lost_update_witness :
  let b : bucket := {["k" := ndjson_text ["a"]]} in
  read_current Works "k" b = Some (ndjson_text ["a"])
  ∧ let r1 := write_updated Works "k" (updated (ndjson_text ["a"]) "x") b in
    let r2 := write_updated Works "k" (updated (ndjson_text ["a"]) "y") (snd r1) in
    fst r1 = true ∧ fst r2 = true
    ∧ snd r2 = snd (writeAuditLog Works Works "k" "y" b).
Proof.
  intros b. split; [vm_compute; reflexivity |].
  apply (audit_log_lost_update "k" "x" "y" b (ndjson_text ["a"])).
  vm_compute. reflexivity.
Defined.

End AuditLogFacts.

(** ** The event stream *)

Section SseFacts.

Import Identity Sse.

Lemma connect_cases (cfg : config) (ctx : context) (uid : string) (now ts : Z)
    (clients : registry) :
  snd (connect cfg ctx uid now ts clients) = clients
  ∨ (size clients < MAX_SSE_CLIENTS
     ∧ snd (connect cfg ctx uid now ts clients)
       = <[clientId uid now := [Connected (clientId uid now) ts]]> clients).
Proof.
  unfold connect.
  destruct (bool_decide (userEmail ctx ≠ OWNER_EMAIL cfg)
            && bool_decide (userRole ctx ≠ "superadmin")); [now left |].
  destruct (decide (MAX_SSE_CLIENTS ≤ size clients)) as [Hfull | Hroom].
  - rewrite (bool_decide_eq_true_2 _ Hfull). now left.
  - rewrite (bool_decide_eq_false_2 _ Hroom). right. split; [lia | done].
Qed.

Lemma step_size (cfg : config) (o : op) (clients : registry) :
  size clients ≤ MAX_SSE_CLIENTS → size (step cfg clients o) ≤ MAX_SSE_CLIENTS.
Proof.
  intros Hsize. destruct o as [ctx uid now ts | id | event payload]; simpl.
  - destruct (connect_cases cfg ctx uid now ts clients) as [-> | [Hroom ->]]; [done |].
    rewrite map_size_insert. destruct (clients !! _); simpl; lia.
  - unfold close. rewrite map_size_delete.
    destruct (clients !! id); simpl; lia.
  - unfold broadcastSSE. now rewrite map_size_fmap.
Qed.

(** X9.  The registry never holds more than MAX_SSE_CLIENTS streams,
    whatever requests, disconnections and broadcasts arrive and in
    whatever order. *)
Theorem sse_capacity (cfg : config) (ops : list op) (clients : registry) :
  size clients ≤ MAX_SSE_CLIENTS → size (run cfg ops clients) ≤ MAX_SSE_CLIENTS.
Proof.
  revert clients. induction ops as [|o ops IH]; intros clients Hsize; [done |].
  apply IH. now apply step_size.
Qed.

Lemma sse_capacity_witness :
  size (∅ : registry) ≤ MAX_SSE_CLIENTS
  ∧ size (run sample_config
            [Connect Gate.free_owner "u3" 1762041600000 1762041600001; Broadcast "excel:save_all" "x"]
            ∅)
    ≤ MAX_SSE_CLIENTS.
Proof.
  split; [vm_compute; lia |].
  apply (sse_capacity sample_config). vm_compute. lia.
Defined.

(** X10.  A client that is registered and is neither closed nor replaced
    has each event that is broadcast written to its stream, once, in the
    order of the broadcasts, after what the stream already held. *)
Theorem sse_delivers_in_order (cfg : config) (ops : list op) (clients : registry)
    (id : string) (stream : list message) :
  clients !! id = Some stream →
  undisturbed id ops →
  run cfg ops clients !! id = Some (stream ++ broadcasts ops).
Proof.
  revert clients stream. induction ops as [|o ops IH]; intros clients stream Hid Hops.
  - simpl. now rewrite app_nil_r.
  - assert (Ho := Hops o (list_elem_of_here _ _)).
    assert (Hrest : undisturbed id ops).
    { intros o' Ho'. apply Hops. now right. }
    cbn [run foldl]. fold (run cfg ops (step cfg clients o)).
    destruct o as [ctx uid now ts | id' | event payload]; simpl in Ho |- *.
    + rewrite (IH _ stream); [done | | done].
      destruct (connect_cases cfg ctx uid now ts clients) as [-> | [_ ->]]; [done |].
      now rewrite lookup_insert_ne.
    + rewrite (IH _ stream); [done | | done].
      unfold close. now rewrite lookup_delete_ne.
    + rewrite (IH _ (stream ++ [Event event payload])); [| | done].
      * now rewrite <- app_assoc.
      * unfold broadcastSSE. now rewrite lookup_fmap, Hid.
Qed.

Lemma sse_delivers_in_order_witness :
  let clients : registry := {["u3:1" := [Connected "u3:1" 1]]} in
  let ops := [Broadcast "excel:add_sheet" "A"; Close "u9:2"; Broadcast "excel:save_all" "A"] in
  run sample_config ops clients !! "u3:1"
  = Some ([Connected "u3:1" 1] ++ broadcasts ops).
Proof.
  intros clients ops.
  apply (sse_delivers_in_order sample_config ops clients "u3:1" [Connected "u3:1" 1]).
  - vm_compute. reflexivity.
  - intros o Ho. apply list_elem_of_In in Ho. simpl in Ho.
    destruct Ho as [<- | [<- | [<- | []]]]; [done | discriminate | done].
Defined.

End SseFacts.

(** ** The admin routes *)

Section AdminFacts.

Import Identity Admin.

(** The workbook routes read the plan, the role, the email and the file
    key of the context, and nothing else. *)
Lemma run_reads_four_fields (cfg : config) (e : Server.env) (u : user)
    (ctx ctx' : context) (op : Server.operation) (w : Server.world) :
  userPlan ctx = userPlan ctx' → userRole ctx = userRole ctx' →
  userEmail ctx = userEmail ctx' → fileKey ctx = fileKey ctx' →
  Server.run cfg e u ctx op w = Server.run cfg e u ctx' op w.
Proof.
  destruct ctx as [p r m s k], ctx' as [p' r' m' s' k']. simpl.
  intros -> -> -> ->. destruct op; reflexivity.
Qed.

Lemma resolve_after_status (cfg : config) (u : user) (accounts : gmap string account)
    (target : string) (a : account) (st : string) (v : bool) (br : option string) :
  accounts !! target = Some a →
  let ctx := resolve cfg u accounts in
  let ctx' := resolve cfg u
                (<[target := Account (profile (with_status st a)) v br]> accounts) in
  userPlan ctx = userPlan ctx' ∧ userRole ctx = userRole ctx'
  ∧ userEmail ctx = userEmail ctx' ∧ fileKey ctx = fileKey ctx'.
Proof.
  intros Ha. unfold resolve, lookup_account. simpl.
  destruct (decide (target = id u)) as [-> | Hne].
  - rewrite lookup_insert_eq, Ha. done.
  - rewrite lookup_insert_ne by done. done.
Qed.

(** X11.  Banning or soft-deleting a user changes nothing of what the
    user may do on the workbook routes: the routes answer and act after
    the request as they did before it, for every user, operation and
    state of the storage.  The status column the two routes write is
    copied to the request and never read. *)
Theorem ban_keeps_access (cfg : config) (e : env) (ctx : context) (actor : user)
    (r : route) (user_id : option string) (w : world)
    (se : Server.env) (u : user) (op : Server.operation) (sw : Server.world) :
  (∃ reason, r = Ban reason) ∨ r = SoftDelete →
  let w' := snd (request cfg e ctx actor r user_id w) in
  Server.run cfg se u (resolve cfg u (accounts w')) op sw
  = Server.run cfg se u (resolve cfg u (accounts w)) op sw.
Proof.
  intros Hr w'. subst w'. unfold request.
  destruct (gate cfg ctx actor r); [done |].
  destruct user_id as [[|c s]|]; [done | | done].
  destruct (db_fails e); [done |].
  destruct (accounts w !! String c s) as [a|] eqn:Ha; [| done].
  destruct Hr as [[reason ->] | ->]; cbn [finish snd accounts change].
  - symmetry.
    destruct (resolve_after_status cfg u (accounts w) (String c s) a "banned"
                (verified a)
                (match reason with Some (String c s) => Some (String c s) | _ => None end)
                Ha) as (? & ? & ? & ?).
    now apply run_reads_four_fields.
  - symmetry.
    destruct (resolve_after_status cfg u (accounts w) (String c s) a "deleted"
                (verified a) (ban_reason a) Ha) as (? & ? & ? & ?).
    now apply run_reads_four_fields.
Qed.

Lemma roles_insert_same (accounts : gmap string account) (target : string)
    (a a' : account) :
  accounts !! target = Some a → role (profile a') = role (profile a) →
  (λ a, role (profile a)) <$> <[target := a']> accounts
  = (λ a, role (profile a)) <$> accounts.
Proof.
  intros Ha Hrole. rewrite fmap_insert. apply insert_id.
  now rewrite lookup_fmap, Ha, Hrole.
Qed.

Lemma request_keeps_roles (cfg : config) (e : env) (ctx : context) (u : user)
    (r : route) (user_id : option string) (w : world) :
  requireOwner cfg ctx u ≠ None →
  roles (snd (request cfg e ctx u r user_id w)) = roles w.
Proof.
  intros Hno. unfold request.
  destruct (gate cfg ctx u r) eqn:Hgate; [done |].
  destruct r; simpl in Hgate; try congruence;
    (destruct user_id as [[|c s]|]; [done | | done];
     destruct (db_fails e); [done |];
     destruct (accounts w !! String c s) as [a|] eqn:Ha; [| done];
     unfold roles; cbn [finish snd accounts];
     now apply (roles_insert_same _ _ a)).
Qed.

(** X12.  Whatever requests reach the admin routes, and in whatever
    order, as long as none of them comes from the owner the role of
    every user stays what it was and no user is removed: a superadmin
    can ban, verify and soft-delete, and can change no role. *)
Theorem roles_change_only_by_owner (cfg : config) (calls : list call) (w : world) :
  (∀ c, c ∈ calls → requireOwner cfg (call_ctx c) (call_user c) ≠ None) →
  roles (Admin.run cfg calls w) = roles w.
Proof.
  revert w. induction calls as [|c calls IH]; intros w Hcalls; [done |].
  change (Admin.run cfg (c :: calls) w)
    with (Admin.run cfg calls
            (snd (request cfg (call_env c) (call_ctx c) (call_user c) (call_route c)
                    (call_target c) w))).
  rewrite IH by (intros c' Hc'; apply Hcalls; now right).
  apply request_keeps_roles, Hcalls. left.
Qed.

Lemma roles_change_only_by_owner_witness :
  let superadmin := Context "paid" "superadmin" "root@example.com" (Some "active") "k" in
  let calls := [Call (Env false None false false) superadmin (User "u2" None)
                  (Ban (Some "spam")) (Some "u1");
                Call (Env false None false false) superadmin (User "u2" None)
                  Promote (Some "u2")] in
  let w := World {["u1" := Account (ProfileRow (Some "free") (Some "user") None None None)
                             false None]} ∅ [] [] in
  roles (Admin.run sample_config calls w) = roles w.
Proof.
  intros superadmin calls w.
  apply (roles_change_only_by_owner sample_config calls w).
  intros c Hc. apply list_elem_of_In in Hc. simpl in Hc.
  destruct Hc as [<- | [<- | []]]; vm_compute; discriminate.
Defined.

Lemma ban_keeps_access_witness :
  let superadmin := Context "paid" "superadmin" "root@example.com" (Some "active") "k" in
  let w := World {["u1" := Account (ProfileRow (Some "free") (Some "user") None None None)
                             false None]} ∅ [] [] in
  let w' := snd (request sample_config (Env false None false false) superadmin
                   (User "u2" None) (Ban (Some "spam")) (Some "u1") w) in
  (status ∘ profile <$> accounts w !! "u1" = Some None
   ∧ status ∘ profile <$> accounts w' !! "u1" = Some (Some "banned"))
  ∧ Server.run sample_config Server.working_env sample_user
      (resolve sample_config sample_user (accounts w'))
      (Server.OpGetCell (Some "Data") (Some "A1") None) Server.sample_world
    = Server.run sample_config Server.working_env sample_user
        (resolve sample_config sample_user (accounts w))
        (Server.OpGetCell (Some "Data") (Some "A1") None) Server.sample_world.
Proof.
  intros superadmin w w'. split; [split; vm_compute; reflexivity |].
  apply (ban_keeps_access sample_config (Env false None false false) superadmin
           (User "u2" None) (Ban (Some "spam")) (Some "u1") w).
  left. eexists. reflexivity.
Defined.

End AdminFacts.

(** ** Payment verification and repeated webhook deliveries *)

Section VerifyFacts.

Import Payments Verify.

(** X13.  Once the gateway answers ok with status true, the route sets
    the plan of the profiles with the body's email to paid, whatever the
    status of the transaction itself and whoever its customer is.  The
    update comes before the payment row: when the insert fails the route
    answers 500 with the plan already paid and no payment recorded. *)
Theorem verify_upgrades_before_logging (toLowerCase : string → string)
    (e : env) (httpStatus : nat) (data : json)
    (tx amount : value) (b : body) (em : string) (logged_at : Z) (t : tables) :
  truthy (reference b) = true →
  email b = Some (JStr em) → em ≠ EmptyString →
  get (Some data) "status" = Some (Some (JBool true)) →
  get (Some data) "data" = Some tx →
  get tx "amount" = Some amount →
  update_outcome e = Applied →
  let r := verify toLowerCase e (Answer true httpStatus data) b logged_at t in
  t_profiles (snd r) = update_plan (toLowerCase em) (expiry e b) (t_profiles t)
  ∧ (insert_outcome e = Applied →
     ∃ txStatus, get tx "status" = Some txStatus
       ∧ fst r = 302
       ∧ t_payments (snd r)
         = t_payments t ++ [Entry em amount (reference b) txStatus (mode b) logged_at])
  ∧ (insert_outcome e ≠ Applied →
     fst r = 500 ∧ t_payments (snd r) = t_payments t).
Proof.
  intros Href Hem Hne Hst Hdata Hamount Hup r. subst r. unfold verify.
  rewrite Href, Hem. destruct em as [|c s]; [done |]. cbn [truthy Server.nonempty negb orb].
  rewrite Hst. cbn [negb orb]. rewrite Hdata, Hamount, Hup.
  destruct (get_total tx "amount" "status" _ Hamount) as [txStatus Htx].
  rewrite Htx.
  destruct (insert_outcome e); cbn [fst snd t_profiles t_payments].
  - split; [done |]. split; [| done]. intros _. exists txStatus. done.
  - split; [done |]. split; [done |]. done.
  - split; [done |]. split; [done |]. done.
Qed.

Lemma verify_upgrades_before_logging_witness :
  let e := Env 1762041600 (λ t, t + 2678400)%Z (λ t, t + 31536000)%Z "sk_test"
             (Some "PLN_m") Applied Failed in
  let b := Body (Some (JStr "ref_1")) (Some (JStr "Ada@Example.com")) None in
  let t := Tables [Profile "ada@example.com" "free" None] [] in
  verify sample_lower e (verified_answer "failed" 5000) b 1762041601 t
  = (500, Tables [Profile "ada@example.com" "paid" (Some (1762041600 + 31536000)%Z)] [])
  ∧ t_profiles (snd (verify sample_lower e (verified_answer "failed" 5000) b 1762041601 t))
    = update_plan (sample_lower "Ada@Example.com") (expiry e b) (t_profiles t).
Proof.
  intros e b t. split; [vm_compute; reflexivity |].
  refine (proj1 (verify_upgrades_before_logging sample_lower e 200 _
                   (Some (JObj [("amount", JNum 5000); ("status", JStr "failed")]))
                   (Some (JNum 5000)) b "Ada@Example.com" 1762041601 t _ _ _ _ _ _ _));
    (reflexivity || discriminate).
Defined.

(** X14.  When the gateway does not answer ok, or its body's status is
    not true, the route answers with the gateway's own HTTP status and
    writes nothing. *)
Theorem verify_passes_gateway_status (toLowerCase : string → string)
    (e : env) (ok : bool) (httpStatus : nat)
    (data : json) (st : value) (b : body) (logged_at : Z) (t : tables) :
  truthy (reference b) = true → truthy (email b) = true →
  get (Some data) "status" = Some st →
  ok = false ∨ st ≠ Some (JBool true) →
  verify toLowerCase e (Answer ok httpStatus data) b logged_at t = (httpStatus, t).
Proof.
  intros Href Hem Hst Hno. unfold verify. rewrite Href, Hem, Hst. cbn [negb orb].
  destruct Hno as [-> | Hne]; [done |].
  destruct st as [[|[|]| | | |]|]; cbn [negb]; rewrite ?orb_true_r;
    try reflexivity.
  exfalso. now apply Hne.
Qed.

Lemma verify_passes_gateway_status_witness :
  let b := Body (Some (JStr "ref_1")) (Some (JStr "Ada@Example.com")) None in
  let t := Tables [Profile "ada@example.com" "free" None] [] in
  verify sample_lower sample_env (Answer true 200 (JObj [("status", JBool false)])) b 0 t
  = (200, t).
Proof.
  intros b t.
  apply (verify_passes_gateway_status sample_lower sample_env true 200 _
           (Some (JBool false)) b 0 t);
    [reflexivity | reflexivity | reflexivity | right; discriminate].
Defined.

End VerifyFacts.

Section ReplayFacts.

Import Payments Verify.

Variable hmac_sha512_hex : string → string → string.
Variable JSON_parse : string → option json.
Variable toLowerCase : string → string.

Lemma update_plan_twice (em : string) (x1 x2 : Z) (ps : list profile) :
  update_plan em x2 (update_plan em x1 ps) = update_plan em x2 ps.
Proof.
  unfold update_plan. rewrite List.map_map. apply List.map_ext. intros p.
  destruct (decide (pf_email p = em)) as [Hp | Hp].
  - rewrite (bool_decide_eq_true_2 _ Hp). simpl.
    now rewrite (bool_decide_eq_true_2 _ Hp).
  - rewrite (bool_decide_eq_false_2 _ Hp).
    now rewrite (bool_decide_eq_false_2 _ Hp).
Qed.

Lemma webhook_app_charge (e : env) (req : request) (d : db) (bytes : string)
    (event : json) (em : string) (amount reference planCode : value) :
  req_body req = Buffer bytes →
  signature_valid hmac_sha512_hex e req →
  JSON_parse bytes = Some event →
  event_type event = Some (Some (JStr "charge.success")) →
  charge_fields event = Some (Some (JStr em), amount, reference, planCode) →
  update_outcome e = Applied → insert_outcome e = Applied →
  webhook_app hmac_sha512_hex JSON_parse toLowerCase e req d
  = (Some 200,
     Db (update_plan (toLowerCase em) (charge_expiry e planCode) (profiles d))
        (payments d
           ++ [Payment em amount reference "success" (charge_mode e planCode) (now e)])
        (broadcasts d ++ ["payments:success"])).
Proof.
  intros Hb Hsig Hparse Hty Hfields Hup Hins.
  unfold webhook_app, webhook. unfold signature_valid in Hsig.
  rewrite Hb in Hsig |- *.
  rewrite bool_decide_eq_true_2 by exact Hsig.
  unfold handle_event. rewrite Hparse.
  unfold event_type in Hty. rewrite Hty. cbn [is_string].
  rewrite bool_decide_eq_true_2 by done. rewrite Hfields.
  unfold record_charge. rewrite Hup. unfold insert_payment. rewrite Hins.
  reflexivity.
Qed.

(** X15.  A charge event that reaches the handler of server/app.js twice
    as a Buffer, its body sent with a content type the JSON parser of the
    application leaves alone, is recorded twice: the handler appends a
    payment row and broadcasts at each delivery, with no test of the
    reference.  The expiry is counted from the time of the delivery, so
    after the second one it is what the second delivery alone would have
    set. *)
Theorem webhook_replay_records_twice (e1 e2 : env) (req : request) (d : db)
    (bytes : string) (event : json) (em : string)
    (amount reference planCode : value) :
  req_body req = Buffer bytes →
  signature_valid hmac_sha512_hex e1 req →
  signature_valid hmac_sha512_hex e2 req →
  JSON_parse bytes = Some event →
  event_type event = Some (Some (JStr "charge.success")) →
  charge_fields event = Some (Some (JStr em), amount, reference, planCode) →
  update_outcome e1 = Applied → insert_outcome e1 = Applied →
  update_outcome e2 = Applied → insert_outcome e2 = Applied →
  let d1 := snd (webhook_app hmac_sha512_hex JSON_parse toLowerCase e1 req d) in
  let d2 := snd (webhook_app hmac_sha512_hex JSON_parse toLowerCase e2 req d1) in
  payments d2
  = payments d
    ++ [ Payment em amount reference "success" (charge_mode e1 planCode) (now e1);
         Payment em amount reference "success" (charge_mode e2 planCode) (now e2) ]
  ∧ profiles d2 = update_plan (toLowerCase em) (charge_expiry e2 planCode) (profiles d)
  ∧ broadcasts d2 = broadcasts d ++ ["payments:success"; "payments:success"].
Proof.
  intros Hb Hs1 Hs2 Hparse Hty Hfields Hu1 Hi1 Hu2 Hi2 d1 d2. subst d1 d2.
  rewrite (webhook_app_charge e1 req d bytes event em amount reference planCode) by done.
  cbn [snd].
  rewrite (webhook_app_charge e2 req _ bytes event em amount reference planCode) by done.
  cbn [snd payments profiles broadcasts].
  rewrite <- !app_assoc, update_plan_twice. done.
Qed.

End ReplayFacts.

Lemma webhook_replay_records_twice_witness :
  let e2 := Payments.Env 1762128000 (λ t, t + 2678400)%Z (λ t, t + 31536000)%Z
              "sk_test" (Some "PLN_m") Payments.Applied Payments.Applied in
  let d1 := snd (Payments.webhook_app Payments.sample_hmac Payments.sample_parse
                   Payments.sample_lower Payments.sample_env Payments.charge_request
                   Payments.sample_db) in
  let d2 := snd (Payments.webhook_app Payments.sample_hmac Payments.sample_parse
                   Payments.sample_lower e2 Payments.charge_request d1) in
  length (Payments.payments d2) = 2
  ∧ Payments.payments d2
    = Payments.payments Payments.sample_db
      ++ [ Payments.Payment "Ada@Example.com" (Some (Payments.JNum 5000))
             (Some (Payments.JStr "ref_1")) "success"
             (Payments.charge_mode Payments.sample_env None) 1762041600;
           Payments.Payment "Ada@Example.com" (Some (Payments.JNum 5000))
             (Some (Payments.JStr "ref_1")) "success"
             (Payments.charge_mode e2 None) 1762128000 ].
Proof.
  intros e2 d1 d2. split; [vm_compute; reflexivity |].
  refine (proj1 (webhook_replay_records_twice Payments.sample_hmac Payments.sample_parse
                   Payments.sample_lower Payments.sample_env e2 Payments.charge_request
                   Payments.sample_db "charge"
                   Payments.charge_event "Ada@Example.com" (Some (Payments.JNum 5000))
                   (Some (Payments.JStr "ref_1")) None _ _ _ _ _ _ _ _ _ _));
    reflexivity.
Defined.

(** ** More on the workbook routes *)

Section RoutesFacts.

Import Identity Gate Excel Server Routes.

(** X16.  What POST /excel/save-all leaves in a sheet, for every grid and
    every sheet: inside the bounds of the grid each cell holds the grid's
    entry; outside them a cell is null or keeps its value, and it is null
    when it lies within the row and column counts the sheet has once the
    grid is written. *)
Theorem save_grid_cells (grid : list (list jsval)) (ws : worksheet) (r c : nat) :
  let edited := apply_edits grid ws in
  let eR := or_nat (actualRowCount edited) (rowCount edited) in
  let eC := or_nat (actualColumnCount edited) (columnsLen edited) in
  (in_bounds (length grid) (maxColIn grid) r c →
     cell_value (save_grid grid ws) r c = grid_at grid r c)
  ∧ (¬ in_bounds (length grid) (maxColIn grid) r c →
       cell_value (save_grid grid ws) r c = VNull
       ∨ cell_value (save_grid grid ws) r c = cell_value ws r c)
  ∧ (¬ in_bounds (length grid) (maxColIn grid) r c →
       1 ≤ r ≤ eR → 1 ≤ c ≤ eC →
       cell_value (save_grid grid ws) r c = VNull).
Proof.
  intros edited eR eC.
  assert (Hcells : cells (save_grid grid ws) !! (r, c)
                   = if bool_decide ((length grid + 1 ≤ r ≤ eR ∧ 1 ≤ c ≤ eC)
                                     ∨ (1 ≤ r ≤ Nat.max eR (length grid)
                                        ∧ maxColIn grid + 1 ≤ c ≤ eC))
                     then None
                     else if decide (in_bounds (length grid) (maxColIn grid) r c)
                          then to_cell (grid_at grid r c) else cells ws !! (r, c)).
  { unfold save_grid. now rewrite cells_clear_trailing, cells_apply_edits. }
  split; [| split].
  - intros Hin. apply cell_value_of_cells; [apply entry_not_undefined |].
    rewrite Hcells, bool_decide_eq_false_2 by (unfold in_bounds in Hin; lia).
    now rewrite decide_True.
  - intros Hout. unfold cell_value. rewrite Hcells.
    case_bool_decide; [now left |]. rewrite decide_False by done. now right.
  - intros Hout Hr Hc. unfold cell_value. rewrite Hcells.
    rewrite bool_decide_eq_true_2; [done |]. unfold in_bounds in Hout. lia.
Qed.

Lemma free_plan_gate_status (r : route) (ctx : context) (uid : string)
    (table : list audit_entry) (now : Z) (query_ok : bool) (st : nat) (msg : string) :
  free_plan_gate r ctx uid table now query_ok = Some (st, msg) → st = 403.
Proof.
  unfold free_plan_gate, quota_gate. intros H.
  repeat case_match; simplify_eq; reflexivity.
Qed.

(** A query that succeeds leaves the bucket as it was and appends its
    audit row, when the insert works. *)
Lemma get_cell_success (cfg : config) (e : env) (u : user) (ctx : context)
    (sheet cell scope : option string) (w : world) :
  status (fst (get_cell cfg e u ctx sheet cell scope w)) = 200 →
  insert_ok e = true →
  ∃ n, snd (get_cell cfg e u ctx sheet cell scope w)
       = World (storage w)
           (excel_audit w
              ++ [AuditEntry (id u) (userEmail ctx) "get_cell" (Some n) (now e)])
           (events w).
Proof.
  unfold get_cell, insert_audit. intros Hst Hins. rewrite Hins.
  repeat case_match; simplify_eq; cbn in Hst; try discriminate Hst; eauto.
  match goal with H : free_plan_gate _ _ _ _ _ _ = Some _ |- _ =>
    apply free_plan_gate_status in H; subst; discriminate Hst end.
Qed.

Lemma count_today_app (t1 t2 : list audit_entry) (uid : string)
    (actions : list string) (now : Z) :
  count_today (t1 ++ t2) uid actions now
  = count_today t1 uid actions now + count_today t2 uid actions now.
Proof. unfold count_today. now rewrite filter_app, length_app. Qed.

Lemma count_today_own (uid email action : string) (sheet : option string)
    (actions : list string) (t now : Z) :
  action ∈ actions → (t / 86400 = now / 86400)%Z →
  count_today [AuditEntry uid email action sheet t] uid actions now = 1.
Proof.
  intros Hact Hday. unfold count_today.
  rewrite filter_cons_True; [done |].
  unfold matches, utc_day_start. cbn.
  rewrite !andb_true_iff, !bool_decide_eq_true. split; [done |].
  rewrite <- Hday. pose proof (Z.mul_div_le t 86400). lia.
Qed.

(** X17.  The queries of a free-plan user count against the user: after
    three queries that succeeded on one UTC day, each with its audit row
    written, a fourth query on that day is denied with the quota message
    and changes nothing. *)
Theorem fourth_query_denied (cfg : config) (e1 e2 e3 e4 : env) (u : user)
    (ctx : context) (s1 c1 p1 s2 c2 p2 s3 c3 p3 : option string)
    (n addr : string) (scope : option string) (w : world) :
  userPlan ctx = "free" →
  insert_ok e1 = true → insert_ok e2 = true → insert_ok e3 = true →
  count_ok e4 = true →
  (now e1 / 86400 = now e4 / 86400)%Z →
  (now e2 / 86400 = now e4 / 86400)%Z →
  (now e3 / 86400 = now e4 / 86400)%Z →
  n ≠ EmptyString → addr ≠ EmptyString →
  let w1 := snd (get_cell cfg e1 u ctx s1 c1 p1 w) in
  let w2 := snd (get_cell cfg e2 u ctx s2 c2 p2 w1) in
  let w3 := snd (get_cell cfg e3 u ctx s3 c3 p3 w2) in
  status (fst (get_cell cfg e1 u ctx s1 c1 p1 w)) = 200 →
  status (fst (get_cell cfg e2 u ctx s2 c2 p2 w1)) = 200 →
  status (fst (get_cell cfg e3 u ctx s3 c3 p3 w2)) = 200 →
  get_cell cfg e4 u ctx (Some n) (Some addr) scope w3
  = (error 403 (quota_message GetCell), w3).
Proof.
  intros Hfree Hi1 Hi2 Hi3 Hcount Hd1 Hd2 Hd3 Hn Haddr w1 w2 w3 H1 H2 H3.
  destruct (get_cell_success _ _ _ _ _ _ _ _ H1 Hi1) as [n1 Hw1].
  fold w1 in Hw1.
  destruct (get_cell_success _ _ _ _ _ _ _ _ H2 Hi2) as [n2 Hw2].
  fold w2 in Hw2.
  destruct (get_cell_success _ _ _ _ _ _ _ _ H3 Hi3) as [n3 Hw3].
  fold w3 in Hw3.
  destruct (gate_denial_is_the_response cfg e4 u ctx w3 n addr 403
              (quota_message GetCell) Hn Haddr) as (_ & _ & Hget & _).
  apply Hget. rewrite Hcount.
  apply (proj1 (free_plan_gate_iff GetCell ctx (id u) (excel_audit w3) (now e4))).
  split; [done |].
  rewrite Hw3, Hw2, Hw1. cbn [excel_audit].
  rewrite !count_today_app.
  assert (Hact : "get_cell" ∈ quota_actions GetCell) by (simpl; left).
  rewrite !count_today_own by done. lia.
Qed.

Lemma fourth_query_denied_witness :
  let q := get_cell sample_config working_env sample_user free_context
             (Some "Data") (Some "A1") None in
  let w3 := snd (q (snd (q (snd (q sample_world))))) in
  status (fst (q sample_world)) = 200
  ∧ q w3 = (error 403 (quota_message GetCell), w3).
Proof.
  intros q w3. split; [vm_compute; reflexivity |].
  apply (fourth_query_denied sample_config working_env working_env working_env
           working_env sample_user free_context
           (Some "Data") (Some "A1") None (Some "Data") (Some "A1") None
           (Some "Data") (Some "A1") None "Data" "A1" None sample_world);
    try (vm_compute; reflexivity); discriminate.
Defined.

Lemma removeWorksheet_absent (wb : workbook) (n : string) :
  getWorksheet wb n = None → removeWorksheet wb n = wb.
Proof.
  unfold getWorksheet, removeWorksheet.
  induction wb as [|x wb IH]; simpl; [done |].
  case_bool_decide as Hx; simpl; [done |]. intros H. now rewrite IH.
Qed.

Lemma count_today_other (uid email action : string) (sheet : option string)
    (actions : list string) (t now : Z) :
  action ∉ actions →
  count_today [AuditEntry uid email action sheet t] uid actions now = 0.
Proof.
  intros Hact. unfold count_today.
  rewrite filter_cons_False; [done |].
  unfold matches. cbn. rewrite (bool_decide_eq_false_2 _ Hact).
  rewrite andb_false_r. done.
Qed.

(** X18.  POST /excel/overwrite stands outside the plan gates: with a
    stored workbook, a name the library accepts and a working storage it
    answers success for every plan and every audit history, replacing the
    sheet of that name or adding one when there is none, under the name
    the library gives the new sheet, and the audit row it writes counts
    for no quota of any route. *)
Theorem overwrite_outside_quotas (cfg : config) (e : env) (u : user)
    (ctx : context) (n n' : string) (w : world) (wb : workbook) :
  n ≠ EmptyString →
  download_fails e (fileKey ctx) = false →
  storage w !! fileKey ctx = Some (Xlsx wb) →
  worksheet_name e (sheet_names (removeWorksheet wb n)) n = Some n' →
  upload_error e = None →
  let r := overwrite cfg e u ctx (Some n) w in
  fst r = Response 200 BSuccess
  ∧ storage (snd r) !! fileKey ctx
    = Some (writeBuffer e (removeWorksheet wb n ++ [overwritten_sheet n']))
  ∧ ∀ route now ok,
      free_plan_gate route ctx (id u) (excel_audit (snd r)) now ok
      = free_plan_gate route ctx (id u) (excel_audit w) now ok.
Proof.
  intros Hn Hdl Hst Hname Hup r. subst r. unfold overwrite.
  destruct n as [|a0 r0]; [done |]. set (n := String a0 r0) in *.
  unfold getBufferFromStorage. rewrite Hdl, Hst. cbn [loadWorkbook].
  assert (Hwb : ∃ wb', (if bool_decide (is_Some (getWorksheet wb n))
                        then removeWorksheet wb n else wb) = wb'
                       ∧ wb' = removeWorksheet wb n).
  { case_bool_decide as Hex; [eauto |]. eexists. split; [done |].
    symmetry. apply removeWorksheet_absent.
    destruct (getWorksheet wb n); [exfalso; apply Hex; eauto | done]. }
  destruct Hwb as (wb' & -> & ->).
  unfold try_addWorksheet. rewrite Hname. cbn [mbind option_bind].
  unfold updateBufferToStorage. rewrite Hup. cbn [fst snd].
  split; [done |]. unfold insert_audit.
  destruct (insert_ok e); cbn [storage excel_audit].
  - split; [now rewrite lookup_insert_eq |].
    intros route now ok. unfold free_plan_gate. destruct ok; [| done].
    rewrite count_today_app, count_today_other; [now rewrite Nat.add_0_r |].
    destruct route; simpl; intros Hin; apply list_elem_of_In in Hin; simpl in Hin;
      intuition discriminate.
  - split; [now rewrite lookup_insert_eq |]. done.
Qed.

Lemma overwrite_outside_quotas_witness :
  let r := overwrite sample_config working_env sample_user free_context
             (Some "Data") free_world in
  fst r = Response 200 BSuccess
  ∧ storage (snd r) !! fileKey free_context
    = Some (writeBuffer working_env (removeWorksheet data_workbook "Data"
                                       ++ [overwritten_sheet "Data"]))
  ∧ ∀ route now ok,
      free_plan_gate route free_context (id sample_user) (excel_audit (snd r)) now ok
      = free_plan_gate route free_context (id sample_user) (excel_audit free_world)
          now ok.
Proof.
  apply (overwrite_outside_quotas sample_config working_env sample_user free_context
           "Data" "Data" free_world data_workbook);
    try (vm_compute; reflexivity); discriminate.
Defined.









(** X20.  GET /excel/latest and GET /excel/sheets agree.  Whenever the
    sheet list is served, the latest route answers too; when its index is
    0 the sheet it names is the head of the served list, and when its
    index is null the sheet it names, if any, is not in the list. *)
Theorem latest_agrees_with_sheets (cfg : config) (e : env) (u : user)
    (ctx : context) (w w' : world) (served : list string) :
  list_sheets cfg e u ctx w = (Response 200 (BSheets served), w') →
  ∃ sheet index,
    latest cfg e u ctx w = Latest sheet index
    ∧ (index = None ∨ index = Some 0)
    ∧ (index = Some 0 → ∃ x, sheet = Some x ∧ head served = Some x)
    ∧ (index = None → ∀ x, sheet = Some x → x ∉ served).
Proof.
  unfold list_sheets, latest, Sheets.latestSheet. intros H.
  destruct (negb (nonempty (fileKey ctx))); [discriminate H |].
  destruct (getBufferFromStorage e w (fileKey ctx)) as [buffer|]; [| discriminate H].
  destruct (loadWorkbook buffer) as [workbook|]; [| discriminate H].
  destruct (if bool_decide (userRole ctx = "superadmin") && nonempty (EXCEL_FILE_KEY cfg)
            then _ else _) as [sheets|]; [| discriminate H].
  injection H as <- _.
  destruct (latest_ok e); cbn [negb];
    [| exists None, None; split; [done |]; split; [now left |]; split; done].
  destruct (Sheets.latest_entry (excel_audit w) (id u)) as [row|]; cbn [mbind option_bind];
    [| exists None, None; split; [done |]; split; [now left |]; split; done].
  destruct (a_sheet_name row) as [[|a r]|]; cbn [or_null].
  - exists None, None. destruct sheets; (split; [done |]; split; [now left |]; split; done).
  - destruct sheets as [|s0 sheets].
    + exists (Some (String a r)), None. split; [done |]. split; [now left |].
      split; [done |]. intros _ x _. apply not_elem_of_nil.
    + unfold Sheets.pin_latest.
      destruct (Sheets.indexOf (s0 :: sheets) (String a r)) as [i|] eqn:Hi.
      * exists (Some (String a r)), (Some 0). split; [done |]. split; [now right |].
        split; [| done]. intros _. eauto.
      * exists (Some (String a r)), None. split; [done |]. split; [now left |].
        split; [done |]. intros _ x [= <-]. now apply indexOf_None.
  - exists None, None. destruct sheets; (split; [done |]; split; [now left |]; split; done).
Qed.

Lemma latest_agrees_with_sheets_witness :
  let w := World (storage sample_world)
             [AuditEntry "u1" "u1@example.com" "save_all" (Some "Data") 100] [] in
  list_sheets sample_config working_env sample_user paid_context w
  = (Response 200 (BSheets ["Data"]), w)
  ∧ ∃ sheet index,
      latest sample_config working_env sample_user paid_context w = Latest sheet index
      ∧ (index = None ∨ index = Some 0)
      ∧ (index = Some 0 → ∃ x, sheet = Some x ∧ head ["Data"] = Some x)
      ∧ (index = None → ∀ x, sheet = Some x → x ∉ ["Data"]).
Proof.
  intros w.
  assert (H : list_sheets sample_config working_env sample_user paid_context w
              = (Response 200 (BSheets ["Data"]), w)) by (vm_compute; reflexivity).
  split; [exact H |].
  exact (latest_agrees_with_sheets sample_config working_env sample_user paid_context
           w w ["Data"] H).
Defined.

End RoutesFacts.

(** ** The served sheet list and the dashboard *)

Section DashboardFacts.

Import Sheets Dashboard.

Lemma uniq_from_spec (seen l : list string) :
  NoDup (uniq_from seen l)
  ∧ (∀ x, x ∈ uniq_from seen l ↔ x ∈ l ∧ x ∉ seen).
Proof.
  revert seen. induction l as [|y l IH]; intros seen; simpl.
  - split; [constructor |]. intros x. rewrite elem_of_nil. tauto.
  - case_bool_decide as Hy.
    + destruct (IH seen) as [Hnd Hin]. split; [done |].
      intros x. rewrite Hin, elem_of_cons. split; [tauto |].
      intros [[-> | Hx] Hs]; [contradiction | tauto].
    + destruct (IH (y :: seen)) as [Hnd Hin]. split.
      * constructor; [| done]. rewrite Hin, not_elem_of_cons. tauto.
      * intros x. rewrite elem_of_cons, Hin, not_elem_of_cons, elem_of_cons.
        destruct (decide (x = y)) as [-> | Hne]; tauto.
Qed.

Lemma uniq_from_NoDup (seen l : list string) :
  NoDup l → (∀ x, x ∈ l → x ∉ seen) → uniq_from seen l = l.
Proof.
  revert seen. induction l as [|y l IH]; intros seen Hnd Hdis; [done |]. simpl.
  apply NoDup_cons in Hnd as [Hy Hnd].
  rewrite bool_decide_eq_false_2 by (apply Hdis; left).
  f_equal. apply IH; [done |]. intros x Hx. rewrite not_elem_of_cons. split.
  - intros ->. contradiction.
  - apply Hdis. now right.
Qed.

Lemma uniq_from_app (seen l1 l2 : list string) :
  NoDup l1 → (∀ x, x ∈ l1 → x ∉ seen) →
  uniq_from seen (l1 ++ l2) = l1 ++ uniq_from (rev l1 ++ seen) l2.
Proof.
  revert seen. induction l1 as [|y l IH]; intros seen Hnd Hdis; [done |]. simpl.
  apply NoDup_cons in Hnd as [Hy Hnd].
  rewrite bool_decide_eq_false_2 by (apply Hdis; left).
  f_equal. rewrite IH; [now rewrite <- app_assoc | done |].
  intros x Hx. rewrite not_elem_of_cons. split.
  - intros ->. contradiction.
  - apply Hdis. now right.
Qed.

(** X21.  The list a superadmin is served, the user's sheets merged with
    the master's, names no sheet twice and names exactly the sheets of
    either workbook; when the user's workbook names no sheet twice, its
    names come first and in their order. *)
Theorem merge_sheets_spec (sheets masterSheets : list string) :
  NoDup (merge_sheets sheets masterSheets)
  ∧ (∀ x, x ∈ merge_sheets sheets masterSheets ↔ x ∈ sheets ∨ x ∈ masterSheets)
  ∧ (NoDup sheets → ∃ rest, merge_sheets sheets masterSheets = sheets ++ rest).
Proof.
  unfold merge_sheets. destruct (uniq_from_spec [] (sheets ++ masterSheets)) as [Hnd Hin].
  split; [done |]. split.
  - intros x. rewrite Hin, elem_of_app. pose proof (not_elem_of_nil x). tauto.
  - intros Hs. eexists. apply uniq_from_app; [done |].
    intros x _. apply not_elem_of_nil.
Qed.

Lemma dedupe_from_NoDup (seen : gset string) (l : list string) :
  NoDup l → (∀ x, x ∈ l → x ∉ seen) → dedupe_from seen l = l.
Proof.
  revert seen. induction l as [|y l IH]; intros seen Hnd Hdis; [done |]. simpl.
  apply NoDup_cons in Hnd as [Hy Hnd].
  rewrite bool_decide_eq_false_2 by (apply Hdis; left).
  f_equal. apply IH; [done |]. intros x Hx.
  rewrite not_elem_of_union, not_elem_of_singleton. split.
  - intros ->. contradiction.
  - apply Hdis. now right.
Qed.

Lemma filter_absent (x : string) (l : list string) :
  x ∉ l → List.filter (λ s, negb (bool_decide (s = x))) l = l.
Proof.
  induction l as [|y l IH]; [done |]. rewrite not_elem_of_cons. intros [Hy Hl]. simpl.
  rewrite bool_decide_eq_false_2 by congruence. simpl. now rewrite IH.
Qed.

Lemma indexOf_NoDup (l : list string) (i : nat) (x : string) :
  NoDup l → l !! i = Some x → indexOf l x = Some i.
Proof.
  revert i. induction l as [|y l IH]; intros i Hnd Hi; [done |].
  apply NoDup_cons in Hnd as [Hy Hnd]. destruct i as [|i]; simpl in *.
  - injection Hi as ->. now rewrite bool_decide_eq_true_2.
  - rewrite bool_decide_eq_false_2.
    + now rewrite (IH i Hnd Hi).
    + intros ->. apply Hy. eapply list_elem_of_lookup_2. exact Hi.
Qed.

(** The stable sort leaves a list as it is whose keys increase. *)
Lemma stabilize_increasing (key : string → Z) (l : list string) :
  (∀ i j a b, l !! i = Some a → l !! j = Some b → i < j → (key a < key b)%Z) →
  foldr (insert_stable key) [] l = l.
Proof.
  induction l as [|a l IH]; intros Hinc; [done |]. simpl.
  rewrite IH by (intros i j x y Hx Hy Hij; apply (Hinc (S i) (S j)); [done | done | lia]).
  destruct l as [|b r]; [done |]. simpl.
  assert (Hab : (key a < key b)%Z) by (apply (Hinc 0 1); [done | done | lia]).
  destruct (key b <? key a)%Z eqn:Hlt; [| done].
  apply Z.ltb_lt in Hlt. lia.
Qed.

Lemma stabilize_own_order (names : list string) :
  NoDup names → stabilize names names = names.
Proof.
  intros Hnd. unfold stabilize. apply stabilize_increasing.
  intros i j a b Ha Hb Hij. unfold order_index.
  rewrite (indexOf_NoDup _ _ _ Hnd Ha), (indexOf_NoDup _ _ _ Hnd Hb). lia.
Qed.

Lemma pin_latest_NoDup (sheets : list string) (latestSheet : option string) :
  NoDup sheets → NoDup (pin_latest sheets latestSheet).
Proof.
  intros Hnd. unfold pin_latest.
  destruct sheets as [|s0 rest]; [done |].
  destruct latestSheet as [[|a r]|]; [done | | done].
  destruct (indexOf (s0 :: rest) (String a r)) as [i|] eqn:Hi; [| done].
  destruct (indexOf_split _ _ _ Hi) as (l1 & l2 & Hl & Hno & ->).
  rewrite Hl in Hnd. apply NoDup_app in Hnd as (H1 & H12 & H2).
  apply NoDup_cons in H2 as [Hx H2]. constructor.
  - rewrite elem_of_app. intros [Hx1 | Hx2]; contradiction.
  - apply NoDup_app. split; [done |]. split; [| done].
    intros y Hy Hy2. apply (H12 y Hy). now right.
Qed.

Lemma pinLatestStable_pinned (sheets : list string) (latestSheet : option string) :
  NoDup sheets →
  pinLatestStable (pin_latest sheets latestSheet) (Routes.or_null latestSheet)
  = pin_latest sheets latestSheet.
Proof.
  intros Hnd.
  destruct latestSheet as [[|a r]|]; cbn [Routes.or_null].
  - unfold pin_latest. destruct sheets; [done |]. now destruct (s :: sheets).
  - pose proof (pin_latest_NoDup sheets (Some (String a r)) Hnd) as Hnd'.
    unfold pin_latest in *.
    destruct sheets as [|s0 rest]; [done |].
    destruct (indexOf (s0 :: rest) (String a r)) as [i|] eqn:Hi.
    + cbn [pinLatestStable].
      rewrite bool_decide_eq_true_2 by left.
      cbn [List.filter]. rewrite bool_decide_eq_true_2 by done. cbn [negb].
      f_equal. apply filter_absent. now apply NoDup_cons in Hnd' as [? _].
    + apply indexOf_None in Hi. cbn [pinLatestStable].
      now rewrite bool_decide_eq_false_2.
  - unfold pin_latest. destruct sheets; [done |]. now destruct (s :: sheets).
Qed.

(** X22.  What the dashboard shows after its first load of a workbook
    that names no sheet twice.  When GET /excel/latest names a sheet, or
    the browser has stored no sheet name, the list shown is the list
    GET /excel/sheets served: the client's pin and the server's agree.
    When GET /excel/latest names no sheet and the browser has stored the
    name of a sheet of the list, that sheet is moved to the head of the
    list shown. *)
Theorem first_load_shows_served (sheets : list string)
    (latestSheet stored : option string) :
  NoDup sheets →
  (Routes.or_null latestSheet ≠ None ∨ Routes.or_null stored = None →
     first_load stored (pin_latest sheets latestSheet) (Routes.or_null latestSheet)
     = pin_latest sheets latestSheet)
  ∧ (∀ x, Routes.or_null latestSheet = None → Routes.or_null stored = Some x →
       x ∈ sheets →
       first_load stored (pin_latest sheets latestSheet) (Routes.or_null latestSheet)
       = x :: List.filter (λ s, negb (bool_decide (s = x))) sheets).
Proof.
  intros Hnd. unfold first_load, dedupeNames.
  assert (Hempty : ∀ x : string, x ∉ (∅ : gset string)) by (intros; apply not_elem_of_empty).
  pose proof (pin_latest_NoDup sheets latestSheet Hnd) as Hnd'.
  rewrite dedupe_from_NoDup by auto.
  rewrite stabilize_own_order by done.
  split.
  - intros Hcase.
    assert (Hl : lastEditedSheet stored (Routes.or_null latestSheet)
                 = Routes.or_null latestSheet).
    { unfold lastEditedSheet.
      destruct (Routes.or_null latestSheet) as [[|a r]|] eqn:Hlat.
      - now destruct latestSheet as [[|? ?]|].
      - done.
      - destruct Hcase as [Hc | Hc]; [done | exact Hc]. }
    rewrite Hl. now apply pinLatestStable_pinned.
  - intros x Hlat Hsto Hx. rewrite Hlat. unfold lastEditedSheet. rewrite Hsto.
    assert (Hp : pin_latest sheets latestSheet = sheets).
    { unfold pin_latest. destruct sheets; [done |].
      now destruct latestSheet as [[|a r]|]. }
    rewrite Hp.
    destruct x as [|a r]; [now destruct stored as [[|? ?]|] |].
    destruct sheets as [|s0 rest]; [now apply elem_of_nil in Hx |].
    cbn [pinLatestStable]. now rewrite bool_decide_eq_true_2.
Qed.

Lemma first_load_shows_served_witness :
  NoDup ["A"; "B"; "C"]
  ∧ first_load (Some "C") (pin_latest ["A"; "B"; "C"] (Some "B"))
      (Routes.or_null (Some "B"))
    = pin_latest ["A"; "B"; "C"] (Some "B")
  ∧ first_load (Some "C") (pin_latest ["A"; "B"; "C"] None) (Routes.or_null None)
    = ["C"; "A"; "B"].
Proof.
  assert (Hnd : NoDup ["A"; "B"; "C"]).
  { repeat constructor; rewrite ?elem_of_cons, ?elem_of_nil; intuition discriminate. }
  assert (Hin : "C" ∈ ["A"; "B"; "C"]) by (apply list_elem_of_In; simpl; tauto).
  assert (Hlat : Routes.or_null (Some "B") ≠ None ∨ Routes.or_null (Some "C") = None)
    by (left; discriminate).
  split; [exact Hnd |].
  split.
  - exact (proj1 (first_load_shows_served ["A"; "B"; "C"] (Some "B") (Some "C") Hnd) Hlat).
  - exact (proj2 (first_load_shows_served ["A"; "B"; "C"] None (Some "C") Hnd)
             "C" eq_refl eq_refl Hin).
Defined.

End DashboardFacts.

(** ** Support sessions and legal pages *)

Section SupportFacts.

Import Identity Support.

Lemma filter_none {A} (f : A → bool) (l : list A) :
  (∀ x, x ∈ l → f x = false) → List.filter f l = [].
Proof.
  induction l as [|y l IH]; intros H; [done |]. simpl.
  rewrite (H y) by left. apply IH. intros x Hx. apply H. now right.
Qed.

(** X23.  A support session lives for the configured minutes.  When the
    assist route, called by a superadmin or the owner, stores a session
    under a key no other session has, the validation route, which asks
    for no credentials, answers for that key with the user and the
    read-only flag up to and including the expiry time, and with 410
    after it. *)
Theorem support_session_lifetime (cfg : config) (minutes : Z) (ctx : context)
    (u : user) (target : string) (stamp now : Z) (suffix : string) (w : world) :
  Admin.admin_gate cfg ctx = None →
  target ≠ EmptyString →
  (∀ r, r ∈ sessions w → session_key r ≠ new_key target stamp suffix) →
  let r := assist cfg (Some minutes) ctx u (Some target) stamp now suffix false w in
  let expires := (now + minutes * 60 * 1000)%Z in
  fst r = AssistOk (new_key target stamp suffix) expires
  ∧ ∀ t, validate (Some (new_key target stamp suffix)) t false (snd r)
         = if bool_decide (expires < t)%Z then ValidateError 410
           else Valid target true.
Proof.
  intros Hgate Htarget Hfresh r expires. subst r. unfold assist.
  rewrite Hgate. destruct target as [|c s]; [done |]. cbn [fst snd].
  split; [done |]. intros t. unfold validate.
  assert (Hkey : ∃ a k, new_key (String c s) stamp suffix = String a k)
    by (unfold new_key; eauto).
  destruct Hkey as (a & k & Hkey). rewrite Hkey. rewrite <- Hkey.
  cbn [sessions]. rewrite List.filter_app.
  rewrite (filter_none _ (sessions w)).
  - simpl. rewrite bool_decide_eq_true_2 by done. done.
  - intros x Hx. apply bool_decide_eq_false_2. now apply Hfresh.
Qed.

Lemma support_session_lifetime_witness :
  let ctx := Context "paid" "superadmin" "root@example.com" (Some "active") "k" in
  let w := World [] [] [] in
  let r := assist sample_config (Some 60%Z) ctx sample_user (Some "u7") 1000 1001 "abc"
             false w in
  fst r = AssistOk (new_key "u7" 1000 "abc") (1001 + 60 * 60 * 1000)%Z
  ∧ ∀ t, validate (Some (new_key "u7" 1000 "abc")) t false (snd r)
         = if bool_decide (1001 + 60 * 60 * 1000 < t)%Z then ValidateError 410
           else Valid "u7" true.
Proof.
  intros ctx w.
  apply (support_session_lifetime sample_config 60 ctx sample_user "u7" 1000 1001 "abc" w).
  - reflexivity.
  - discriminate.
  - intros r Hr. now apply elem_of_nil in Hr.
Defined.

End SupportFacts.

Section LegalFacts.

Import Identity Legal.

Lemma NoDup_map_inj {A B} (f : A → B) (l : list A) (x y : A) :
  NoDup (List.map f l) → x ∈ l → y ∈ l → f x = f y → x = y.
Proof.
  induction l as [|z l IH]; intros Hnd Hx Hy Hf; [now apply elem_of_nil in Hx |].
  simpl in Hnd. apply NoDup_cons in Hnd as [Hz Hnd].
  assert (Hin : ∀ a, a ∈ l → f a ∈ List.map f l).
  { intros a Ha. apply list_elem_of_In, in_map, list_elem_of_In, Ha. }
  apply elem_of_cons in Hx as [-> | Hx], Hy as [-> | Hy]; [done | | | now apply IH].
  - exfalso. apply Hz. rewrite Hf. now apply Hin.
  - exfalso. apply Hz. rewrite <- Hf. now apply Hin.
Qed.

Lemma filter_slug_unique (s : string) (l : list page) :
  NoDup (List.map slug l) →
  List.filter (λ p, bool_decide (slug p = s)) l = []
  ∨ ∃ p, List.filter (λ p, bool_decide (slug p = s)) l = [p] ∧ p ∈ l ∧ slug p = s.
Proof.
  induction l as [|z l IH]; intros Hnd; [now left |].
  simpl in Hnd. apply NoDup_cons in Hnd as [Hz Hnd]. simpl.
  case_bool_decide as Hs.
  - right. exists z. split; [| split; [left | done]]. f_equal.
    apply filter_none. intros x Hx. apply bool_decide_eq_false_2. intros Hxs.
    apply Hz. rewrite Hs, <- Hxs.
    apply list_elem_of_In, in_map, list_elem_of_In, Hx.
  - destruct (IH Hnd) as [-> | (p & -> & Hp & Hps)]; [now left |].
    right. exists p. split; [done |]. split; [now right | done].
Qed.

Lemma filter_map_keeps {A} (f : A → A) (t : A → bool) (l : list A) :
  (∀ x, t (f x) = t x) → List.filter t (List.map f l) = List.map f (List.filter t l).
Proof.
  intros Ht. induction l as [|z l IH]; [done |]. simpl.
  rewrite Ht. destruct (t z); simpl; now rewrite IH.
Qed.

Lemma map_id_on {A} (f : A → A) (l : list A) :
  (∀ x, x ∈ l → f x = x) → List.map f l = l.
Proof.
  induction l as [|z l IH]; intros H; [done |]. simpl.
  rewrite (H z) by left. f_equal. apply IH. intros x Hx. apply H. now right.
Qed.

(** X24.  A legal page that the owner posts is the page that is read.
    On a table with one row at most for each slug, a POST that succeeds
    makes the GET of that page answer the posted content, leaves the
    other page as it was, and keeps the table with one row at most for
    each slug. *)
Theorem legal_page_round_trip (cfg : config) (e : env) (ctx : context) (u : user)
    (s c : string) (w : world) :
  Admin.requireOwner cfg ctx u = None →
  c ≠ EmptyString →
  well_keyed w →
  fresh_id e ∉ List.map page_id (pages w) →
  select_fails e = false → update_fails e = false → insert_fails e = false →
  let r := post_page cfg e ctx u s (Some c) w in
  fst r = 200
  ∧ fst (get_page s (snd r)) = c
  ∧ (∀ s', s' ≠ s → get_page s' (snd r) = get_page s' w)
  ∧ well_keyed (snd r).
Proof.
  intros Hown Hc [Hids Hslugs] Hfresh Hsel Hupd Hins r. subst r.
  unfold post_page. rewrite Hown, Hsel. destruct c as [|c0 r0]; [done |].
  destruct (filter_slug_unique s (pages w) Hslugs) as [Hnone | (p & Hone & Hp & Hps)].
  - rewrite Hnone, Hins. cbn [fst snd]. split; [done |].
    assert (Hs : s ∉ List.map slug (pages w)).
    { intros Hin. apply list_elem_of_In, in_map_iff in Hin as (q & Hq & Hin).
      apply list_elem_of_In in Hin.
      assert (Hf : q ∈ List.filter (λ p, bool_decide (slug p = s)) (pages w)).
      { apply list_elem_of_In, filter_In. split; [now apply list_elem_of_In |].
        now apply bool_decide_eq_true_2. }
      rewrite Hnone in Hf. now apply elem_of_nil in Hf. }
    split; [| split].
    + unfold get_page. cbn [pages]. rewrite List.filter_app, Hnone. simpl.
      now rewrite bool_decide_eq_true_2.
    + intros s' Hs'. unfold get_page. cbn [pages]. rewrite List.filter_app. simpl.
      rewrite bool_decide_eq_false_2 by congruence. now rewrite app_nil_r.
    + unfold well_keyed. cbn [pages]. rewrite !map_app. simpl. split.
      * apply NoDup_app. split; [done |]. split; [| apply NoDup_singleton].
        intros x Hx Hx'. apply list_elem_of_singleton in Hx'. now subst x.
      * apply NoDup_app. split; [done |]. split; [| apply NoDup_singleton].
        intros x Hx Hx'. apply list_elem_of_singleton in Hx'. now subst x.
  - rewrite Hone, Hupd. cbn [fst snd]. split; [done |].
    set (f := λ q, if bool_decide (page_id q = page_id p)
                   then Page (page_id q) (slug q) (String c0 r0) (Some (now e))
                   else q).
    assert (Hfslug : ∀ q, slug (f q) = slug q)
      by (intros q; unfold f; now case_bool_decide).
    assert (Hfid : ∀ q, page_id (f q) = page_id q)
      by (intros q; unfold f; now case_bool_decide).
    split; [| split].
    + unfold get_page. cbn [pages].
      rewrite (filter_map_keeps f) by (intros q; now rewrite Hfslug).
      rewrite Hone. simpl. unfold f. now rewrite bool_decide_eq_true_2.
    + intros s' Hs'. unfold get_page. cbn [pages].
      rewrite (filter_map_keeps f) by (intros q; now rewrite Hfslug).
      rewrite map_id_on; [done |].
      intros q Hq. apply list_elem_of_In, filter_In in Hq as [Hq Hqs].
      apply list_elem_of_In in Hq. apply bool_decide_eq_true in Hqs.
      unfold f. rewrite bool_decide_eq_false_2; [done |].
      intros Hid. assert (q = p) by now apply (NoDup_map_inj page_id (pages w)).
      subst q. congruence.
    + unfold well_keyed. cbn [pages]. rewrite !List.map_map.
      rewrite (List.map_ext _ page_id) by exact Hfid.
      now rewrite (List.map_ext _ slug) by exact Hfslug.
Qed.

Lemma legal_page_round_trip_witness :
  let owner := Context "paid" "user" "owner@example.com" (Some "active") "k" in
  let e := Env 1762041600 false false false 2 in
  let w := World [Page 1 "terms" "old" None] [] in
  let r := post_page sample_config e owner sample_user "terms" (Some "new") w in
  fst r = 200
  ∧ fst (get_page "terms" (snd r)) = "new"
  ∧ (∀ s', s' ≠ "terms" → get_page s' (snd r) = get_page s' w)
  ∧ well_keyed (snd r).
Proof.
  intros owner e w.
  apply (legal_page_round_trip sample_config e owner sample_user "terms" "new" w);
    try reflexivity; try discriminate.
  - split; simpl; apply NoDup_singleton.
  - simpl. intros H. apply list_elem_of_singleton in H. discriminate H.
Defined.

End LegalFacts.

(** ** The routers and the bearer token *)

Section RoutersFacts.

Import Roles.

Lemma substring_whole (s : string) : String.substring 0 (String.length s) s = s.
Proof. induction s as [|c s IH]; [done |]. simpl. now rewrite IH. Qed.

Lemma prefix_append (p h : string) :
  String.prefix p h = true → ∃ t, h = p +:+ t.
Proof.
  revert h. induction p as [|a p IH]; intros h H.
  - exists h. now rewrite append_nil.
  - destruct h as [|b h]; [discriminate H |]. cbn [String.prefix] in H.
    destruct (ascii_dec a b) as [<- |]; [| discriminate H].
    destruct (IH h H) as [t ->]. exists t. now rewrite append_cons.
Qed.

Lemma prefix_Bearer (h : string) :
  String.prefix "Bearer " h = true → ∃ t, h = "Bearer " +:+ t.
Proof. apply prefix_append. Qed.

Lemma prefix_app (p t : string) : String.prefix p (p +:+ t) = true.
Proof.
  induction p as [|a p IH]; [rewrite append_nil; now destruct t |].
  rewrite append_cons. cbn [String.prefix].
  now destruct (ascii_dec a a).
Qed.

Lemma substring_drop (p t : string) :
  String.substring (String.length p) (String.length (p +:+ t) - String.length p)
    (p +:+ t) = t.
Proof.
  induction p as [|a p IH].
  - rewrite append_nil. simpl. rewrite Nat.sub_0_r. apply substring_whole.
  - rewrite append_cons. simpl. exact IH.
Qed.

Lemma remove_first_Bearer (t : string) : remove_first "Bearer " ("Bearer " +:+ t) = t.
Proof.
  change (remove_first "Bearer " ("Bearer " +:+ t))
    with (if String.prefix "Bearer " ("Bearer " +:+ t)
          then String.substring (String.length "Bearer ")
                 (String.length ("Bearer " +:+ t) - String.length "Bearer ")
                 ("Bearer " +:+ t)
          else String "B" (remove_first "Bearer " ("earer " +:+ t))).
  rewrite prefix_app. apply substring_drop.
Qed.

Lemma bearer_token_Bearer (t : string) :
  Identity.bearer_token ("Bearer " +:+ t) = Some t.
Proof.
  unfold Identity.bearer_token. rewrite prefix_app. f_equal.
  apply (substring_drop "Bearer " t).
Qed.

Lemma remove_first_absent (c : ascii) (h : string) :
  (∀ k t, h ≠ k +:+ String c t) → ∀ pat, remove_first (String c pat) h = h.
Proof.
  intros Hno pat. induction h as [|a h IH]; [done |].
  cbn [remove_first String.prefix].
  destruct (ascii_dec c a) as [<- | Hne].
  - exfalso. apply (Hno EmptyString h). now rewrite append_nil.
  - f_equal. apply IH. intros k t ->. apply (Hno (String a k) t).
    now rewrite append_cons.
Qed.

(** X25.  The token comes back from the header.  The header the client
    builds from a token gives that token to the middleware of
    server/app.js and to the routers alike, and the two extractions agree
    on every header that starts with the scheme.  A header without a
    capital B, which app.js refuses, is taken whole as the token by the
    routers. *)
Theorem bearer_token_round_trip (token : string) :
  Identity.bearer_token (Client.authorization token) = Some token
  ∧ token_of (Some (Client.authorization token)) = token
  ∧ (∀ h, String.prefix "Bearer " h = true →
       Identity.bearer_token h = Some (token_of (Some h)))
  ∧ (∀ h, (∀ k t, h ≠ k +:+ String "B" t) →
       Identity.bearer_token h = None ∧ token_of (Some h) = h).
Proof.
  unfold Client.authorization, token_of. cbn [default from_option].
  split; [apply bearer_token_Bearer |]. split; [apply remove_first_Bearer |]. split.
  - intros h Hh. destruct (prefix_Bearer h Hh) as [t ->]. unfold Datatypes.id.
    now rewrite bearer_token_Bearer, remove_first_Bearer.
  - intros h Hno. unfold Datatypes.id. split; [| now apply remove_first_absent].
    unfold Identity.bearer_token.
    destruct (String.prefix "Bearer " h) eqn:Hp; [| done].
    destruct (prefix_Bearer h Hp) as [t ->]. exfalso.
    apply (Hno EmptyString ("earer " +:+ t)). reflexivity.
Qed.

(** X26.  In routes/roles.js an admin can edit whatever the edit flag
    says: after a revoke that succeeds, the user whose flag was cleared
    still passes requireEditor exactly when the user's role is admin. *)
Theorem revoke_spares_admins (ident : identity) (profiles : gmap string row)
    (authHeader : option string) (getUser : string → option Identity.user)
    (user : Identity.user) (p : row) (c : ascii) (t : string) :
  requireAdmin ident = None →
  token_of authHeader = String c t →
  getUser (String c t) = Some user →
  profiles !! Identity.id user = Some p →
  let profiles' := snd (set_can_edit false ident (Identity.id user) false profiles) in
  requireEditor (getIdentity authHeader getUser false profiles') = None
  ↔ role p = Some "admin".
Proof.
  intros Hadmin Htok Huser Hp profiles'. subst profiles'.
  unfold set_can_edit. rewrite Hadmin, Hp. cbn [snd].
  unfold getIdentity. rewrite Htok, Huser, lookup_insert_eq.
  unfold requireEditor. cbn.
  case_bool_decide; split; intros; done.
Qed.

Lemma revoke_spares_admins_witness :
  let getUser := λ t : string,
    if bool_decide (t = "tok") then Some Identity.sample_user else None in
  let admin := Identity_ (Some Identity.sample_user) "admin" true None in
  let profiles : gmap string row := {["u1" := Row (Some "admin") (Some true) None]} in
  let profiles' := snd (set_can_edit false admin "u1" false profiles) in
  can_edit <$> profiles' !! "u1" = Some (Some false)
  ∧ (requireEditor (getIdentity (Some "Bearer tok") getUser false profiles') = None
     ↔ Some "admin" = Some "admin").
Proof.
  intros getUser admin profiles profiles'. split; [vm_compute; reflexivity |].
  apply (revoke_spares_admins admin profiles (Some "Bearer tok") getUser
           Identity.sample_user (Row (Some "admin") (Some true) None) "t" "ok");
    reflexivity.
Defined.

End RoutersFacts.

Section UpdateFacts.

Import ExcelRouter.

Lemma apply_changes_from_None (decode : string → option (nat * nat))
    (cs : list change) :
  foldl (λ st c, st ≫= apply_change decode c) None cs = None.
Proof. induction cs as [|c cs IH]; [done | exact IH]. Qed.

Lemma apply_changes_length (decode : string → option (nat * nat))
    (cs : list change) (wb wb' : list sheet) (ds0 ds : list diff) :
  foldl (λ st c, st ≫= apply_change decode c) (Some (wb, ds0)) cs = Some (wb', ds) →
  length ds = length ds0 + length cs.
Proof.
  revert wb ds0. induction cs as [|c cs IH]; intros wb ds0 H.
  - injection H as _ <-. simpl. lia.
  - cbn [foldl] in H.
    destruct (Some (wb, ds0) ≫= apply_change decode c) as [[wb1 ds1]|] eqn:Hc.
    + apply IH in H. rewrite H. cbn [mbind option_bind] in Hc.
      unfold apply_change in Hc.
      repeat case_match; simplify_eq; cbn in *;
        repeat (match goal with
                | H : _ ≫= _ = Some _ |- _ => apply bind_Some in H as (? & ? & H)
                end);
        simplify_eq; cbn; rewrite ?length_app; simpl; lia.
    + now rewrite apply_changes_from_None in H.
Qed.

(** X27.  POST /update of routes/excel.js stores every change or none.
    Whatever the request, either the answer is a failure and the bucket
    and the log are as they were, or the answer counts all the changes of
    the request and the stored workbook is the one the changes, applied
    in order to the workbook that was stored, produce. *)
Theorem update_all_or_nothing (FILE_KEY : string) (e : env)
    (authHeader : option string) (getUser : string → option auth_user)
    (changes : option (list change)) (w : world) :
  match fst (update FILE_KEY e authHeader getUser changes w) with
  | Failure _ => snd (update FILE_KEY e authHeader getUser changes w) = w
  | Applied n =>
      ∃ cs wb wb' ds,
        changes = Some cs ∧ n = length cs
        ∧ storage w !! FILE_KEY = Some wb
        ∧ apply_changes (decodeAddress e) cs wb = Some (wb', ds)
        ∧ storage (snd (update FILE_KEY e authHeader getUser changes w))
          = <[FILE_KEY := wb']> (storage w)
  end.
Proof.
  unfold update.
  destruct (getIdentity authHeader getUser) as [[[user|] role] can_edit]; [| done].
  destruct can_edit; [| done]. cbn [negb].
  destruct changes as [[|c cs]|]; [done | | done].
  destruct (download_fails e); [done |].
  destruct (storage w !! FILE_KEY) as [wb|] eqn:Hwb; [| done].
  destruct (apply_changes (decodeAddress e) (c :: cs) wb) as [[wb' ds]|] eqn:Happly;
    [| done].
  destruct (upload_fails e); [done |]. cbn [fst snd storage].
  exists (c :: cs), wb, wb', ds. split; [done |].
  split; [| done]. unfold apply_changes in Happly.
  now apply apply_changes_length in Happly.
Qed.

End UpdateFacts.

(** ** Isolation: users, readers and the audit view *)

Section IsolationFacts.

Import Identity Gate Excel Server.

(** An operation appends at most one audit row, and that row is the
    caller's. *)
Lemma audit_after_run (cfg : config) (e : env) (u : user) (ctx : context)
    (op : operation) (w : world) :
  excel_audit (snd (run cfg e u ctx op w)) = excel_audit w
  ∨ ∃ action n,
      excel_audit (snd (run cfg e u ctx op w))
      = excel_audit w ++ [AuditEntry (id u) (userEmail ctx) action (Some n) (now e)].
Proof.
  destruct op; cbn [run];
    [unfold add_sheet | unfold delete_sheet | unfold save_all | unfold get_cell
     | unfold preview_route];
    unfold updateBufferToStorage, insert_audit, broadcastSSE;
    repeat case_match; simplify_eq; cbn; eauto.
Qed.

Lemma count_today_foreign (uid : string) (actions : list string) (now : Z)
    (row : audit_entry) :
  a_user_id row ≠ uid → count_today [row] uid actions now = 0.
Proof.
  intros Hne. unfold count_today. rewrite filter_cons_False; [done |].
  unfold matches. now rewrite (bool_decide_eq_false_2 _ Hne).
Qed.

(** X28.  The quotas of one user are not spent by another.  Whatever a
    user does on the workbook routes, each free-plan gate of every other
    user decides after it as it did before it. *)
Theorem quota_isolation (cfg : config) (e : env) (u : user) (ctx : context)
    (op : operation) (w : world) (r : route) (ctx' : context) (uid' : string)
    (now' : Z) (ok : bool) :
  uid' ≠ id u →
  free_plan_gate r ctx' uid' (excel_audit (snd (run cfg e u ctx op w))) now' ok
  = free_plan_gate r ctx' uid' (excel_audit w) now' ok.
Proof.
  intros Hne.
  destruct (audit_after_run cfg e u ctx op w) as [-> | (action & n & ->)]; [done |].
  unfold free_plan_gate. destruct ok; [| done].
  rewrite count_today_app, count_today_foreign by (simpl; congruence).
  now rewrite Nat.add_0_r.
Qed.

Lemma quota_isolation_witness :
  "u2" ≠ id sample_user
  ∧ free_plan_gate AddSheet free_context "u2"
      (excel_audit (snd (run sample_config working_env sample_user paid_context
                           (OpAddSheet (Some "New") false) sample_world)))
      sample_now true
    = free_plan_gate AddSheet free_context "u2" (excel_audit sample_world) sample_now true.
Proof.
  split; [discriminate |].
  apply (quota_isolation sample_config working_env sample_user paid_context
           (OpAddSheet (Some "New") false) sample_world AddSheet free_context "u2"
           sample_now true).
  discriminate.
Defined.

(** X29.  The routes that read do not write.  GET /excel/get leaves the
    bucket and the event stream as they were, whatever it answers, and
    GET /excel/preview and GET /excel/sheets leave everything as it
    was. *)
Theorem read_routes_never_write (cfg : config) (e : env) (u : user) (ctx : context)
    (sheet cell scope : option string) (w : world) :
  storage (snd (get_cell cfg e u ctx sheet cell scope w)) = storage w
  ∧ events (snd (get_cell cfg e u ctx sheet cell scope w)) = events w
  ∧ snd (preview_route cfg e u ctx sheet w) = w
  ∧ snd (list_sheets cfg e u ctx w) = w.
Proof.
  split; [| split; [| split]].
  - unfold get_cell, insert_audit. repeat case_match; simplify_eq; reflexivity.
  - unfold get_cell, insert_audit. repeat case_match; simplify_eq; reflexivity.
  - unfold preview_route. repeat case_match; simplify_eq; reflexivity.
  - unfold list_sheets. repeat case_match; simplify_eq; reflexivity.
Qed.

End IsolationFacts.

Section AuditListFacts.

Import Identity Gate AuditList.

Variable range : Z → Z → list audit_entry → option (list audit_entry).

(** What the route relies on from the service: a range of an ordered
    list is rows of that list, no more than the range has indices. *)
Hypothesis range_rows :
  ∀ from to rows result,
    range from to rows = Some result →
    (∀ row, row ∈ result → row ∈ rows)
    ∧ (Z.of_nat (length result) ≤ Z.max 0 (to - from + 1))%Z.

Lemma insert_desc_elem (row x : audit_entry) (l : list audit_entry) :
  x ∈ insert_desc row l ↔ x = row ∨ x ∈ l.
Proof.
  induction l as [|y l IH]; simpl.
  - rewrite list_elem_of_singleton, elem_of_nil. tauto.
  - case_bool_decide; rewrite !elem_of_cons, ?IH, ?elem_of_cons; tauto.
Qed.

Lemma order_desc_elem (x : audit_entry) (l : list audit_entry) :
  x ∈ order_desc l ↔ x ∈ l.
Proof.
  unfold order_desc. induction l as [|y l IH]; simpl; [done |].
  rewrite insert_desc_elem, elem_of_cons, IH. tauto.
Qed.

Lemma limit_of_cap (q : option Z) : (limit_of q ≤ 500)%Z.
Proof. unfold limit_of. lia. Qed.

(** X30.  GET /audit/list serves at most 500 entries whatever limit is
    asked for, each one the normal form of a row of the audit table, and
    to a user who is neither superadmin nor the owner only rows of that
    user. *)
Theorem audit_list_own_and_capped (cfg : config) (ctx : context) (u : user)
    (limit offset : option Z) (table : list audit_entry) (entries : list entry) :
  audit_list range cfg ctx u limit offset table = inr entries →
  ∃ rows,
    entries = List.map normalize rows
    ∧ length entries ≤ 500
    ∧ ∀ row, row ∈ rows →
        row ∈ table
        ∧ (userRole ctx ≠ "superadmin" → userEmail ctx ≠ OWNER_EMAIL cfg →
           a_user_id row = id u).
Proof.
  unfold audit_list. destruct (plan_gate cfg AuditList ctx) as [[st msg]|]; [done |].
  destruct (selected range cfg ctx u limit offset table) as [rows|] eqn:Hsel; [| done].
  intros [= <-]. exists rows. split; [done |].
  unfold selected in Hsel. apply range_rows in Hsel as [Hin Hlen].
  split.
  - rewrite length_map. pose proof (limit_of_cap limit). lia.
  - intros row Hrow. apply Hin in Hrow. rewrite order_desc_elem in Hrow.
    destruct (decide (userRole ctx = "superadmin")) as [Hr | Hr].
    + rewrite (bool_decide_eq_false_2 _ (λ H, H Hr)) in Hrow.
      change (row ∈ table) in Hrow.
      split; [exact Hrow |]. intros Hno. contradiction.
    + rewrite (bool_decide_eq_true_2 _ Hr) in Hrow.
      destruct (decide (userEmail ctx = OWNER_EMAIL cfg)) as [Hm | Hm].
      * rewrite (bool_decide_eq_false_2 _ (λ H, H Hm)) in Hrow.
        change (row ∈ table) in Hrow.
        split; [exact Hrow |]. intros _ Hno. contradiction.
      * rewrite (bool_decide_eq_true_2 _ Hm) in Hrow.
        change (row ∈ List.filter (λ row, bool_decide (a_user_id row = id u)) table)
          in Hrow.
        apply list_elem_of_In, filter_In in Hrow as [Hrow Hown].
        apply list_elem_of_In in Hrow. apply bool_decide_eq_true in Hown. done.
Qed.

End AuditListFacts.

Lemma window_rows (from to : Z) (rows result : list Gate.audit_entry) :
  AuditList.window from to rows = Some result →
  (∀ row, row ∈ result → row ∈ rows)
  ∧ (Z.of_nat (length result) ≤ Z.max 0 (to - from + 1))%Z.
Proof.
  unfold AuditList.window. destruct (from <? 0)%Z; [done |]. intros [= <-]. split.
  - intros row Hrow. apply elem_of_take in Hrow as (i & Hi & _).
    rewrite lookup_drop in Hi. now apply list_elem_of_lookup_2 in Hi.
  - rewrite length_take. lia.
Qed.

Lemma audit_list_own_and_capped_witness :
  let table := Gate.three_queries
                 ++ [Gate.AuditEntry "u2" "u2@example.com" "save_all" (Some "S") 1762041700] in
  AuditList.audit_list AuditList.window Identity.sample_config Server.paid_context
    Identity.sample_user (Some 1000%Z) None table
  = inr (List.map AuditList.normalize (rev Gate.three_queries))
  ∧ ∃ rows,
      List.map AuditList.normalize (rev Gate.three_queries)
      = List.map AuditList.normalize rows
      ∧ length (List.map AuditList.normalize (rev Gate.three_queries)) ≤ 500
      ∧ ∀ row, row ∈ rows →
          row ∈ table
          ∧ (Identity.userRole Server.paid_context ≠ "superadmin" →
             Identity.userEmail Server.paid_context
             ≠ Identity.OWNER_EMAIL Identity.sample_config →
             Gate.a_user_id row = Identity.id Identity.sample_user).
Proof.
  intros table.
  assert (H : AuditList.audit_list AuditList.window Identity.sample_config
                Server.paid_context Identity.sample_user (Some 1000%Z) None table
              = inr (List.map AuditList.normalize (rev Gate.three_queries)))
    by (vm_compute; reflexivity).
  split; [exact H |].
  exact (audit_list_own_and_capped AuditList.window window_rows Identity.sample_config
           Server.paid_context Identity.sample_user (Some 1000%Z) None table _ H).
Defined.
